(** * Admin mode and impersonation of juango: session state machine

    A shallow embedding of the [admin] handlers (admin mode enable/disable,
    impersonation start/stop/status), of the [auth] session middleware
    (Authenticate, RequireAuth, RequireAdminMode, the audit helpers) and of
    the [types] records they store in the session, followed by the
    properties of the privilege-elevation and identity-substitution
    lifecycle.

    The gorilla session is a Go map from keys to dynamically typed values:
    it is a [gmap string Value] here.  The collaborators behind interfaces
    (session store, user store, audit logger) and the library functions the
    handlers call ([strings.TrimSpace], [uuid.Parse], [UUID.String]) are
    parameters of the development; of the session store, that includes
    what its [Save] does with the nil writer [Authenticate] passes. *)

From Stdlib Require Import ZArith Lia Ascii String.
From stdpp Require Import base option strings gmap.

Local Open Scope Z_scope.

(** ** Package time

    A [Time] is the number of nanoseconds elapsed since the zero [Time]
    (January 1, year 1, 00:00:00 UTC), the value of an uninitialised
    [time.Time].  A [Duration] is an int64 count of nanoseconds; [Time.Sub]
    saturates at the largest and smallest [Duration]. *)
Module time.

Definition Time := Z.
Definition Duration := Z.

Definition minDuration : Duration := - 2 ^ 63.
Definition maxDuration : Duration := 2 ^ 63 - 1.

(** [time.Time{}] *)
Definition zero : Time := 0.

(** [t.Sub(u)] *)
Definition Sub (t u : Time) : Duration :=
  if t - u <? minDuration then minDuration
  else if maxDuration <? t - u then maxDuration
  else t - u.

(** [time.Since(t)], with [now] the reading of the clock. *)
Definition Since (now t : Time) : Duration := Sub now t.

End time.

(** ** Package uuid

    A [uuid.UUID] is an array of 16 bytes compared with [==]; it is the
    number those bytes spell.  [uuid.Nil] is the all-zero UUID. *)
Definition UUID := N.

Module uuid.
Definition Nil : UUID := 0%N.
End uuid.

(** Library functions used by the handlers. *)
Class GoLib := {
  (** [strings.TrimSpace] *)
  TrimSpace : string → string;
  (** [uuid.Parse]: [None] stands for a non-nil error *)
  uuid_Parse : string → option UUID;
  (** [UUID.String] *)
  uuid_String : UUID → string;
}.

(** ** Package net/http: the status codes in use *)
Module http.
Definition StatusOK : Z := 200.
Definition StatusBadRequest : Z := 400.
Definition StatusUnauthorized : Z := 401.
Definition StatusForbidden : Z := 403.
Definition StatusNotFound : Z := 404.
Definition StatusInternalServerError : Z := 500.
End http.

(** ** Package types *)

Module User.
Record t := mk {
  ID : UUID;
  Email : string;
  Name : string;
  DisplayName : string;
  IsAdmin : bool;
}.
End User.

Module AdminModeState.

Record t := mk {
  Enabled : bool;
  Since : time.Time;
  Reason : string;
  IPAddress : string;
}.

(** The zero value, [var previousState types.AdminModeState]. *)
Definition zero : t := mk false time.zero "" "".

Definition IsExpired (now : time.Time) (a : t) (timeout : time.Duration) : bool :=
  if negb (Enabled a) then true
  else timeout <? time.Since now (Since a).

Definition Duration (now : time.Time) (a : t) : time.Duration :=
  time.Since now (Since a).

End AdminModeState.

Module ImpersonationState.

Record t := mk {
  Enabled : bool;
  Since : time.Time;
  Reason : string;
  TargetUserID : UUID;
  TargetUserEmail : string;
  TargetUserName : string;
  OriginalAdminID : UUID;
  IPAddress : string;
}.

Definition IsExpired (now : time.Time) (i : t) (timeout : time.Duration) : bool :=
  if negb (Enabled i) then true
  else timeout <? time.Since now (Since i).

Definition Duration (now : time.Time) (i : t) : time.Duration :=
  time.Since now (Since i).

End ImpersonationState.

(** [types.HTTPError]; the wrapped [Err] is only logged. *)
Module HTTPError.
Record t := mk { Code : Z; Msg : string }.
End HTTPError.

Definition NewHTTPError (code : Z) (msg : string) : HTTPError.t :=
  HTTPError.mk code msg.

Module NullUUID.
Record t := mk { UUID_ : UUID; Valid : bool }.
Definition zero : t := mk uuid.Nil false.
End NullUUID.

(** A value of the [Changes] map of an audit entry.  [DDuration d] is the
    text [d.String()]; [DObject] is a nested map of strings. *)
Inductive Detail :=
  | DString (s : string)
  | DDuration (d : time.Duration)
  | DObject (m : gmap string string).

Definition ActionAdminModeEnabled : string := "user.admin_mode_enabled".
Definition ActionAdminModeDisabled : string := "user.admin_mode_disabled".
Definition ActionImpersonationStarted : string := "user.impersonation_started".
Definition ActionImpersonationStopped : string := "user.impersonation_stopped".
Definition ActionImpersonationExpired : string := "user.impersonation_expired".
Definition ResourceTypeUser : string := "user".

Module AuditLog.

Record t := mk {
  Timestamp : time.Time;
  ActorUserID : NullUUID.t;
  Action : string;
  ResourceType : string;
  ResourceID : string;
  Changes : gmap string Detail;
  IPAddress : option string;
  UserAgent : option string;
}.

(** [a.Changes[k] = v] for every entry of [changes]. *)
Definition WithChanges (a : t) (changes : gmap string Detail) : t :=
  mk (Timestamp a) (ActorUserID a) (Action a) (ResourceType a) (ResourceID a)
     (changes ∪ Changes a) (IPAddress a) (UserAgent a).

Definition WithIPAddress (a : t) (ip : string) : t :=
  if decide (ip = "") then a
  else mk (Timestamp a) (ActorUserID a) (Action a) (ResourceType a)
          (ResourceID a) (Changes a) (Some ip) (UserAgent a).

Definition WithUserAgent (a : t) (ua : string) : t :=
  if decide (ua = "") then a
  else mk (Timestamp a) (ActorUserID a) (Action a) (ResourceType a)
          (ResourceID a) (Changes a) (IPAddress a) (Some ua).

End AuditLog.

(** [types.NewAuditLog]; a nil or invalid actor leaves the zero [NullUUID]. *)
Definition NewAuditLog (now : time.Time) (actorUserID : option NullUUID.t)
    (action resourceType resourceID : string) : AuditLog.t :=
  AuditLog.mk now
    (match actorUserID with
     | Some a => if NullUUID.Valid a then a else NullUUID.zero
     | None => NullUUID.zero
     end)
    action resourceType resourceID ∅ None None.

(** ** The session

    [session.Values] maps keys to values of any type; the handlers store a
    bool under ["logged"], strings under ["user_id"] and
    ["original_user_id"], an [AdminModeState] under ["admin_mode"] and an
    [ImpersonationState] under ["impersonation_state"]. *)
Inductive Value :=
  | VBool (b : bool)
  | VString (s : string)
  | VAdminMode (a : AdminModeState.t)
  | VImpersonation (i : ImpersonationState.t).

(** The type assertions [v.(bool)], [v.(string)], ... in their two-result
    form: [None] when the key is missing or holds another type. *)
Definition as_bool (v : option Value) : option bool :=
  match v with Some (VBool b) => Some b | _ => None end.
Definition as_string (v : option Value) : option string :=
  match v with Some (VString s) => Some s | _ => None end.
Definition as_AdminModeState (v : option Value) : option AdminModeState.t :=
  match v with Some (VAdminMode a) => Some a | _ => None end.
Definition as_ImpersonationState (v : option Value) : option ImpersonationState.t :=
  match v with Some (VImpersonation i) => Some i | _ => None end.

(** ** The request

    The values the middleware puts in the request context. *)
Module Ctx.
Record t := mk {
  ContextKeyUser : option User.t;
  ContextKeyImpersonationState : option ImpersonationState.t;
  ContextKeyOriginalAdminID : option UUID;
}.
Definition Background : t := mk None None None.
End Ctx.

(** The members of the JSON request body the handlers decode. *)
Module Body.
Record t := mk { target_user_id : string; reason : string }.
End Body.

(** [sessions.Store] is an interface, and the program that builds the
    middleware chooses the implementation.  The handlers call
    [session.Save(r, w)] with their response writer.  [Authenticate] has no
    writer and calls [session.Save(r, nil)]; what [Save] does with a nil
    [http.ResponseWriter] is the store's.  A store that sets a cookie when
    it saves hands the writer to [http.SetCookie], which calls
    [w.Header()]: on a nil writer that is a nil dereference.  Such a store
    panics either before anything is kept (the cookie is the session, as in
    gorilla's [CookieStore]) or after it wrote the session to its own
    storage (as gorilla's [FilesystemStore] does with its file).  An error
    of encoding or writing is returned before the writer is reached. *)
Module Store.
Inductive t :=
  | SavesWithoutWriter
  | PanicsBeforeSaving
  | PanicsAfterSaving.

(** [Save(r, nil)] returns when no error precedes the use of the writer. *)
Definition returns_without_writer (store : t) : bool :=
  match store with
  | SavesWithoutWriter => true
  | PanicsBeforeSaving | PanicsAfterSaving => false
  end.

(** [Save(r, nil)] keeps the session when no error precedes. *)
Definition keeps_without_writer (store : t) : bool :=
  match store with
  | SavesWithoutWriter | PanicsAfterSaving => true
  | PanicsBeforeSaving => false
  end.
End Store.

(** One inbound request, with the answers of the collaborators during it:
    [Decode] is the result of [json.Decoder.Decode] ([None] on error),
    [ClientIP] the value of [auth.GetClientIP(r)], [GetErr] and [SaveErr]
    tell whether [sessionStore.Get] and [session.Save] return an error.
    [Now] is the reading of the clock: a handler reads it several times
    while it serves a request, and the model takes these readings to be
    the same instant. *)
Module Request.
Record t := mk {
  Context : Ctx.t;
  Decode : option Body.t;
  ClientIP : string;
  UserAgent : string;
  Now : time.Time;
  GetErr : bool;
  SaveErr : bool;
}.
Definition WithContext (r : t) (ctx : Ctx.t) : t :=
  mk ctx (Decode r) (ClientIP r) (UserAgent r) (Now r) (GetErr r) (SaveErr r).
End Request.

(** What a handler writes to the [http.ResponseWriter]. *)
Inductive ResponseBody :=
  | ErrorText (msg : string)
  | AdminModeStatusResponse (IsAdmin : bool) (AdminMode : option AdminModeState.t)
  | AdminModeEnableResponse (Message : string) (State : AdminModeState.t)
  | AdminModeDisableResponse (Message : string)
  | ImpersonationStartResponse (Message : string) (Impersonation : ImpersonationState.t)
  | ImpersonationStopResponse (Message : string)
  | ImpersonationStatusResponse (Active : bool) (Impersonation : option ImpersonationState.t).

Module Response.
Record t := mk { Status : Z; Body : ResponseBody }.
End Response.

(** ** Running a handler

    The state a request acts on: [session] is [session.Values] of the
    session object of the request (the store hands out the same object to
    every [Get] of one request), [stored] is what the store keeps between
    requests, [saves] counts the calls of [session.Save], [audit] lists the
    entries given to [auditLogger.CreateAuditLog] (oldest first) and
    [response] is what was written to the client. *)
Record St := mkSt {
  session : gmap string Value;
  stored : gmap string Value;
  saves : nat;
  audit : list AuditLog.t;
  response : option Response.t;
}.

(** A request starts from the stored session. *)
Definition start (vals : gmap string Value) : St := mkSt vals vals 0%nat [] None.

(** The ways a piece of handler code ends: it yields a value, it executes
    [return], or it panics. *)
Inductive Res (A : Type) :=
  | Ret (a : A)
  | Returned
  | Panicked.
Arguments Ret {A} a.
Arguments Returned {A}.
Arguments Panicked {A}.

Definition M (A : Type) : Type := St → Res A * St.

Definition ret {A} (a : A) : M A := λ s, (Ret a, s).

Definition bind {A B} (m : M A) (k : A → M B) : M B :=
  λ s, match m s with
       | (Ret a, s') => k a s'
       | (Returned, s') => (Returned, s')
       | (Panicked, s') => (Panicked, s')
       end.

Notation "x <- m ;; k" := (bind m (λ x, k))
  (at level 100, m at next level, right associativity).
Notation "m ;; k" := (bind m (λ _, k))
  (at level 100, right associativity).

(** The statement [return]. *)
Definition return_ {A} : M A := λ s, (Returned, s).

(** A nil pointer dereference or a failed single-result type assertion. *)
Definition panic {A} : M A := λ s, (Panicked, s).

Definition deref {A} (p : option A) : M A :=
  match p with Some a => ret a | None => panic end.

(** Calling a function whose [return] ends the callee only. *)
Definition call (m : M unit) : M unit :=
  λ s, match m s with
       | (Returned, s') => (Ret tt, s')
       | other => other
       end.

Definition Values_get (k : string) : M (option Value) :=
  λ s, (Ret (session s !! k), s).

Definition Values_set (k : string) (v : Value) : M unit :=
  λ s, (Ret tt, mkSt (<[k := v]> (session s)) (stored s) (saves s) (audit s) (response s)).

Definition Values_delete (k : string) : M unit :=
  λ s, (Ret tt, mkSt (delete k (session s)) (stored s) (saves s) (audit s) (response s)).

(** [sessionStore.Get]: yields [true] when it returns an error. *)
Definition sessionStore_Get (r : Request.t) : M bool := ret (Request.GetErr r).

(** [session.Save(r, w)] with the response writer of the handler: yields
    [true] when it returns an error, in which case the store keeps what it
    had. *)
Definition session_Save (r : Request.t) : M bool :=
  λ s, if Request.SaveErr r
       then (Ret true, mkSt (session s) (stored s) (S (saves s)) (audit s) (response s))
       else (Ret false, mkSt (session s) (session s) (S (saves s)) (audit s) (response s)).

(** [session.Save(r, nil)]: an error is returned before the store reaches
    the writer; otherwise the store saves, or panics on the nil writer with
    the session kept or not. *)
Definition session_Save_nil (store : Store.t) (r : Request.t) : M bool :=
  λ s, if Request.SaveErr r
       then (Ret true, mkSt (session s) (stored s) (S (saves s)) (audit s) (response s))
       else match store with
            | Store.SavesWithoutWriter =>
                (Ret false,
                 mkSt (session s) (session s) (S (saves s)) (audit s) (response s))
            | Store.PanicsBeforeSaving =>
                (Panicked,
                 mkSt (session s) (stored s) (S (saves s)) (audit s) (response s))
            | Store.PanicsAfterSaving =>
                (Panicked,
                 mkSt (session s) (session s) (S (saves s)) (audit s) (response s))
            end.

(** [auditLogger.CreateAuditLog]; its error is only logged. *)
Definition CreateAuditLog (a : AuditLog.t) : M unit :=
  λ s, (Ret tt, mkSt (session s) (stored s) (saves s) (audit s ++ [a]) (response s)).

(** The first write sets the status of the response. *)
Definition write (status : Z) (body : ResponseBody) : M unit :=
  λ s, (Ret tt, mkSt (session s) (stored s) (saves s) (audit s)
                  (match response s with
                   | None => Some (Response.mk status body)
                   | Some w => Some w
                   end)).

(** [types.WriteHTTPError] *)
Definition WriteHTTPError (e : HTTPError.t) : M unit :=
  write (HTTPError.Code e) (ErrorText (HTTPError.Msg e)).

(** [json.NewEncoder(w).Encode(response)] *)
Definition Encode (body : ResponseBody) : M unit := write http.StatusOK body.

(** [if cond { types.WriteHTTPError(w, types.NewHTTPError(code, msg, err)); return }] *)
Definition reject_if (cond : bool) (code : Z) (msg : string) : M unit :=
  if cond then WriteHTTPError (NewHTTPError code msg) ;; return_ else ret tt.

(** The outcome of a handler on a stored session. *)
Definition run {A} (m : M A) (vals : gmap string Value) : Res A * St := m (start vals).

Definition status_of (s : St) : option Z := Response.Status <$> response s.

(** ** Package auth: the session middleware *)

Module SessionMiddleware.
(** [sessionStore] is the store as far as [Save(r, nil)] tells stores
    apart; [userStore] is [GetUserByID] ([None] for an error);
    [auditLogger] tells whether the logger is non-nil. *)
Record t := mk {
  sessionStore : Store.t;
  userStore : UUID → option User.t;
  auditLogger : bool;
  adminModeTimeout : time.Duration;
}.
End SessionMiddleware.

Section Auth.

Context `{GoLib}.

Definition GetUserFromContext (ctx : Ctx.t) : option User.t :=
  Ctx.ContextKeyUser ctx.

Definition GetActorIDForAudit (ctx : Ctx.t) : UUID :=
  match Ctx.ContextKeyOriginalAdminID ctx with
  | Some originalAdminID =>
      if negb (N.eqb originalAdminID uuid.Nil) then originalAdminID
      else match Ctx.ContextKeyUser ctx with
           | Some user => User.ID user
           | None => uuid.Nil
           end
  | None =>
      match Ctx.ContextKeyUser ctx with
      | Some user => User.ID user
      | None => uuid.Nil
      end
  end.

Definition GetImpersonationContext (ctx : Ctx.t) : UUID * string * bool :=
  match Ctx.ContextKeyImpersonationState ctx with
  | Some impState =>
      (ImpersonationState.TargetUserID impState,
       ImpersonationState.TargetUserEmail impState, true)
  | None => (uuid.Nil, "", false)
  end.

Definition NewAuditLogWithContext (now : time.Time) (ctx : Ctx.t)
    (action resourceType resourceID : string) : M AuditLog.t :=
  let actorID := GetActorIDForAudit ctx in
  let actorIDPtr :=
    if negb (N.eqb actorID uuid.Nil)
    then Some (NullUUID.mk actorID true) else None in
  let auditLog := NewAuditLog now actorIDPtr action resourceType resourceID in
  let '(impersonatedUserID, impersonatedUserEmail, isImpersonating) :=
    GetImpersonationContext ctx in
  if isImpersonating then
    currentUser <- deref (Ctx.ContextKeyUser ctx) ;;
    ret (AuditLog.WithChanges auditLog
           {[ "_impersonation" :=
                DObject
                  (<["impersonated_user_id" := uuid_String impersonatedUserID]>
                   (<["impersonated_user_email" := impersonatedUserEmail]>
                    (<["impersonated_user_name" := User.DisplayName currentUser]>
                     (<["performed_by_admin_id" := uuid_String actorID]> ∅)))) ]})
  else ret auditLog.

(** [Authenticate] yields the user or the error it returns. *)
Definition Authenticate (m : SessionMiddleware.t) (r : Request.t)
    : M (HTTPError.t + User.t) :=
  err <- sessionStore_Get r ;;
  if err : bool then
    ret (inl (NewHTTPError http.StatusInternalServerError "Failed to get session"))
  else
  logged <- Values_get "logged" ;;
  match as_bool logged with
  | Some true =>
      let resolve : M (HTTPError.t + User.t) :=
        user_id <- Values_get "user_id" ;;
        match as_string user_id with
        | None => ret (inl (NewHTTPError http.StatusUnauthorized "Invalid session"))
        | Some userIDStr =>
            match uuid_Parse userIDStr with
            | None =>
                ret (inl (NewHTTPError http.StatusUnauthorized "Invalid user ID in session"))
            | Some userID =>
                match SessionMiddleware.userStore m userID with
                | None => ret (inl (NewHTTPError http.StatusUnauthorized "User not found"))
                | Some user => ret (inr user)
                end
            end
        end in
      impersonation_state <- Values_get "impersonation_state" ;;
      match as_ImpersonationState impersonation_state with
      | Some impState =>
          if ImpersonationState.Enabled impState
             && ImpersonationState.IsExpired (Request.Now r) impState
                  (SessionMiddleware.adminModeTimeout m)
          then
            original_user_id <- Values_get "original_user_id" ;;
            match as_string original_user_id with
            | Some originalUserIDStr =>
                Values_set "user_id" (VString originalUserIDStr) ;;
                Values_delete "impersonation_state" ;;
                Values_delete "original_user_id" ;;
                _ <- session_Save_nil (SessionMiddleware.sessionStore m) r ;;
                if SessionMiddleware.auditLogger m then
                  CreateAuditLog
                    (AuditLog.WithChanges
                       (NewAuditLog (Request.Now r)
                          (Some (NullUUID.mk
                                   (ImpersonationState.OriginalAdminID impState) true))
                          ActionImpersonationExpired ResourceTypeUser
                          (uuid_String (ImpersonationState.TargetUserID impState)))
                       (<["target_user_id" :=
                            DString (uuid_String (ImpersonationState.TargetUserID impState))]>
                        (<["target_user_email" :=
                             DString (ImpersonationState.TargetUserEmail impState)]>
                         (<["reason" := DString (ImpersonationState.Reason impState)]>
                          (<["duration" :=
                               DDuration (ImpersonationState.Duration (Request.Now r) impState)]>
                           ∅)))))
                else ret tt
            | None => ret tt
            end ;;
            ret (inl (NewHTTPError http.StatusUnauthorized "Impersonation session expired"))
          else resolve
      | None => resolve
      end
  | _ => ret (inl (NewHTTPError http.StatusUnauthorized "Authentication required"))
  end.

(** The context [RequireAuth] hands to the wrapped handler. *)
Definition RequireAuth (m : SessionMiddleware.t) (next : Request.t → M unit)
    (r : Request.t) : M unit :=
  res <- Authenticate m r ;;
  match res with
  | inl err => WriteHTTPError err ;; return_
  | inr user =>
      let ctx := Ctx.mk (Some user)
                   (Ctx.ContextKeyImpersonationState (Request.Context r))
                   (Ctx.ContextKeyOriginalAdminID (Request.Context r)) in
      impersonation_state <- Values_get "impersonation_state" ;;
      let ctx :=
        match as_ImpersonationState impersonation_state with
        | Some impState =>
            if ImpersonationState.Enabled impState
               && negb (ImpersonationState.IsExpired (Request.Now r) impState
                          (SessionMiddleware.adminModeTimeout m))
            then Ctx.mk (Ctx.ContextKeyUser ctx) (Some impState)
                   (Some (ImpersonationState.OriginalAdminID impState))
            else ctx
        | None => ctx
        end in
      next (Request.WithContext r ctx)
  end.

Definition RequireAdmin (m : SessionMiddleware.t) (next : Request.t → M unit)
    (r : Request.t) : M unit :=
  user <- deref (Ctx.ContextKeyUser (Request.Context r)) ;;
  reject_if (negb (User.IsAdmin user)) http.StatusForbidden "Admin privileges required" ;;
  next r.

Definition RequireAdminMode (m : SessionMiddleware.t) (next : Request.t → M unit)
    (r : Request.t) : M unit :=
  user <- deref (Ctx.ContextKeyUser (Request.Context r)) ;;
  reject_if (negb (User.IsAdmin user)) http.StatusForbidden "Admin privileges required" ;;
  err <- sessionStore_Get r ;;
  reject_if err http.StatusInternalServerError "Failed to get session" ;;
  admin_mode <- Values_get "admin_mode" ;;
  match as_AdminModeState admin_mode with
  | Some adminState =>
      reject_if (negb (AdminModeState.Enabled adminState)) http.StatusForbidden
        "Admin mode must be enabled to perform this action" ;;
      (if AdminModeState.IsExpired (Request.Now r) adminState
            (SessionMiddleware.adminModeTimeout m)
       then
         Values_delete "admin_mode" ;;
         _ <- session_Save r ;;
         WriteHTTPError (NewHTTPError http.StatusForbidden
           "Admin mode session expired. Please re-enable admin mode.") ;;
         return_
       else ret tt) ;;
      next r
  | None =>
      WriteHTTPError (NewHTTPError http.StatusForbidden
        "Admin mode must be enabled to perform this action") ;;
      return_
  end.

End Auth.

(** ** Package admin: the handlers *)

Module Handlers.
Record t := mk {
  userStore : UUID → option User.t;
  auditLogger : bool;
  adminModeTimeout : time.Duration;
}.
End Handlers.

Section Admin.

Context `{GoLib}.

(** The block every handler ends with, [if h.auditLogger != nil { ... }]:
    [.WithChanges(changes).WithIPAddress(ip).WithUserAgent(r.UserAgent())]
    on the entry of [NewAuditLogWithContext], then [CreateAuditLog].  The
    resource type is [ResourceTypeUser] at every use. *)
Definition emit (h : Handlers.t) (r : Request.t)
    (action resourceID : string) (changes : gmap string Detail) (ip : string)
    : M unit :=
  if Handlers.auditLogger h then
    auditLog <- NewAuditLogWithContext (Request.Now r) (Request.Context r)
                  action ResourceTypeUser resourceID ;;
    CreateAuditLog
      (AuditLog.WithUserAgent
         (AuditLog.WithIPAddress (AuditLog.WithChanges auditLog changes) ip)
         (Request.UserAgent r))
  else ret tt.

Definition AdminModeStatusHandler (h : Handlers.t) (r : Request.t) : M unit :=
  user <- deref (GetUserFromContext (Request.Context r)) ;;
  AdminMode <-
    (if User.IsAdmin user then
       err <- sessionStore_Get r ;;
       if err : bool then ret None
       else
         admin_mode <- Values_get "admin_mode" ;;
         match as_AdminModeState admin_mode with
         | Some adminState =>
             if AdminModeState.IsExpired (Request.Now r) adminState
                  (Handlers.adminModeTimeout h)
             then
               Values_delete "admin_mode" ;;
               _ <- session_Save r ;;
               ret None
             else ret (Some adminState)
         | None => ret None
         end
     else ret None) ;;
  Encode (AdminModeStatusResponse (User.IsAdmin user) AdminMode).

Definition AdminModeEnableHandler (h : Handlers.t) (r : Request.t) : M unit :=
  let user := GetUserFromContext (Request.Context r) in
  match Request.Decode r with
  | None =>
      WriteHTTPError (NewHTTPError http.StatusBadRequest "Invalid request body") ;;
      return_
  | Some req =>
      reject_if (bool_decide (TrimSpace (Body.reason req) = ""))
        http.StatusBadRequest "Reason is required for admin mode" ;;
      err <- sessionStore_Get r ;;
      reject_if err http.StatusInternalServerError "Failed to get session" ;;
      let adminState :=
        AdminModeState.mk true (Request.Now r) (TrimSpace (Body.reason req))
          (Request.ClientIP r) in
      Values_set "admin_mode" (VAdminMode adminState) ;;
      err <- session_Save r ;;
      reject_if err http.StatusInternalServerError "Failed to save session" ;;
      user <- deref user ;;
      emit h r ActionAdminModeEnabled (uuid_String (User.ID user))
        (<["reason" := DString (AdminModeState.Reason adminState)]>
         (<["ip_address" := DString (AdminModeState.IPAddress adminState)]>
          (<["timeout" := DDuration (Handlers.adminModeTimeout h)]> ∅)))
        (AdminModeState.IPAddress adminState) ;;
      Encode (AdminModeEnableResponse "Admin mode enabled" adminState)
  end.

Definition AdminModeDisableHandler (h : Handlers.t) (r : Request.t) : M unit :=
  let user := GetUserFromContext (Request.Context r) in
  err <- sessionStore_Get r ;;
  reject_if err http.StatusInternalServerError "Failed to get session" ;;
  admin_mode <- Values_get "admin_mode" ;;
  let previousState :=
    match as_AdminModeState admin_mode with
    | Some adminState => adminState
    | None => AdminModeState.zero
    end in
  Values_delete "admin_mode" ;;
  Values_delete "impersonation_state" ;;
  Values_delete "original_user_id" ;;
  err <- session_Save r ;;
  reject_if err http.StatusInternalServerError "Failed to save session" ;;
  user <- deref user ;;
  emit h r ActionAdminModeDisabled (uuid_String (User.ID user))
    (<["previous_reason" := DString (AdminModeState.Reason previousState)]>
     (<["duration" := DDuration (AdminModeState.Duration (Request.Now r) previousState)]>
      (<["ip_address" := DString (Request.ClientIP r)]> ∅)))
    (Request.ClientIP r) ;;
  Encode (AdminModeDisableResponse "Admin mode disabled").

Definition ImpersonationStartHandler (h : Handlers.t) (r : Request.t) : M unit :=
  let adminUser := GetUserFromContext (Request.Context r) in
  match Request.Decode r with
  | None =>
      WriteHTTPError (NewHTTPError http.StatusBadRequest "Invalid request body") ;;
      return_
  | Some req =>
      reject_if (bool_decide (TrimSpace (Body.reason req) = ""))
        http.StatusBadRequest "Reason is required for impersonation" ;;
      match uuid_Parse (Body.target_user_id req) with
      | None =>
          WriteHTTPError (NewHTTPError http.StatusBadRequest "Target user ID is required") ;;
          return_
      | Some targetUserID =>
          reject_if (N.eqb targetUserID uuid.Nil)
            http.StatusBadRequest "Target user ID is required" ;;
          adminUser <- deref adminUser ;;
          reject_if (N.eqb targetUserID (User.ID adminUser))
            http.StatusBadRequest "Cannot impersonate yourself" ;;
          err <- sessionStore_Get r ;;
          reject_if err http.StatusInternalServerError "Failed to get session" ;;
          impersonation_state <- Values_get "impersonation_state" ;;
          reject_if
            (match as_ImpersonationState impersonation_state with
             | Some existingState => ImpersonationState.Enabled existingState
             | None => false
             end)
            http.StatusBadRequest
            "Already impersonating another user. Stop current impersonation first." ;;
          match Handlers.userStore h targetUserID with
          | None =>
              WriteHTTPError (NewHTTPError http.StatusNotFound "Target user not found") ;;
              return_
          | Some targetUser =>
              reject_if (User.IsAdmin targetUser)
                http.StatusForbidden "Cannot impersonate admin users" ;;
              let originalAdminID := User.ID adminUser in
              let impersonationState :=
                ImpersonationState.mk true (Request.Now r)
                  (TrimSpace (Body.reason req))
                  (User.ID targetUser) (User.Email targetUser)
                  (User.DisplayName targetUser) originalAdminID
                  (Request.ClientIP r) in
              Values_set "impersonation_state" (VImpersonation impersonationState) ;;
              Values_set "original_user_id" (VString (uuid_String originalAdminID)) ;;
              Values_set "user_id" (VString (uuid_String (User.ID targetUser))) ;;
              err <- session_Save r ;;
              reject_if err http.StatusInternalServerError "Failed to save session" ;;
              emit h r ActionImpersonationStarted (uuid_String (User.ID targetUser))
                (<["admin_id" := DString (uuid_String originalAdminID)]>
                 (<["admin_email" := DString (User.Email adminUser)]>
                  (<["target_user_id" := DString (uuid_String (User.ID targetUser))]>
                   (<["target_user_email" := DString (User.Email targetUser)]>
                    (<["target_user_name" := DString (User.DisplayName targetUser)]>
                     (<["reason" := DString (ImpersonationState.Reason impersonationState)]>
                      (<["ip_address" :=
                           DString (ImpersonationState.IPAddress impersonationState)]>
                       (<["timeout" := DDuration (Handlers.adminModeTimeout h)]> ∅))))))))
                (ImpersonationState.IPAddress impersonationState) ;;
              Encode (ImpersonationStartResponse
                        ("Now impersonating " +:+ User.Email targetUser)
                        impersonationState)
          end
      end
  end.

(** The admin record the handler fetches with [GetUserByID] only feeds the
    log line and is left out. *)
Definition ImpersonationStopHandler (h : Handlers.t) (r : Request.t) : M unit :=
  err <- sessionStore_Get r ;;
  reject_if err http.StatusInternalServerError "Failed to get session" ;;
  impersonation_state <- Values_get "impersonation_state" ;;
  match as_ImpersonationState impersonation_state with
  | None =>
      WriteHTTPError (NewHTTPError http.StatusBadRequest "Not currently impersonating") ;;
      return_
  | Some impersonationState =>
      reject_if (negb (ImpersonationState.Enabled impersonationState))
        http.StatusBadRequest "Not currently impersonating" ;;
      original_user_id <- Values_get "original_user_id" ;;
      match as_string original_user_id with
      | None =>
          WriteHTTPError (NewHTTPError http.StatusInternalServerError
            "Original user ID not found in session") ;;
          return_
      | Some originalAdminIDStr =>
          match uuid_Parse originalAdminIDStr with
          | None =>
              WriteHTTPError (NewHTTPError http.StatusInternalServerError
                "Invalid original user ID in session") ;;
              return_
          | Some originalAdminID =>
              let duration :=
                ImpersonationState.Duration (Request.Now r) impersonationState in
              Values_set "user_id" (VString originalAdminIDStr) ;;
              Values_delete "impersonation_state" ;;
              Values_delete "original_user_id" ;;
              err <- session_Save r ;;
              reject_if err http.StatusInternalServerError "Failed to save session" ;;
              emit h r ActionImpersonationStopped
                (uuid_String (ImpersonationState.TargetUserID impersonationState))
                (<["admin_id" := DString (uuid_String originalAdminID)]>
                 (<["target_user_id" :=
                      DString (uuid_String (ImpersonationState.TargetUserID impersonationState))]>
                  (<["target_user_email" :=
                       DString (ImpersonationState.TargetUserEmail impersonationState)]>
                   (<["reason" := DString (ImpersonationState.Reason impersonationState)]>
                    (<["duration" := DDuration duration]>
                     (<["ip_address" := DString (Request.ClientIP r)]> ∅))))))
                (Request.ClientIP r) ;;
              Encode (ImpersonationStopResponse "Impersonation stopped successfully")
          end
      end
  end.

Definition stopExpiredImpersonation (h : Handlers.t) (r : Request.t)
    (state : ImpersonationState.t) : M unit :=
  original_user_id <- Values_get "original_user_id" ;;
  match as_string original_user_id with
  | None => return_
  | Some originalAdminIDStr =>
      match uuid_Parse originalAdminIDStr with
      | None => return_
      | Some originalAdminID =>
          Values_set "user_id" (VString originalAdminIDStr) ;;
          Values_delete "impersonation_state" ;;
          Values_delete "original_user_id" ;;
          _ <- session_Save r ;;
          emit h r ActionImpersonationExpired
            (uuid_String (ImpersonationState.TargetUserID state))
            (<["admin_id" := DString (uuid_String originalAdminID)]>
             (<["target_user_id" :=
                  DString (uuid_String (ImpersonationState.TargetUserID state))]>
              (<["target_user_email" := DString (ImpersonationState.TargetUserEmail state)]>
               (<["reason" := DString (ImpersonationState.Reason state)]>
                (<["duration" :=
                     DDuration (ImpersonationState.Duration (Request.Now r) state)]>
                 (<["ip_address" := DString (Request.ClientIP r)]> ∅))))))
            (Request.ClientIP r)
      end
  end.

Definition ImpersonationStatusHandler (h : Handlers.t) (r : Request.t) : M unit :=
  err <- sessionStore_Get r ;;
  reject_if err http.StatusInternalServerError "Failed to get session" ;;
  impersonation_state <- Values_get "impersonation_state" ;;
  response <-
    match as_ImpersonationState impersonation_state with
    | Some impersonationState =>
        if ImpersonationState.Enabled impersonationState then
          if ImpersonationState.IsExpired (Request.Now r) impersonationState
               (Handlers.adminModeTimeout h)
          then
            call (stopExpiredImpersonation h r impersonationState) ;;
            ret (ImpersonationStatusResponse false None)
          else ret (ImpersonationStatusResponse true (Some impersonationState))
        else ret (ImpersonationStatusResponse false None)
    | None => ret (ImpersonationStatusResponse false None)
    end ;;
  Encode response.

End Admin.

(** ** A concrete library, for running the handlers on examples

    [Sample.lib] trims the ASCII white space and reads and writes UUIDs in
    the canonical 36-character form. *)
Module Sample.

Definition is_space (c : ascii) : bool :=
  let n := N_of_ascii c in
  (n =? 32)%N || ((9 <=? n)%N && (n <=? 13)%N).

Fixpoint trim_left (s : string) : string :=
  match s with
  | String c s' => if is_space c then trim_left s' else s
  | EmptyString => EmptyString
  end.

Definition trim_space (s : string) : string :=
  String.rev (trim_left (String.rev (trim_left s))).

Definition hex_digit (n : N) : ascii :=
  ascii_of_N (if (n <? 10)%N then 48 + n else 87 + n).

Fixpoint hex (width : nat) (n : N) : string :=
  match width with
  | O => EmptyString
  | S w => hex w (n / 16) +:+ String (hex_digit (n mod 16)) EmptyString
  end.

Definition format_uuid (u : UUID) : string :=
  let h := hex 32 u in
  String.substring 0 8 h +:+ "-" +:+ String.substring 8 4 h +:+ "-" +:+
  String.substring 12 4 h +:+ "-" +:+ String.substring 16 4 h +:+ "-" +:+
  String.substring 20 12 h.

Definition hex_value (c : ascii) : option N :=
  let n := N_of_ascii c in
  if (48 <=? n)%N && (n <=? 57)%N then Some (n - 48)%N
  else if (97 <=? n)%N && (n <=? 102)%N then Some (n - 87)%N
  else if (65 <=? n)%N && (n <=? 70)%N then Some (n - 55)%N
  else None.

Fixpoint parse_hex (s : string) (acc : N) : option N :=
  match s with
  | EmptyString => Some acc
  | String c s' =>
      match hex_value c with
      | Some d => parse_hex s' (16 * acc + d)%N
      | None => None
      end
  end.

Definition parse_uuid (s : string) : option UUID :=
  if bool_decide (String.length s = 36%nat
                  ∧ String.substring 8 1 s = "-" ∧ String.substring 13 1 s = "-"
                  ∧ String.substring 18 1 s = "-" ∧ String.substring 23 1 s = "-")
  then parse_hex (String.substring 0 8 s +:+ String.substring 9 4 s +:+
                  String.substring 14 4 s +:+ String.substring 19 4 s +:+
                  String.substring 24 12 s) 0%N
  else None.

Definition lib : GoLib := Build_GoLib trim_space parse_uuid format_uuid.

(** Two admins (IDs 10 and 12) and an ordinary user (ID 11). *)
Definition alice : User.t := User.mk 10%N "alice@example.com" "alice" "Alice" true.
Definition bob : User.t := User.mk 11%N "bob@example.com" "bob" "Bob" false.
Definition carol : User.t := User.mk 12%N "carol@example.com" "carol" "Carol" true.

Definition users (id : UUID) : option User.t :=
  if (id =? 10)%N then Some alice
  else if (id =? 11)%N then Some bob
  else if (id =? 12)%N then Some carol
  else None.

Definition minute : time.Duration := 60 * 1000000000.

Definition handlers : Handlers.t := Handlers.mk users true (30 * minute).
(** The middleware over a store that saves without a writer, over one that
    keeps the session in the cookie, and over one that keeps it in a
    file. *)
Definition middleware : SessionMiddleware.t :=
  SessionMiddleware.mk Store.SavesWithoutWriter users true (30 * minute).
Definition middleware_on_cookies : SessionMiddleware.t :=
  SessionMiddleware.mk Store.PanicsBeforeSaving users true (30 * minute).
Definition middleware_on_files : SessionMiddleware.t :=
  SessionMiddleware.mk Store.PanicsAfterSaving users true (30 * minute).

(** 2026-10-31 00:00:00 UTC, in nanoseconds since the zero [Time]. *)
Definition today : time.Time := 63929001600 * 1000000000.

(** A request of Alice, as [RequireAuth] passes it on. *)
Definition request (body : option Body.t) (now : time.Time) : Request.t :=
  Request.mk (Ctx.mk (Some alice) None None) body "192.0.2.1" "curl/8" now false false.

(** The grant Alice holds on Bob since [since], and her elevation. *)
Definition grant (since : time.Time) : ImpersonationState.t :=
  ImpersonationState.mk true since "debug ticket #42" (User.ID bob) (User.Email bob)
    (User.DisplayName bob) (User.ID alice) "192.0.2.1".

Definition elevation (since : time.Time) : AdminModeState.t :=
  AdminModeState.mk true since "maintenance" "192.0.2.1".

(** The session after the login of [u]. *)
Definition logged_in (u : User.t) : gmap string Value :=
  <["logged" := VBool true]> (<["user_id" := VString (format_uuid (User.ID u))]> ∅).

(** Alice's session once she is elevated. *)
Definition elevated (since : time.Time) : gmap string Value :=
  <["admin_mode" := VAdminMode (elevation since)]> (logged_in alice).

(** Alice's session while she acts as Bob. *)
Definition impersonating (since : time.Time) : gmap string Value :=
  <["user_id" := VString (format_uuid (User.ID bob))]>
    (<["original_user_id" := VString (format_uuid (User.ID alice))]>
       (<["impersonation_state" := VImpersonation (grant since)]> (elevated since))).

(** The same session with ["original_user_id"] lost. *)
Definition orphaned (since : time.Time) : gmap string Value :=
  delete "original_user_id" (impersonating since).

(** A request of Bob's identity, as [RequireAuth] passes it on while the
    grant of [since] is held. *)
Definition request_as_bob (body : option Body.t) (since now : time.Time) : Request.t :=
  Request.mk (Ctx.mk (Some bob) (Some (grant since)) (Some (User.ID alice)))
    body "192.0.2.1" "curl/8" now false false.

(** A request as it reaches the middleware, with an empty context. *)
Definition incoming (now : time.Time) : Request.t :=
  Request.mk Ctx.Background None "192.0.2.1" "curl/8" now false false.

(** An administrator whose ID is the nil UUID, his grant on Bob, and the
    context [RequireAuth] builds while that grant is held. *)
Definition root : User.t := User.mk uuid.Nil "root@example.com" "root" "Root" true.

Definition grant_of_root (since : time.Time) : ImpersonationState.t :=
  ImpersonationState.mk true since "support" (User.ID bob) (User.Email bob)
    (User.DisplayName bob) (User.ID root) "192.0.2.1".

Definition impersonating_as_root (since : time.Time) : gmap string Value :=
  <["user_id" := VString (format_uuid (User.ID bob))]>
    (<["original_user_id" := VString (format_uuid (User.ID root))]>
       (<["impersonation_state" := VImpersonation (grant_of_root since)]>
          (logged_in root))).

Definition context_of_root (since : time.Time) : Ctx.t :=
  Ctx.mk (Some bob) (Some (grant_of_root since)) (Some (User.ID root)).

End Sample.


(** ** Notions the properties are stated with *)

(** The request is answered with [code] and nothing else happened: session
    and store are as they were, nothing was saved or audited. *)
Definition rejected (vals : gmap string Value) (code : Z) (msg : string) : St :=
  mkSt vals vals 0%nat [] (Some (Response.mk code (ErrorText msg))).

(** The two fields of an impersonation are present together. *)
Definition paired (vals : gmap string Value) : Prop :=
  is_Some (vals !! "original_user_id") ↔ is_Some (vals !! "impersonation_state").

(** The impersonation fields as the handlers leave them: both absent, or an
    enabled grant together with a string for the original user. *)
Definition well_formed (vals : gmap string Value) : Prop :=
  (vals !! "impersonation_state" = None ∧ vals !! "original_user_id" = None)
  ∨ (∃ impState originalUserIDStr,
       vals !! "impersonation_state" = Some (VImpersonation impState)
       ∧ ImpersonationState.Enabled impState = true
       ∧ vals !! "original_user_id" = Some (VString originalUserIDStr)).

(** The session holds an enabled impersonation grant. *)
Definition impersonation_active (vals : gmap string Value) : bool :=
  match as_ImpersonationState (vals !! "impersonation_state") with
  | Some existingState => ImpersonationState.Enabled existingState
  | None => false
  end.

Section ClaimNotions.

Context `{GoLib}.

(** The checks of Start in the order the specification lists them (steps 1
    to 6 of the transition): the status of the first check that fails, or
    [None] when all pass. *)
Definition Start_rejection (h : Handlers.t) (callerID : UUID) (req : Body.t)
    (vals : gmap string Value) : option Z :=
  if decide (TrimSpace (Body.reason req) = "") then Some http.StatusBadRequest
  else match uuid_Parse (Body.target_user_id req) with
       | None => Some http.StatusBadRequest
       | Some targetID =>
           if decide (targetID = uuid.Nil) then Some http.StatusBadRequest
           else if decide (targetID = callerID) then Some http.StatusBadRequest
           else if impersonation_active vals then Some http.StatusBadRequest
           else match Handlers.userStore h targetID with
                | None => Some http.StatusNotFound
                | Some target =>
                    if User.IsAdmin target then Some http.StatusForbidden else None
                end
       end.

(** The session [ImpersonationStartHandler] writes for the target
    [targetUser] on behalf of [adminUser]. *)
Definition started (r : Request.t) (req : Body.t) (adminUser targetUser : User.t)
    (vals : gmap string Value) : gmap string Value :=
  <["user_id" := VString (uuid_String (User.ID targetUser))]>
    (<["original_user_id" := VString (uuid_String (User.ID adminUser))]>
       (<["impersonation_state" :=
            VImpersonation
              (ImpersonationState.mk true (Request.Now r) (TrimSpace (Body.reason req))
                 (User.ID targetUser) (User.Email targetUser)
                 (User.DisplayName targetUser) (User.ID adminUser)
                 (Request.ClientIP r))]> vals)).

(** The expiry repair as stated for every session that holds a grant older
    than the timeout: the identity restored, the two fields deleted, the
    session persisted, the event emitted, the request failed with 401. *)
Definition repairs_every_aged_grant (m : SessionMiddleware.t) (r : Request.t)
    (vals : gmap string Value) : Prop :=
  ∀ impState,
    as_ImpersonationState (vals !! "impersonation_state") = Some impState →
    SessionMiddleware.adminModeTimeout m
      < ImpersonationState.Duration (Request.Now r) impState →
    ∃ e s',
      run (Authenticate m r) vals = (Ret (inl e), s')
      ∧ HTTPError.Code e = http.StatusUnauthorized
      ∧ session s' !! "user_id" = vals !! "original_user_id"
      ∧ session s' !! "impersonation_state" = None
      ∧ session s' !! "original_user_id" = None
      ∧ saves s' = 1%nat
      ∧ stored s' = session s'
      ∧ ∃ a, a ∈ audit s'
             ∧ AuditLog.Action a = ActionImpersonationExpired
             ∧ AuditLog.ActorUserID a
               = NullUUID.mk (ImpersonationState.OriginalAdminID impState) true.

(** The attribution as stated for every context: the original admin while
    an impersonation is in the context, the user of the context otherwise. *)
Definition attributes_to_admin_whenever_impersonating (ctx : Ctx.t) : Prop :=
  match Ctx.ContextKeyImpersonationState ctx with
  | Some impState =>
      GetActorIDForAudit ctx = ImpersonationState.OriginalAdminID impState
  | None =>
      ∀ user, Ctx.ContextKeyUser ctx = Some user → GetActorIDForAudit ctx = User.ID user
  end.

(** The operations of the lifecycle, each with the collaborators and the
    request it runs with. *)
Inductive Op :=
  | OpEnable (h : Handlers.t) (r : Request.t)
  | OpDisable (h : Handlers.t) (r : Request.t)
  | OpAdminModeStatus (h : Handlers.t) (r : Request.t)
  | OpStart (h : Handlers.t) (r : Request.t)
  | OpStop (h : Handlers.t) (r : Request.t)
  | OpImpersonationStatus (h : Handlers.t) (r : Request.t)
  | OpAuthenticate (m : SessionMiddleware.t) (r : Request.t)
  | OpRequireAdminMode (m : SessionMiddleware.t) (r : Request.t).

(** The state an operation leaves when it starts from the stored session. *)
Definition perform (op : Op) (vals : gmap string Value) : St :=
  match op with
  | OpEnable h r => (run (AdminModeEnableHandler h r) vals).2
  | OpDisable h r => (run (AdminModeDisableHandler h r) vals).2
  | OpAdminModeStatus h r => (run (AdminModeStatusHandler h r) vals).2
  | OpStart h r => (run (ImpersonationStartHandler h r) vals).2
  | OpStop h r => (run (ImpersonationStopHandler h r) vals).2
  | OpImpersonationStatus h r => (run (ImpersonationStatusHandler h r) vals).2
  | OpAuthenticate m r => (run (Authenticate m r) vals).2
  | OpRequireAdminMode m r => (run (RequireAdminMode m (λ _, ret tt) r) vals).2
  end.

(** The sessions the store can hold: one without impersonation fields (as a
    login leaves it), then what each operation stores. *)
Inductive reachable : gmap string Value → Prop :=
  | reachable_fresh vals :
      vals !! "impersonation_state" = None →
      vals !! "original_user_id" = None →
      reachable vals
  | reachable_step vals op :
      reachable vals →
      reachable (stored (perform op vals)).

End ClaimNotions.

(** ** Package auth: logout and session check

    The two OIDC handlers that read and clear the session keys of the admin
    mode and of the impersonation.  They answer with bodies of their own, so
    a handler yields the reply it writes. *)

(** [uuid.Parse] returns a UUID beside its error as well; the code of
    [LogoutHandler] and of [NullUUID.Scan] keeps it. *)
Class GoLibErr := {
  (** the UUID [uuid.Parse] returns together with a non-nil error *)
  uuid_Parse_failed : string → UUID;
}.

Module OIDCHandlers.
Record t := mk {
  userStore : UUID → option User.t;
  auditLogger : bool;
}.
End OIDCHandlers.

(** [types.SessionResponse] *)
Module SessionResponse.
Record t := mk {
  Authenticated : bool;
  User_ : option User.t;
  Reason : string;
  Impersonation : option ImpersonationState.t;
}.
End SessionResponse.

Inductive ReplyBody :=
  | ReplyText (msg : string)
  | ReplyMessage (message : string)
  | ReplySession (response : SessionResponse.t).

Module Reply.
Record t := mk { Status : Z; Body : ReplyBody }.
End Reply.

Definition ActionUserLoggedOut : string := "user.logged_out".

Section Oidc.

Context `{GoLib} `{GoLibErr}.

(** [uuid.Parse] with its error dropped: [userID, _ = uuid.Parse(idStr)]. *)
Definition uuid_Parse_value (s : string) : UUID :=
  match uuid_Parse s with
  | Some u => u
  | None => uuid_Parse_failed s
  end.

(** [LogoutHandler].  The errors of the store are no [HTTPError]:
    [WriteHTTPError] answers them with 500 "internal server error". *)
Definition LogoutHandler (h : OIDCHandlers.t) (r : Request.t) : M Reply.t :=
  err <- sessionStore_Get r ;;
  if err : bool then
    ret (Reply.mk http.StatusInternalServerError (ReplyText "internal server error"))
  else
  user_id <- Values_get "user_id" ;;
  let userID :=
    match as_string user_id with
    | Some idStr => uuid_Parse_value idStr
    | None => uuid.Nil
    end in
  (if OIDCHandlers.auditLogger h && negb (N.eqb userID uuid.Nil) then
     CreateAuditLog
       (AuditLog.WithUserAgent
          (AuditLog.WithIPAddress
             (NewAuditLog (Request.Now r) (Some (NullUUID.mk userID true))
                ActionUserLoggedOut ResourceTypeUser (uuid_String userID))
             (Request.ClientIP r))
          (Request.UserAgent r))
   else ret tt) ;;
  Values_delete "logged" ;;
  Values_delete "user_id" ;;
  Values_delete "admin_mode" ;;
  Values_delete "impersonation_state" ;;
  Values_delete "original_user_id" ;;
  err <- session_Save r ;;
  if err : bool then
    ret (Reply.mk http.StatusInternalServerError (ReplyText "internal server error"))
  else
    ret (Reply.mk http.StatusOK (ReplyMessage "Logged out successfully")).

(** The three answers of [SessionCheckHandler] to a session it cannot
    resolve: the keys of the login are deleted, the session is saved (the
    error of Save is dropped), and the answer is 401 with [reason]. *)
Definition drop_login (r : Request.t) (reason : string) : M Reply.t :=
  Values_delete "logged" ;;
  Values_delete "user_id" ;;
  _ <- session_Save r ;;
  ret (Reply.mk http.StatusUnauthorized
         (ReplySession (SessionResponse.mk false None reason None))).

(** [SessionCheckHandler]; [isNew] is [session.IsNew]. *)
Definition SessionCheckHandler (h : OIDCHandlers.t) (isNew : bool) (r : Request.t)
    : M Reply.t :=
  err <- sessionStore_Get r ;;
  if err : bool then
    ret (Reply.mk http.StatusInternalServerError (ReplyText "Failed to get session"))
  else
  logged <- Values_get "logged" ;;
  match as_bool logged with
  | Some true =>
      user_id <- Values_get "user_id" ;;
      match as_string user_id with
      | None => drop_login r "session_corrupted"
      | Some userIDStr =>
          match uuid_Parse userIDStr with
          | None => drop_login r "session_corrupted"
          | Some userID =>
              match OIDCHandlers.userStore h userID with
              | None => drop_login r "user_not_found"
              | Some user =>
                  impersonation_state <- Values_get "impersonation_state" ;;
                  let Impersonation :=
                    match as_ImpersonationState impersonation_state with
                    | Some impState =>
                        if ImpersonationState.Enabled impState then Some impState
                        else None
                    | None => None
                    end in
                  ret (Reply.mk http.StatusOK
                         (ReplySession
                            (SessionResponse.mk true (Some user) "" Impersonation)))
              end
          end
      end
  | _ =>
      ret (Reply.mk http.StatusUnauthorized
             (ReplySession
                (SessionResponse.mk false None
                   (if isNew then "session_expired" else "not_authenticated")
                   None)))
  end.

End Oidc.

(** ** Package types: NullUUID as a database value *)

(** A [driver.Value] as [Scan] tells them apart: nil, a string, a byte
    slice, or a value of another type. *)
Inductive DriverValue :=
  | DriverNil
  | DriverString (s : string)
  | DriverBytes (s : string)
  | DriverOther.

Section NullUUIDValues.

Context `{GoLib} `{GoLibErr}.

(** [n.Scan(value)]: the receiver after the call, and whether an error is
    returned. *)
Definition NullUUID_Scan (n : NullUUID.t) (value : DriverValue) : NullUUID.t * bool :=
  match value with
  | DriverNil => (NullUUID.mk uuid.Nil false, false)
  | DriverString v | DriverBytes v =>
      (NullUUID.mk (uuid_Parse_value v) true,
       match uuid_Parse v with Some _ => false | None => true end)
  | DriverOther => (NullUUID.mk (NullUUID.UUID_ n) true, false)
  end.

(** [n.Value()]; it returns no error. *)
Definition NullUUID_Value (n : NullUUID.t) : DriverValue :=
  if NullUUID.Valid n then DriverString (uuid_String (NullUUID.UUID_ n))
  else DriverNil.

End NullUUIDValues.

(** The sample library returns the nil UUID beside an error. *)
Definition sample_err : GoLibErr := Build_GoLibErr (λ _, uuid.Nil).

(** ** Further notions the properties are stated with *)

(** The session after the identity is given back to [originalUserIDStr]. *)
Definition restored (originalUserIDStr : string) (vals : gmap string Value)
    : gmap string Value :=
  delete "original_user_id"
    (delete "impersonation_state" (<["user_id" := VString originalUserIDStr]> vals)).

(** The state after a handler answered [status] with [body] and did nothing
    else. *)
Definition answered (vals : gmap string Value) (status : Z) (body : ResponseBody) : St :=
  mkSt vals vals 0%nat [] (Some (Response.mk status body)).

(** The session after [LogoutHandler] deleted its five keys. *)
Definition logged_out (vals : gmap string Value) : gmap string Value :=
  delete "original_user_id"
    (delete "impersonation_state"
       (delete "admin_mode" (delete "user_id" (delete "logged" vals)))).

(** [next] does not panic when the context of the request has a user. *)
Definition panic_free (next : Request.t → M unit) : Prop :=
  ∀ r s user,
    Ctx.ContextKeyUser (Request.Context r) = Some user → (next r s).1 ≠ Panicked.

Section MoreNotions.

Context `{GoLib}.

(** The grant [AdminModeEnableHandler] builds from a request. *)
Definition enabled_by (r : Request.t) (req : Body.t) : AdminModeState.t :=
  AdminModeState.mk true (Request.Now r) (TrimSpace (Body.reason req)) (Request.ClientIP r).

End MoreNotions.

(** * Properties *)

(** Runs the monadic code of a handler on a state as far as the known
    conditions allow. *)
Ltac msimpl :=
  lazy beta iota zeta delta
      [run start bind ret return_ panic deref call
       Values_get Values_set Values_delete sessionStore_Get session_Save session_Save_nil
       CreateAuditLog write WriteHTTPError Encode reject_if
       session stored saves audit response fst snd];
  cbn [negb andb orb].

(** The same, deciding the conditions the hypotheses settle. *)
Ltac mrun :=
  msimpl;
  repeat match goal with
         | Heq : ?c = _ |- context [match ?c with _ => _ end] => rewrite Heq; msimpl
         | Heq : ?c = true |- context [?c] => rewrite Heq; msimpl
         | Heq : ?c = false |- context [?c] => rewrite Heq; msimpl
         end.

Section StateFacts.

(** For an enabled grant, [IsExpired] is the strict comparison of the age
    with the timeout. *)
Lemma ImpersonationState_IsExpired_enabled now i timeout :
  ImpersonationState.Enabled i = true →
  ImpersonationState.IsExpired now i timeout
  = (timeout <? ImpersonationState.Duration now i).
Proof.
  intros He. unfold ImpersonationState.IsExpired, ImpersonationState.Duration.
  now rewrite He.
Qed.

Lemma AdminModeState_IsExpired_enabled now a timeout :
  AdminModeState.Enabled a = true →
  AdminModeState.IsExpired now a timeout
  = (timeout <? AdminModeState.Duration now a).
Proof.
  intros He. unfold AdminModeState.IsExpired, AdminModeState.Duration.
  now rewrite He.
Qed.

(** The age of a grant never leaves the range of [Duration]. *)
Lemma time_Sub_range t u :
  time.minDuration ≤ time.Sub t u ≤ time.maxDuration.
Proof.
  unfold time.Sub, time.minDuration, time.maxDuration.
  repeat case_match; lia.
Qed.

(** Elapsed time since the zero [Time]: positive for every later instant. *)
Lemma time_Since_zero now :
  0 < now → time.Since now time.zero = Z.min now time.maxDuration.
Proof.
  intros Hnow. unfold time.Since, time.Sub, time.zero, time.minDuration, time.maxDuration.
  repeat case_match; lia.
Qed.

End StateFacts.

(** ** Authenticate and the expired impersonation *)

Section AuthenticateFacts.

Context `{GoLib}.

(** The run of [Authenticate] through its expiry repair.  The session is
    repaired in memory and handed to Save with a nil writer; what follows
    depends on whether that Save returns. *)
Lemma Authenticate_repair_run m r vals impState originalUserIDStr :
  Request.GetErr r = false →
  as_bool (vals !! "logged") = Some true →
  as_ImpersonationState (vals !! "impersonation_state") = Some impState →
  ImpersonationState.Enabled impState = true →
  SessionMiddleware.adminModeTimeout m
    < ImpersonationState.Duration (Request.Now r) impState →
  as_string (vals !! "original_user_id") = Some originalUserIDStr →
  let returned :=
    Request.SaveErr r
    || Store.returns_without_writer (SessionMiddleware.sessionStore m) in
  ∃ entries,
    run (Authenticate m r) vals
    = (if returned
       then Ret (inl (NewHTTPError http.StatusUnauthorized
                        "Impersonation session expired"))
       else Panicked,
       mkSt (restored originalUserIDStr vals)
         (if Request.SaveErr r then vals
          else if Store.keeps_without_writer (SessionMiddleware.sessionStore m)
               then restored originalUserIDStr vals else vals)
         1%nat entries None)
    ∧ (returned = false → entries = [])
    ∧ (SessionMiddleware.auditLogger m = false → entries = [])
    ∧ (returned = true →
       SessionMiddleware.auditLogger m = true →
       ∃ a, entries = [a]
            ∧ AuditLog.Action a = ActionImpersonationExpired
            ∧ AuditLog.ActorUserID a
              = NullUUID.mk (ImpersonationState.OriginalAdminID impState) true
            ∧ AuditLog.ResourceID a
              = uuid_String (ImpersonationState.TargetUserID impState)).
Proof.
  intros Hget Hlogged Himp Hen Hage Horig.
  apply Z.ltb_lt in Hage.
  rewrite <- (ImpersonationState_IsExpired_enabled _ _ _ Hen) in Hage.
  unfold Authenticate, restored.
  destruct (Request.SaveErr r) eqn:Hsave,
    (SessionMiddleware.sessionStore m) eqn:Hstore,
    (SessionMiddleware.auditLogger m) eqn:Hlog;
    mrun; eexists; (split; [reflexivity|]);
    (split; [intros; first [discriminate | reflexivity]|]);
    (split; [intros; first [discriminate | reflexivity]|]);
    intros; first [discriminate | eexists; repeat split].
Qed.

(** An expired grant never lets the request through as the target: the
    result is the 401 of the expiry, or the panic of the Save. *)
Lemma Authenticate_expired_fails m r vals impState :
  Request.GetErr r = false →
  as_bool (vals !! "logged") = Some true →
  as_ImpersonationState (vals !! "impersonation_state") = Some impState →
  ImpersonationState.Enabled impState = true →
  SessionMiddleware.adminModeTimeout m
    < ImpersonationState.Duration (Request.Now r) impState →
  (run (Authenticate m r) vals).1
  = Ret (inl (NewHTTPError http.StatusUnauthorized "Impersonation session expired"))
  ∨ (run (Authenticate m r) vals).1 = Panicked.
Proof.
  intros Hget Hlogged Himp Hen Hage.
  destruct (as_string (vals !! "original_user_id")) as [originalUserIDStr|] eqn:Horig.
  - destruct (Authenticate_repair_run m r vals impState originalUserIDStr)
      as (entries & -> & _); try done.
    cbn [fst]. destruct (_ || _); auto.
  - left.
    apply Z.ltb_lt in Hage.
    rewrite <- (ImpersonationState_IsExpired_enabled _ _ _ Hen) in Hage.
    unfold Authenticate. mrun. reflexivity.
Qed.

(** Without a string under ["original_user_id"] nothing at all happens to
    the state. *)
Lemma Authenticate_expired_no_original m r vals impState :
  Request.GetErr r = false →
  as_bool (vals !! "logged") = Some true →
  as_ImpersonationState (vals !! "impersonation_state") = Some impState →
  ImpersonationState.Enabled impState = true →
  SessionMiddleware.adminModeTimeout m
    < ImpersonationState.Duration (Request.Now r) impState →
  as_string (vals !! "original_user_id") = None →
  run (Authenticate m r) vals
  = (Ret (inl (NewHTTPError http.StatusUnauthorized "Impersonation session expired")),
     start vals).
Proof.
  intros Hget Hlogged Himp Hen Hage Horig.
  apply Z.ltb_lt in Hage.
  rewrite <- (ImpersonationState_IsExpired_enabled _ _ _ Hen) in Hage.
  unfold Authenticate. mrun. reflexivity.
Qed.

End AuthenticateFacts.

(** ** Audit entries *)

Section AuditFacts.
Context `{GoLib}.

Lemma AuditLog_finish_fields a changes ip ua :
  let a' := AuditLog.WithUserAgent (AuditLog.WithIPAddress (AuditLog.WithChanges a changes) ip) ua in
  AuditLog.Action a' = AuditLog.Action a
  ∧ AuditLog.ActorUserID a' = AuditLog.ActorUserID a
  ∧ AuditLog.ResourceID a' = AuditLog.ResourceID a
  ∧ AuditLog.Changes a' = changes ∪ AuditLog.Changes a.
Proof.
  unfold AuditLog.WithUserAgent, AuditLog.WithIPAddress, AuditLog.WithChanges.
  repeat case_decide; simpl; auto.
Qed.

(** The entry [NewAuditLogWithContext] builds when the context has a user;
    its actor is the one [GetActorIDForAudit] names. *)
Lemma NewAuditLogWithContext_user now ctx action resourceType resourceID user s :
  Ctx.ContextKeyUser ctx = Some user →
  ∃ a, NewAuditLogWithContext now ctx action resourceType resourceID s = (Ret a, s)
       ∧ AuditLog.Action a = action
       ∧ AuditLog.ResourceID a = resourceID
       ∧ AuditLog.ActorUserID a
         = (if N.eqb (GetActorIDForAudit ctx) uuid.Nil then NullUUID.zero
            else NullUUID.mk (GetActorIDForAudit ctx) true).
Proof.
  intros Huser. unfold NewAuditLogWithContext, GetImpersonationContext.
  destruct (Ctx.ContextKeyImpersonationState ctx); mrun;
    eexists; (split; [reflexivity|]); simpl;
    destruct (N.eqb (GetActorIDForAudit ctx) uuid.Nil); simpl; auto.
Qed.

(** [NewAuditLogWithContext] leaves the state alone; it panics when the
    context holds an impersonation state but no user. *)
Lemma NewAuditLogWithContext_state now ctx action resourceType resourceID s :
  ∃ res, NewAuditLogWithContext now ctx action resourceType resourceID s = (res, s)
         ∧ res ≠ Returned.
Proof.
  unfold NewAuditLogWithContext, GetImpersonationContext.
  destruct (Ctx.ContextKeyImpersonationState ctx), (Ctx.ContextKeyUser ctx);
    msimpl; eexists; split; try reflexivity; discriminate.
Qed.

Lemma emit_off h r action resourceID changes ip s :
  Handlers.auditLogger h = false →
  emit h r action resourceID changes ip s = (Ret tt, s).
Proof. intros Hoff. unfold emit. rewrite Hoff. reflexivity. Qed.

Lemma emit_on h r action resourceID changes ip s user :
  Handlers.auditLogger h = true →
  Ctx.ContextKeyUser (Request.Context r) = Some user →
  ∃ a, emit h r action resourceID changes ip s
       = (Ret tt, mkSt (session s) (stored s) (saves s) (audit s ++ [a]) (response s))
       ∧ AuditLog.Action a = action
       ∧ AuditLog.ResourceID a = resourceID
       ∧ AuditLog.ActorUserID a
         = (if N.eqb (GetActorIDForAudit (Request.Context r)) uuid.Nil then NullUUID.zero
            else NullUUID.mk (GetActorIDForAudit (Request.Context r)) true)
       ∧ ∀ k v, changes !! k = Some v → AuditLog.Changes a !! k = Some v.
Proof.
  intros Hon Huser. unfold emit. rewrite Hon.
  destruct (NewAuditLogWithContext_user (Request.Now r) (Request.Context r) action
              ResourceTypeUser resourceID user s Huser) as (a & Hrun & Hact & Hres & Hactor).
  unfold bind at 1. rewrite Hrun. msimpl.
  eexists. split; [reflexivity|].
  destruct (AuditLog_finish_fields a changes ip (Request.UserAgent r)) as (-> & -> & -> & ->).
  repeat split; auto.
  intros k v Hk. by apply lookup_union_Some_l.
Qed.

(** Whatever the context, [emit] touches the audit trail only. *)
Lemma emit_state h r action resourceID changes ip s :
  ∃ res entries,
    emit h r action resourceID changes ip s
    = (res, mkSt (session s) (stored s) (saves s) (audit s ++ entries) (response s))
    ∧ res ≠ Returned.
Proof.
  unfold emit. destruct (Handlers.auditLogger h).
  - destruct (NewAuditLogWithContext_state (Request.Now r) (Request.Context r) action
                ResourceTypeUser resourceID s) as (res & Hrun & Hres).
    unfold bind at 1. rewrite Hrun. destruct res as [a| |]; msimpl.
    + eexists _, [_]. split; [reflexivity|discriminate].
    + done.
    + exists Panicked, []. rewrite app_nil_r. by destruct s.
  - exists (Ret tt), []. rewrite app_nil_r. by destruct s.
Qed.

End AuditFacts.

(** ** Expiry of an impersonation in Authenticate *)

Section ExpiryClaims.

Context `{GoLib}.

(** C10.  When [Authenticate] meets, in a logged-in session, an enabled
    impersonation grant older than the timeout while ["original_user_id"]
    holds no string, it repairs nothing: session and store keep the grant,
    nothing is saved, no audit entry is made, and the request still fails
    with 401. *)
Theorem Authenticate_expired_without_original_repairs_nothing m r vals impState :
  Request.GetErr r = false →
  as_bool (vals !! "logged") = Some true →
  as_ImpersonationState (vals !! "impersonation_state") = Some impState →
  ImpersonationState.Enabled impState = true →
  SessionMiddleware.adminModeTimeout m
    < ImpersonationState.Duration (Request.Now r) impState →
  as_string (vals !! "original_user_id") = None →
  ∃ s',
    run (Authenticate m r) vals
    = (Ret (inl (NewHTTPError http.StatusUnauthorized "Impersonation session expired")), s')
    ∧ session s' = vals
    ∧ stored s' = vals
    ∧ as_ImpersonationState (stored s' !! "impersonation_state") = Some impState
    ∧ saves s' = 0%nat
    ∧ audit s' = []
    ∧ response s' = None.
Proof.
  intros Hget Hlogged Himp Hen Hage Horig.
  exists (start vals). split.
  - by apply Authenticate_expired_no_original with impState.
  - by repeat split.
Qed.

(** C2, amended.  In a session that was obtained, is logged in and holds an
    enabled impersonation grant older than the timeout together with a
    string under ["original_user_id"], [Authenticate] sets ["user_id"] of
    the session to that string, deletes ["impersonation_state"] and
    ["original_user_id"] from it and calls Save once, writes nothing to the
    client, and never returns a user.  Where that Save returns (it returns
    an error, or the store saves without the writer [Authenticate] does not
    pass), the store holds the repaired session unless Save returned an
    error, the audit logger, when one is configured, is handed one
    impersonation-expired entry whose actor is the grant's original admin,
    and the request fails with 401. *)
Theorem Authenticate_repairs_expired_impersonation m r vals impState originalUserIDStr :
  Request.GetErr r = false →
  as_bool (vals !! "logged") = Some true →
  as_ImpersonationState (vals !! "impersonation_state") = Some impState →
  ImpersonationState.Enabled impState = true →
  SessionMiddleware.adminModeTimeout m
    < ImpersonationState.Duration (Request.Now r) impState →
  as_string (vals !! "original_user_id") = Some originalUserIDStr →
  ∃ res s',
    run (Authenticate m r) vals = (res, s')
    ∧ (∀ user, res ≠ Ret (inr user))
    ∧ session s'
      = delete "original_user_id"
          (delete "impersonation_state" (<["user_id" := VString originalUserIDStr]> vals))
    ∧ session s' !! "user_id" = Some (VString originalUserIDStr)
    ∧ session s' !! "impersonation_state" = None
    ∧ session s' !! "original_user_id" = None
    ∧ saves s' = 1%nat
    ∧ response s' = None
    ∧ (Request.SaveErr r = true
       ∨ SessionMiddleware.sessionStore m = Store.SavesWithoutWriter →
       res = Ret (inl (NewHTTPError http.StatusUnauthorized
                         "Impersonation session expired"))
       ∧ stored s' = (if Request.SaveErr r then vals else session s')
       ∧ (SessionMiddleware.auditLogger m = true →
          ∃ a, audit s' = [a]
               ∧ AuditLog.Action a = ActionImpersonationExpired
               ∧ AuditLog.ActorUserID a
                 = NullUUID.mk (ImpersonationState.OriginalAdminID impState) true
               ∧ AuditLog.ResourceID a
                 = uuid_String (ImpersonationState.TargetUserID impState))
       ∧ (SessionMiddleware.auditLogger m = false → audit s' = [])).
Proof.
  intros Hget Hlogged Himp Hen Hage Horig.
  destruct (Authenticate_repair_run m r vals impState originalUserIDStr
              Hget Hlogged Himp Hen Hage Horig)
    as (entries & Hrun & _ & Hoff & Hon).
  eexists _, _. split; [exact Hrun|]. cbn [session stored saves audit response].
  split; [by intros user; destruct (_ || _)|].
  split; [reflexivity|]. unfold restored.
  split; [by simplify_map_eq|].
  split; [by simplify_map_eq|].
  split; [by simplify_map_eq|].
  split; [reflexivity|]. split; [reflexivity|].
  intros Hreturns.
  assert (Hreturned : Request.SaveErr r
                      || Store.returns_without_writer (SessionMiddleware.sessionStore m)
                      = true).
  { destruct Hreturns as [->| ->]; [reflexivity|]. by rewrite orb_true_r. }
  rewrite Hreturned.
  split; [reflexivity|]. split.
  - destruct (Request.SaveErr r); [reflexivity|].
    destruct Hreturns as [?| ->]; [discriminate|reflexivity].
  - split; [by apply Hon|exact Hoff].
Qed.

End ExpiryClaims.

(** Bob's identity is held for 31 minutes, one more than the timeout. *)
Lemma Authenticate_expired_without_original_witness :
  ∃ s',
    run (Authenticate (H := Sample.lib) Sample.middleware
           (Sample.incoming (Sample.today + 31 * Sample.minute)))
      (Sample.orphaned Sample.today)
    = (Ret (inl (NewHTTPError http.StatusUnauthorized "Impersonation session expired")), s')
    ∧ session s' = Sample.orphaned Sample.today
    ∧ stored s' = Sample.orphaned Sample.today
    ∧ as_ImpersonationState (stored s' !! "impersonation_state")
      = Some (Sample.grant Sample.today)
    ∧ saves s' = 0%nat
    ∧ audit s' = []
    ∧ response s' = None.
Proof.
  apply (Authenticate_expired_without_original_repairs_nothing (H := Sample.lib)
           Sample.middleware (Sample.incoming (Sample.today + 31 * Sample.minute))
           (Sample.orphaned Sample.today) (Sample.grant Sample.today));
    vm_compute; reflexivity.
Defined.

(** Over a store that saves without a writer, the identity held for 31
    minutes is given back, stored and audited, and the request ends in
    401. *)
Lemma Authenticate_repairs_expired_impersonation_witness :
  ∃ s',
    run (Authenticate (H := Sample.lib) Sample.middleware
           (Sample.incoming (Sample.today + 31 * Sample.minute)))
      (Sample.impersonating Sample.today)
    = (Ret (inl (NewHTTPError http.StatusUnauthorized "Impersonation session expired")), s')
    ∧ session s' !! "user_id"
      = Some (VString "00000000-0000-0000-0000-00000000000a")
    ∧ session s' !! "impersonation_state" = None
    ∧ session s' !! "original_user_id" = None
    ∧ saves s' = 1%nat
    ∧ stored s' = session s'.
Proof.
  destruct (Authenticate_repairs_expired_impersonation (H := Sample.lib)
              Sample.middleware (Sample.incoming (Sample.today + 31 * Sample.minute))
              (Sample.impersonating Sample.today) (Sample.grant Sample.today)
              "00000000-0000-0000-0000-00000000000a")
    as (res & s' & Hrun & _ & _ & Huser & Himp & Horig & Hsaves & _ & Hreturned);
    [vm_compute; reflexivity ..|].
  destruct (Hreturned (or_intror eq_refl)) as (-> & Hstored & _).
  exists s'. repeat split; assumption.
Defined.

(** C2 as stated fails, over a store that saves without a writer: on the
    session that lost ["original_user_id"] (nothing is repaired or saved),
    on a request whose Save returns an error (the store keeps the grant),
    on a middleware without audit logger (no event is emitted), on a
    session that is not logged in (401 without repair), and on a grant
    that is not enabled (the target is returned). *)
Lemma aged_grant_not_always_repaired :
  ¬ repairs_every_aged_grant (H := Sample.lib) Sample.middleware
      (Sample.incoming (Sample.today + 31 * Sample.minute))
      (Sample.orphaned Sample.today)
  ∧ ¬ repairs_every_aged_grant (H := Sample.lib) Sample.middleware
        (Request.mk Ctx.Background None "192.0.2.1" "curl/8"
           (Sample.today + 31 * Sample.minute) false true)
        (Sample.impersonating Sample.today)
  ∧ ¬ repairs_every_aged_grant (H := Sample.lib)
        (SessionMiddleware.mk Store.SavesWithoutWriter Sample.users false
           (30 * Sample.minute))
        (Sample.incoming (Sample.today + 31 * Sample.minute))
        (Sample.impersonating Sample.today)
  ∧ ¬ repairs_every_aged_grant (H := Sample.lib) Sample.middleware
        (Sample.incoming (Sample.today + 31 * Sample.minute))
        (delete "logged" (Sample.impersonating Sample.today))
  ∧ ¬ repairs_every_aged_grant (H := Sample.lib) Sample.middleware
        (Sample.incoming (Sample.today + 31 * Sample.minute))
        (<["impersonation_state" :=
             VImpersonation
               (ImpersonationState.mk false Sample.today "debug ticket #42"
                  (User.ID Sample.bob) (User.Email Sample.bob)
                  (User.DisplayName Sample.bob) (User.ID Sample.alice) "192.0.2.1")]>
           (Sample.impersonating Sample.today)).
Proof.
  split; [|split; [|split; [|split]]]; intros Hclaim.
  - destruct (Hclaim (Sample.grant Sample.today))
      as (e & s' & Hrun & _ & _ & _ & _ & Hsaves & _).
    + vm_compute. reflexivity.
    + vm_compute. reflexivity.
    + rewrite (Authenticate_expired_no_original (H := Sample.lib) Sample.middleware
                 (Sample.incoming (Sample.today + 31 * Sample.minute))
                 (Sample.orphaned Sample.today) (Sample.grant Sample.today)) in Hrun;
        [|vm_compute; reflexivity ..].
      injection Hrun as _ <-. discriminate Hsaves.
  - destruct (Hclaim (Sample.grant Sample.today))
      as (e & s' & Hrun & _ & _ & Himp & _ & _ & Hstored & _).
    + vm_compute. reflexivity.
    + vm_compute. reflexivity.
    + destruct (Authenticate_repair_run (H := Sample.lib) Sample.middleware
                  (Request.mk Ctx.Background None "192.0.2.1" "curl/8"
                     (Sample.today + 31 * Sample.minute) false true)
                  (Sample.impersonating Sample.today) (Sample.grant Sample.today)
                  "00000000-0000-0000-0000-00000000000a")
        as (entries & Hrepair & _); [vm_compute; reflexivity ..|].
      rewrite Hrepair in Hrun. injection Hrun as _ <-.
      cbn [stored session Request.SaveErr] in Hstored.
      rewrite <- Hstored in Himp. vm_compute in Himp. discriminate Himp.
  - destruct (Hclaim (Sample.grant Sample.today))
      as (e & s' & Hrun & _ & _ & _ & _ & _ & _ & a & Ha & _).
    + vm_compute. reflexivity.
    + vm_compute. reflexivity.
    + destruct (Authenticate_repair_run (H := Sample.lib)
                  (SessionMiddleware.mk Store.SavesWithoutWriter Sample.users false
                     (30 * Sample.minute))
                  (Sample.incoming (Sample.today + 31 * Sample.minute))
                  (Sample.impersonating Sample.today) (Sample.grant Sample.today)
                  "00000000-0000-0000-0000-00000000000a")
        as (entries & Hrepair & _ & Hoff & _); [vm_compute; reflexivity ..|].
      rewrite Hrepair in Hrun. injection Hrun as _ <-.
      cbn [audit] in Ha. rewrite (Hoff eq_refl) in Ha. by apply elem_of_nil in Ha.
  - destruct (Hclaim (Sample.grant Sample.today))
      as (e & s' & Hrun & _ & _ & _ & _ & Hsaves & _).
    + vm_compute. reflexivity.
    + vm_compute. reflexivity.
    + vm_compute in Hrun. injection Hrun as _ <-. discriminate Hsaves.
  - destruct (Hclaim (ImpersonationState.mk false Sample.today "debug ticket #42"
                        (User.ID Sample.bob) (User.Email Sample.bob)
                        (User.DisplayName Sample.bob) (User.ID Sample.alice)
                        "192.0.2.1"))
      as (e & s' & Hrun & _).
    + vm_compute. reflexivity.
    + vm_compute. reflexivity.
    + vm_compute in Hrun. discriminate Hrun.
Qed.

(** ** Disabling admin mode *)

Section DisableClaims.

Context `{GoLib}.

(** What [AdminModeDisableHandler] does to the session it obtained: the
    three deletions, one Save, and nothing else. *)
Lemma AdminModeDisableHandler_session h r vals :
  Request.GetErr r = false →
  let cleared :=
    delete "original_user_id" (delete "impersonation_state" (delete "admin_mode" vals)) in
  ∃ res entries resp,
    run (AdminModeDisableHandler h r) vals
    = (res, mkSt cleared (if Request.SaveErr r then vals else cleared) 1 entries resp).
Proof.
  intros Hget cleared. unfold AdminModeDisableHandler.
  destruct (Request.SaveErr r) eqn:Hsave; mrun; [by eexists _, _, _|].
  destruct (GetUserFromContext (Request.Context r)); msimpl; [|by eexists _, _, _].
  match goal with
  | |- context [emit ?h ?r ?act ?rid ?c ?ip ?s] =>
      destruct (emit_state h r act rid c ip s) as (res & entries & -> & Hres)
  end.
  destruct res; msimpl; by eexists _, _, _.
Qed.

(** C1, what the code does.  With an elevation and an impersonation in the
    session, Disable stores a session without ["admin_mode"],
    ["impersonation_state"] and ["original_user_id"], and ["user_id"] keeps
    the value it had, the target's: it is not set back to the original
    admin's. *)
Theorem Disable_clears_grants_but_keeps_user_id h r vals adminState impState
    original target :
  Request.GetErr r = false →
  Request.SaveErr r = false →
  vals !! "admin_mode" = Some (VAdminMode adminState) →
  vals !! "impersonation_state" = Some (VImpersonation impState) →
  vals !! "original_user_id" = Some (VString original) →
  vals !! "user_id" = Some (VString target) →
  let s' := (run (AdminModeDisableHandler h r) vals).2 in
  stored s' !! "admin_mode" = None
  ∧ stored s' !! "impersonation_state" = None
  ∧ stored s' !! "original_user_id" = None
  ∧ stored s' !! "user_id" = Some (VString target).
Proof.
  intros Hget Hsave _ _ _ Huser.
  destruct (AdminModeDisableHandler_session h r vals Hget) as (res & entries & resp & ->).
  rewrite Hsave. simpl. by simplify_map_eq.
Qed.

(** C8, what the code does.  Without an elevation in the session, Disable
    succeeds, and the duration of its audit entry is the time elapsed since
    the zero [Time] (capped at the largest [Duration]), which is not zero
    at any instant after the zero [Time]. *)
Theorem Disable_without_grant_reports_time_since_zero h r vals user :
  Request.GetErr r = false →
  Request.SaveErr r = false →
  Ctx.ContextKeyUser (Request.Context r) = Some user →
  Handlers.auditLogger h = true →
  as_AdminModeState (vals !! "admin_mode") = None →
  0 < Request.Now r →
  ∃ s' a,
    run (AdminModeDisableHandler h r) vals = (Ret tt, s')
    ∧ status_of s' = Some http.StatusOK
    ∧ audit s' = [a]
    ∧ AuditLog.Action a = ActionAdminModeDisabled
    ∧ AuditLog.Changes a !! "duration"
      = Some (DDuration (Z.min (Request.Now r) time.maxDuration))
    ∧ AuditLog.Changes a !! "duration" ≠ Some (DDuration 0).
Proof.
  intros Hget Hsave Huser Hlog Hnone Hnow.
  unfold AdminModeDisableHandler, GetUserFromContext. mrun.
  match goal with
  | |- context [emit ?h ?r ?act ?rid ?c ?ip ?s] =>
      destruct (emit_on h r act rid c ip s user Hlog Huser)
        as (entry & -> & Hact & _ & _ & Hchanges)
  end.
  msimpl. eexists _, entry. split; [reflexivity|].
  assert (Hd : AuditLog.Changes entry !! "duration"
               = Some (DDuration (Z.min (Request.Now r) time.maxDuration))).
  { rewrite <- (time_Since_zero _ Hnow). apply Hchanges. by simplify_map_eq. }
  repeat split; auto.
  rewrite Hd. intros [= Hz]. unfold time.maxDuration in Hz. lia.
Qed.

End DisableClaims.

(** Alice, elevated and acting as Bob for ten minutes, disables admin mode:
    the stored session is left with Bob's ID under ["user_id"]. *)
Lemma Disable_clears_grants_but_keeps_user_id_witness :
  let s' :=
    (run (AdminModeDisableHandler (H := Sample.lib) Sample.handlers
            (Sample.request_as_bob None Sample.today
               (Sample.today + 10 * Sample.minute)))
       (Sample.impersonating Sample.today)).2 in
  stored s' !! "admin_mode" = None
  ∧ stored s' !! "impersonation_state" = None
  ∧ stored s' !! "original_user_id" = None
  ∧ stored s' !! "user_id" = Some (VString "00000000-0000-0000-0000-00000000000b").
Proof.
  apply (Disable_clears_grants_but_keeps_user_id (H := Sample.lib) Sample.handlers
           (Sample.request_as_bob None Sample.today (Sample.today + 10 * Sample.minute))
           (Sample.impersonating Sample.today)
           (Sample.elevation Sample.today) (Sample.grant Sample.today)
           "00000000-0000-0000-0000-00000000000a"
           "00000000-0000-0000-0000-00000000000b");
    vm_compute; reflexivity.
Defined.

(** Alice disables an admin mode she never enabled, on 2026-10-31: the entry
    reports 9223372036854775807 ns, the largest [Duration]. *)
Lemma Disable_without_grant_reports_time_since_zero_witness :
  ∃ s' a,
    run (AdminModeDisableHandler (H := Sample.lib) Sample.handlers
           (Sample.request None Sample.today))
      (Sample.logged_in Sample.alice)
    = (Ret tt, s')
    ∧ status_of s' = Some http.StatusOK
    ∧ audit s' = [a]
    ∧ AuditLog.Action a = ActionAdminModeDisabled
    ∧ AuditLog.Changes a !! "duration" = Some (DDuration 9223372036854775807)
    ∧ AuditLog.Changes a !! "duration" ≠ Some (DDuration 0).
Proof.
  apply (Disable_without_grant_reports_time_since_zero (H := Sample.lib)
           Sample.handlers (Sample.request None Sample.today)
           (Sample.logged_in Sample.alice) Sample.alice);
    vm_compute; reflexivity.
Defined.

(** ** Attribution of audit entries *)

Section AttributionFacts.
Context `{GoLib}.

(** [Authenticate] on a session with no expired grant: the user the store
    has for ["user_id"], and an untouched state. *)
Lemma Authenticate_resolves m r vals userIDStr userID user :
  Request.GetErr r = false →
  as_bool (vals !! "logged") = Some true →
  match as_ImpersonationState (vals !! "impersonation_state") with
  | Some impState =>
      ImpersonationState.Enabled impState
      && ImpersonationState.IsExpired (Request.Now r) impState
           (SessionMiddleware.adminModeTimeout m) = false
  | None => True
  end →
  as_string (vals !! "user_id") = Some userIDStr →
  uuid_Parse userIDStr = Some userID →
  SessionMiddleware.userStore m userID = Some user →
  Authenticate m r (start vals) = (Ret (inr user), start vals).
Proof.
  intros Hget Hlogged Hactive Hid Hparse Hstore.
  unfold Authenticate.
  destruct (as_ImpersonationState (vals !! "impersonation_state")) eqn:Himp;
    mrun; reflexivity.
Qed.

(** The context of the wrapped handler while an unexpired grant is held. *)
Lemma RequireAuth_impersonating m next r vals impState userIDStr userID user :
  Request.GetErr r = false →
  as_bool (vals !! "logged") = Some true →
  as_ImpersonationState (vals !! "impersonation_state") = Some impState →
  ImpersonationState.Enabled impState = true →
  ImpersonationState.Duration (Request.Now r) impState
    ≤ SessionMiddleware.adminModeTimeout m →
  as_string (vals !! "user_id") = Some userIDStr →
  uuid_Parse userIDStr = Some userID →
  SessionMiddleware.userStore m userID = Some user →
  run (RequireAuth m next r) vals
  = next (Request.WithContext r
            (Ctx.mk (Some user) (Some impState)
               (Some (ImpersonationState.OriginalAdminID impState))))
      (start vals).
Proof.
  intros Hget Hlogged Himp Hen Hage Hid Hparse Hstore.
  assert (Hexp : ImpersonationState.IsExpired (Request.Now r) impState
                   (SessionMiddleware.adminModeTimeout m) = false).
  { rewrite (ImpersonationState_IsExpired_enabled _ _ _ Hen). by apply Z.ltb_ge. }
  unfold RequireAuth, run, bind at 1.
  rewrite (Authenticate_resolves m r vals userIDStr userID user); auto.
  - mrun. reflexivity.
  - rewrite Himp, Hen, Hexp. reflexivity.
Qed.

(** The context of the wrapped handler when the session holds no grant. *)
Lemma RequireAuth_plain m next r vals userIDStr userID user :
  Request.GetErr r = false →
  as_bool (vals !! "logged") = Some true →
  as_ImpersonationState (vals !! "impersonation_state") = None →
  as_string (vals !! "user_id") = Some userIDStr →
  uuid_Parse userIDStr = Some userID →
  SessionMiddleware.userStore m userID = Some user →
  run (RequireAuth m next r) vals
  = next (Request.WithContext r
            (Ctx.mk (Some user)
               (Ctx.ContextKeyImpersonationState (Request.Context r))
               (Ctx.ContextKeyOriginalAdminID (Request.Context r))))
      (start vals).
Proof.
  intros Hget Hlogged Himp Hid Hparse Hstore.
  unfold RequireAuth, run, bind at 1.
  rewrite (Authenticate_resolves m r vals userIDStr userID user); auto.
  - mrun. reflexivity.
  - by rewrite Himp.
Qed.

(** C3, amended.  [GetActorIDForAudit] returns the original admin ID of the
    context whenever that ID is present and not the nil UUID, and otherwise
    the ID of the context's user (the nil UUID when there is none).  On a
    request that passes [RequireAuth] while the session holds an enabled,
    unexpired grant whose original admin ID is not nil, the wrapped handler
    runs as the target, and every entry of [NewAuditLogWithContext] carries
    the original admin as actor. *)
Theorem audit_actor_is_original_admin :
  (∀ ctx originalAdminID,
     Ctx.ContextKeyOriginalAdminID ctx = Some originalAdminID →
     originalAdminID ≠ uuid.Nil →
     GetActorIDForAudit ctx = originalAdminID)
  ∧ (∀ ctx,
       Ctx.ContextKeyOriginalAdminID ctx = None
       ∨ Ctx.ContextKeyOriginalAdminID ctx = Some uuid.Nil →
       GetActorIDForAudit ctx
       = match Ctx.ContextKeyUser ctx with
         | Some user => User.ID user
         | None => uuid.Nil
         end)
  ∧ (∀ m next r vals impState userIDStr userID user,
       Request.GetErr r = false →
       as_bool (vals !! "logged") = Some true →
       as_ImpersonationState (vals !! "impersonation_state") = Some impState →
       ImpersonationState.Enabled impState = true →
       ImpersonationState.Duration (Request.Now r) impState
         ≤ SessionMiddleware.adminModeTimeout m →
       as_string (vals !! "user_id") = Some userIDStr →
       uuid_Parse userIDStr = Some userID →
       SessionMiddleware.userStore m userID = Some user →
       ImpersonationState.OriginalAdminID impState ≠ uuid.Nil →
       ∃ ctx,
         run (RequireAuth m next r) vals = next (Request.WithContext r ctx) (start vals)
         ∧ GetUserFromContext ctx = Some user
         ∧ GetActorIDForAudit ctx = ImpersonationState.OriginalAdminID impState
         ∧ ∀ now action resourceType resourceID s,
             ∃ a, NewAuditLogWithContext now ctx action resourceType resourceID s
                  = (Ret a, s)
                  ∧ AuditLog.ActorUserID a
                    = NullUUID.mk (ImpersonationState.OriginalAdminID impState) true).
Proof.
  split; [|split].
  - intros ctx id Hid Hnil. unfold GetActorIDForAudit. rewrite Hid.
    apply N.eqb_neq in Hnil. by rewrite Hnil.
  - intros ctx [Hid|Hid]; unfold GetActorIDForAudit; rewrite Hid; reflexivity.
  - intros m next r vals impState userIDStr userID user
      Hget Hlogged Himp Hen Hage Hid Hparse Hstore Hnil.
    eexists. split; [by eapply RequireAuth_impersonating|].
    apply N.eqb_neq in Hnil.
    assert (Hactor : GetActorIDForAudit
                       (Ctx.mk (Some user) (Some impState)
                          (Some (ImpersonationState.OriginalAdminID impState)))
                     = ImpersonationState.OriginalAdminID impState).
    { unfold GetActorIDForAudit. simpl. by rewrite Hnil. }
    split; [reflexivity|]. split; [exact Hactor|].
    intros now action resourceType resourceID s.
    destruct (NewAuditLogWithContext_user now
                (Ctx.mk (Some user) (Some impState)
                   (Some (ImpersonationState.OriginalAdminID impState)))
                action resourceType resourceID user s eq_refl)
      as (a & Hrun & _ & _ & Hact).
    exists a. split; [exact Hrun|]. rewrite Hact, Hactor. by rewrite Hnil.
Qed.
End AttributionFacts.

(** Alice acts as Bob since ten minutes: handlers run as Bob, entries are
    attributed to Alice. *)
Lemma audit_actor_is_original_admin_witness :
  ∃ ctx,
    run (RequireAuth (H := Sample.lib) Sample.middleware (λ _, ret tt)
           (Sample.incoming (Sample.today + 10 * Sample.minute)))
      (Sample.impersonating Sample.today)
    = (Ret tt, start (Sample.impersonating Sample.today))
    ∧ GetUserFromContext ctx = Some Sample.bob
    ∧ GetActorIDForAudit ctx = User.ID Sample.alice.
Proof.
  destruct (audit_actor_is_original_admin (H := Sample.lib)) as (_ & _ & Hauth).
  destruct (Hauth Sample.middleware (λ _, ret tt)
              (Sample.incoming (Sample.today + 10 * Sample.minute))
              (Sample.impersonating Sample.today) (Sample.grant Sample.today)
              "00000000-0000-0000-0000-00000000000b" 11%N Sample.bob)
    as (ctx & Hrun & Huser & Hactor & _);
    [vm_compute; first [reflexivity | discriminate] ..|].
  exists ctx. repeat split; assumption.
Defined.

(** C3 as stated fails on the context of an impersonation started by an
    admin whose ID is the nil UUID: the actor is the target, Bob. *)
Lemma nil_admin_attributed_to_target :
  ¬ attributes_to_admin_whenever_impersonating (Sample.context_of_root Sample.today).
Proof.
  unfold attributes_to_admin_whenever_impersonating. simpl. discriminate.
Qed.

(** That context is the one [RequireAuth] builds from the session of such
    an impersonation, and the entry a handler makes there names Bob. *)
Example RequireAuth_context_of_root next :
  run (RequireAuth (H := Sample.lib) Sample.middleware next
         (Sample.incoming (Sample.today + 10 * Sample.minute)))
    (Sample.impersonating_as_root Sample.today)
  = next (Request.WithContext (Sample.incoming (Sample.today + 10 * Sample.minute))
            (Sample.context_of_root Sample.today))
      (start (Sample.impersonating_as_root Sample.today)).
Proof.
  apply (RequireAuth_impersonating (H := Sample.lib)) with
    (userIDStr := "00000000-0000-0000-0000-00000000000b") (userID := 11%N);
    vm_compute; first [reflexivity | discriminate].
Qed.

Example entry_of_root_names_target s :
  (NewAuditLogWithContext (H := Sample.lib) Sample.today
     (Sample.context_of_root Sample.today)
     ActionImpersonationStopped ResourceTypeUser "00000000-0000-0000-0000-00000000000b" s).1
  = Ret (AuditLog.mk Sample.today (NullUUID.mk (User.ID Sample.bob) true)
           ActionImpersonationStopped ResourceTypeUser
           "00000000-0000-0000-0000-00000000000b"
           {[ "_impersonation" :=
                DObject
                  (<["impersonated_user_id" := "00000000-0000-0000-0000-00000000000b"]>
                   (<["impersonated_user_email" := "bob@example.com"]>
                    (<["impersonated_user_name" := "Bob"]>
                     (<["performed_by_admin_id" :=
                          "00000000-0000-0000-0000-00000000000b"]> ∅)))) ]}
           None None).
Proof. reflexivity. Qed.

(** ** Starting and stopping an impersonation *)

(** Replaces a run of [emit] by its effect on the state. *)
Ltac emit_step :=
  match goal with
  | |- context [emit ?h ?r ?act ?rid ?c ?ip ?s] =>
      let res := fresh "res" in
      let entries := fresh "entries" in
      let Hres := fresh "Hres" in
      destruct (emit_state h r act rid c ip s) as (res & entries & -> & Hres);
      destruct res; [| congruence |]; msimpl
  end.

(** Splits on the next condition the code tests. *)
Ltac branch :=
  match goal with
  | |- context [match ?c with _ => _ end] =>
      lazymatch type of c with
      | bool => idtac
      | option _ => idtac
      | Store.t => idtac
      end;
      destruct c eqn:?
  end; msimpl.

(** Closes a goal that says the state is as it was and the status is not
    the one of a success. *)
Ltac untouched :=
  repeat split; try reflexivity; unfold status_of; simpl; discriminate.

Section StartFacts.

Context `{GoLib}.

(** The handler against the checks of the specification: the first failing
    check decides the status and the state is untouched; when all pass the
    session is written and saved once. *)
Lemma ImpersonationStartHandler_checked h r vals req adminUser :
  Request.Decode r = Some req →
  Ctx.ContextKeyUser (Request.Context r) = Some adminUser →
  Request.GetErr r = false →
  match Start_rejection h (User.ID adminUser) req vals with
  | Some code =>
      ∃ msg, run (ImpersonationStartHandler h r) vals = (Returned, rejected vals code msg)
  | None =>
      ∃ targetUserID targetUser res entries resp,
        uuid_Parse (Body.target_user_id req) = Some targetUserID
        ∧ Handlers.userStore h targetUserID = Some targetUser
        ∧ run (ImpersonationStartHandler h r) vals
          = (res, mkSt (started r req adminUser targetUser vals)
                    (if Request.SaveErr r then vals
                     else started r req adminUser targetUser vals)
                    1 entries resp)
        ∧ res = (if Request.SaveErr r then Returned else Ret tt)
        ∧ Response.Status <$> resp
          = Some (if Request.SaveErr r then http.StatusInternalServerError
                  else http.StatusOK)
  end.
Proof.
  intros Hdecode Huser Hget.
  unfold Start_rejection, ImpersonationStartHandler, GetUserFromContext, impersonation_active.
  rewrite Hdecode, Huser. msimpl.
  destruct (decide (TrimSpace (Body.reason req) = "")) as [Hblank|Hblank];
    [rewrite (bool_decide_eq_true_2 _ Hblank); msimpl; eexists; reflexivity|].
  rewrite (bool_decide_eq_false_2 _ Hblank). msimpl.
  destruct (uuid_Parse (Body.target_user_id req)) as [targetUserID|] eqn:Hparse; msimpl; [|eexists; reflexivity].
  destruct (N.eqb_spec targetUserID uuid.Nil); msimpl;
    destruct (decide (targetUserID = uuid.Nil)); try done; [eexists; reflexivity|].
  destruct (N.eqb_spec targetUserID (User.ID adminUser)); msimpl;
    destruct (decide (targetUserID = User.ID adminUser)); try done; [eexists; reflexivity|].
  rewrite Hget. msimpl.
  destruct (match as_ImpersonationState (vals !! "impersonation_state") with
            | Some existingState => ImpersonationState.Enabled existingState
            | None => false
            end); msimpl; [eexists; reflexivity|].
  destruct (Handlers.userStore h targetUserID) as [targetUser|] eqn:Hstore; msimpl; [|eexists; reflexivity].
  destruct (User.IsAdmin targetUser); msimpl; [eexists; reflexivity|].
  exists targetUserID, targetUser.
  destruct (Request.SaveErr r); msimpl.
  - eexists _, _, _. repeat split; first [reflexivity | assumption].
  - destruct (Handlers.auditLogger h) eqn:Hlog.
    + match goal with
      | |- context [emit ?h ?r ?act ?rid ?c ?ip ?s] =>
          destruct (emit_on h r act rid c ip s adminUser Hlog Huser) as (entry & -> & _)
      end.
      msimpl. eexists _, _, _. repeat split; first [reflexivity | assumption].
    + rewrite emit_off by done. msimpl.
      eexists _, _, _. repeat split; first [reflexivity | assumption].
Qed.

(** Every run of the handler: either nothing was written or saved, or all
    the checks passed and the session was written and saved once. *)
Lemma ImpersonationStartHandler_effect h r vals :
  let s' := (run (ImpersonationStartHandler h r) vals).2 in
  (session s' = vals ∧ stored s' = vals ∧ saves s' = 0%nat ∧ audit s' = []
   ∧ status_of s' ≠ Some http.StatusOK)
  ∨ (∃ req adminUser targetUser,
       Request.Decode r = Some req
       ∧ Ctx.ContextKeyUser (Request.Context r) = Some adminUser
       ∧ Request.GetErr r = false
       ∧ Start_rejection h (User.ID adminUser) req vals = None
       ∧ session s' = started r req adminUser targetUser vals
       ∧ saves s' = 1%nat
       ∧ ((Request.SaveErr r = true ∧ stored s' = vals
           ∧ status_of s' = Some http.StatusInternalServerError)
          ∨ (Request.SaveErr r = false ∧ stored s' = session s'
             ∧ status_of s' = Some http.StatusOK))).
Proof.
  destruct (Request.Decode r) as [req|] eqn:Hdecode;
    [destruct (Ctx.ContextKeyUser (Request.Context r)) as [adminUser|] eqn:Huser;
     [destruct (Request.GetErr r) eqn:Hget|]|].
  - left. unfold ImpersonationStartHandler, GetUserFromContext.
    rewrite Hdecode, Huser. msimpl.
    repeat (first [solve [untouched] | branch]).
  - pose proof (ImpersonationStartHandler_checked h r vals req adminUser
                  Hdecode Huser Hget) as Hrun.
    destruct (Start_rejection h (User.ID adminUser) req vals) as [code|] eqn:Hcheck.
    + destruct Hrun as (msg & ->). left. repeat split.
      unfold Start_rejection in Hcheck. unfold status_of. simpl.
      repeat case_match; simplify_eq; discriminate.
    + destruct Hrun as (targetUserID & targetUser & res & entries & resp
                        & Hparse & Hstore & -> & _ & Hresp).
      right. exists req, adminUser, targetUser. cbn [snd session saves stored].
      repeat (split; [done|]).
      destruct (Request.SaveErr r) eqn:Hsave; [left|right]; by repeat split.
  - left. unfold ImpersonationStartHandler, GetUserFromContext.
    rewrite Hdecode, Huser. msimpl.
    repeat (first [solve [untouched] | branch]).
  - left. unfold ImpersonationStartHandler. rewrite Hdecode. msimpl. untouched.
Qed.

(** The checks pass exactly when the justification is not blank, the target
    ID parses, is not nil and not the caller's, no grant is active, and the
    target exists and is no admin. *)
Lemma Start_rejection_None h callerID req vals :
  Start_rejection h callerID req vals = None ↔
  TrimSpace (Body.reason req) ≠ ""
  ∧ ∃ targetID target,
      uuid_Parse (Body.target_user_id req) = Some targetID
      ∧ targetID ≠ uuid.Nil
      ∧ targetID ≠ callerID
      ∧ impersonation_active vals = false
      ∧ Handlers.userStore h targetID = Some target
      ∧ User.IsAdmin target = false.
Proof.
  unfold Start_rejection. split.
  - intros Hcheck. repeat case_match; simplify_eq. split; [done|].
    eexists _, _. by repeat split.
  - intros (Hblank & targetID & target & -> & Hnil & Hself & -> & -> & ->).
    by repeat case_decide.
Qed.

(** C4.  For every invocation of Start that decodes its body, has a caller
    in the context and obtains the session: the first failing precondition
    (blank justification, malformed or nil target, target equal to caller,
    grant already active: 400; target not found: 404; target admin: 403)
    ends the call with its status and with session, store and audit trail
    untouched and nothing saved; when all pass, the session is written and
    saved once.  And for every invocation whatsoever, either nothing was
    written or saved, or every precondition has passed and there was
    exactly one Save. *)
Theorem Start_validates_before_writing h r vals :
  (∀ req adminUser,
     Request.Decode r = Some req →
     Ctx.ContextKeyUser (Request.Context r) = Some adminUser →
     Request.GetErr r = false →
     match Start_rejection h (User.ID adminUser) req vals with
     | Some code =>
         ∃ msg, run (ImpersonationStartHandler h r) vals = (Returned, rejected vals code msg)
     | None =>
         ∃ targetUser,
           session (run (ImpersonationStartHandler h r) vals).2
           = started r req adminUser targetUser vals
           ∧ saves (run (ImpersonationStartHandler h r) vals).2 = 1%nat
     end)
  ∧ (let s' := (run (ImpersonationStartHandler h r) vals).2 in
     (saves s' = 0%nat ∧ session s' = vals ∧ stored s' = vals ∧ audit s' = [])
     ∨ (saves s' = 1%nat
        ∧ ∃ req adminUser,
            Request.Decode r = Some req
            ∧ Ctx.ContextKeyUser (Request.Context r) = Some adminUser
            ∧ Request.GetErr r = false
            ∧ Start_rejection h (User.ID adminUser) req vals = None)).
Proof.
  split.
  - intros req adminUser Hdecode Huser Hget.
    pose proof (ImpersonationStartHandler_checked h r vals req adminUser
                  Hdecode Huser Hget) as Hrun.
    destruct (Start_rejection h (User.ID adminUser) req vals); [exact Hrun|].
    destruct Hrun as (_ & targetUser & res & entries & resp & _ & _ & -> & _).
    by exists targetUser.
  - destruct (ImpersonationStartHandler_effect h r vals)
      as [(Hsession & Hstored & Hsaves & Haudit & _)
         |(req & adminUser & targetUser & Hdecode & Huser & Hget & Hcheck & _ & Hsaves & _)].
    + by left.
    + right. split; [done|]. by exists req, adminUser.
Qed.

(** Whatever the justification, a Start whose target ID names an admin in
    the user store is rejected with nothing written: with 403 when the call
    gets to resolve the target, with the 400 of an earlier check
    otherwise. *)
Lemma Start_never_succeeds_on_admin h r vals req adminUser targetUserID targetUser :
  Request.Decode r = Some req →
  Ctx.ContextKeyUser (Request.Context r) = Some adminUser →
  Request.GetErr r = false →
  uuid_Parse (Body.target_user_id req) = Some targetUserID →
  Handlers.userStore h targetUserID = Some targetUser →
  User.IsAdmin targetUser = true →
  ∃ code msg,
    run (ImpersonationStartHandler h r) vals = (Returned, rejected vals code msg)
    ∧ (code = http.StatusBadRequest ∨ code = http.StatusForbidden).
Proof.
  intros Hdecode Huser Hget Hparse Hstore Hadmin.
  pose proof (ImpersonationStartHandler_checked h r vals req adminUser
                Hdecode Huser Hget) as Hrun.
  unfold Start_rejection in Hrun. rewrite Hparse, Hstore, Hadmin in Hrun.
  destruct (decide (TrimSpace (Body.reason req) = ""));
    [|destruct (decide (targetUserID = uuid.Nil));
      [|destruct (decide (targetUserID = User.ID adminUser));
        [|destruct (impersonation_active vals)]]];
    destruct Hrun as (msg & Hrun);
    eexists _, msg; (split; [exact Hrun|]); by auto.
Qed.

(** C5.  A Start call resolves its target once the justification is found
    not blank, the target ID well formed, not nil and not the caller's, and
    no grant active.  Whenever the record the user store then returns has
    the admin role, the call fails with 403, for every such justification,
    and session, store and audit trail are untouched. *)
Theorem Start_rejects_admin_target h r vals req adminUser targetUserID targetUser :
  Request.Decode r = Some req →
  Ctx.ContextKeyUser (Request.Context r) = Some adminUser →
  Request.GetErr r = false →
  TrimSpace (Body.reason req) ≠ "" →
  uuid_Parse (Body.target_user_id req) = Some targetUserID →
  targetUserID ≠ uuid.Nil →
  targetUserID ≠ User.ID adminUser →
  impersonation_active vals = false →
  Handlers.userStore h targetUserID = Some targetUser →
  User.IsAdmin targetUser = true →
  run (ImpersonationStartHandler h r) vals
  = (Returned, rejected vals http.StatusForbidden "Cannot impersonate admin users").
Proof.
  intros Hdecode Huser Hget Hblank Hparse Hnil Hself Hactive Hstore Hadmin.
  apply N.eqb_neq in Hnil, Hself.
  unfold impersonation_active in Hactive.
  unfold ImpersonationStartHandler, GetUserFromContext.
  rewrite Hdecode, (bool_decide_eq_false_2 _ Hblank). mrun. reflexivity.
Qed.

(** A session with an active grant rejects every Start with 400, body
    decodable or not, and stays as it is. *)
Lemma Start_while_impersonating h r vals adminUser :
  Request.GetErr r = false →
  Ctx.ContextKeyUser (Request.Context r) = Some adminUser →
  impersonation_active vals = true →
  ∃ msg,
    run (ImpersonationStartHandler h r) vals
    = (Returned, rejected vals http.StatusBadRequest msg).
Proof.
  intros Hget Huser Hactive.
  destruct (Request.Decode r) as [req|] eqn:Hdecode.
  - pose proof (ImpersonationStartHandler_checked h r vals req adminUser
                  Hdecode Huser Hget) as Hrun.
    unfold Start_rejection in Hrun. rewrite Hactive in Hrun.
    destruct (decide (TrimSpace (Body.reason req) = "")); [done|].
    destruct (uuid_Parse (Body.target_user_id req)) as [targetUserID|]; [|done].
    destruct (decide (targetUserID = uuid.Nil)); [done|].
    by destruct (decide (targetUserID = User.ID adminUser)).
  - unfold ImpersonationStartHandler. rewrite Hdecode. msimpl. by eexists.
Qed.

(** A Start that answers 200 has stored an active grant. *)
Lemma Start_success_stores_grant h r vals :
  status_of (run (ImpersonationStartHandler h r) vals).2 = Some http.StatusOK →
  impersonation_active (stored (run (ImpersonationStartHandler h r) vals).2) = true.
Proof.
  intros Hok.
  destruct (ImpersonationStartHandler_effect h r vals)
    as [(_ & _ & _ & _ & Hnot)
       |(req & adminUser & targetUser & _ & _ & _ & _ & Hsession & _
         & [(_ & _ & Hstatus)|(_ & -> & _)])].
  - done.
  - rewrite Hstatus in Hok. discriminate.
  - rewrite Hsession. unfold impersonation_active, started. by simplify_map_eq.
Qed.

End StartFacts.

Section StopFacts.

Context `{GoLib}.

(** Every run of [ImpersonationStopHandler]: either nothing was written or
    saved, or an active grant and its original user ID were found, the
    identity was restored in the session, the two fields were deleted, and
    the session was saved once. *)
Lemma ImpersonationStopHandler_effect h r vals :
  let s' := (run (ImpersonationStopHandler h r) vals).2 in
  (session s' = vals ∧ stored s' = vals ∧ saves s' = 0%nat ∧ audit s' = []
   ∧ status_of s' ≠ Some http.StatusOK)
  ∨ (∃ originalAdminIDStr,
       impersonation_active vals = true
       ∧ as_string (vals !! "original_user_id") = Some originalAdminIDStr
       ∧ session s'
         = delete "original_user_id"
             (delete "impersonation_state"
                (<["user_id" := VString originalAdminIDStr]> vals))
       ∧ saves s' = 1%nat
       ∧ stored s' = (if Request.SaveErr r then vals else session s')
       ∧ (status_of s' = Some http.StatusOK → Request.SaveErr r = false)).
Proof.
  unfold ImpersonationStopHandler, impersonation_active. msimpl.
  repeat (first [emit_step | branch]).
  all: try (left; solve [untouched]).
  all: right; eexists; repeat split; try reflexivity; try done.
  all: by apply negb_false_iff.
Qed.

End StopFacts.

(** ** The two fields of an impersonation *)

(** Rewrites the lookups of the session keys through the updates. *)
Ltac paired_solver :=
  unfold paired in *; cbn [session stored snd fst] in *;
  repeat first
    [ rewrite lookup_insert_eq
    | rewrite lookup_delete_eq
    | rewrite lookup_insert_ne by done
    | rewrite lookup_delete_ne by done ];
  first [ assumption | tauto | split; intros _; eexists; reflexivity ].

Section PairedFacts.

Context `{GoLib}.

(** Each operation keeps the two fields together, in the session object of
    the request and in the store. *)
Lemma perform_paired op vals :
  paired vals →
  paired (session (perform op vals)) ∧ paired (stored (perform op vals)).
Proof.
  intros Hpaired.
  destruct op as [h r|h r|h r|h r|h r|h r|m r|m r]; unfold perform.
  - unfold AdminModeEnableHandler, GetUserFromContext. msimpl.
    repeat (first [emit_step | branch]); split; paired_solver.
  - unfold AdminModeDisableHandler, GetUserFromContext. msimpl.
    repeat (first [emit_step | branch]); split; paired_solver.
  - unfold AdminModeStatusHandler, GetUserFromContext. msimpl.
    repeat (first [emit_step | branch]); split; paired_solver.
  - unfold ImpersonationStartHandler, GetUserFromContext. msimpl.
    repeat (first [emit_step | branch]); split; paired_solver.
  - unfold ImpersonationStopHandler. msimpl.
    repeat (first [emit_step | branch]); split; paired_solver.
  - unfold ImpersonationStatusHandler, stopExpiredImpersonation. msimpl.
    repeat (first [emit_step | branch]); split; paired_solver.
  - unfold Authenticate. msimpl.
    repeat (first [emit_step | branch]); split; paired_solver.
  - unfold RequireAdminMode. msimpl.
    repeat (first [emit_step | branch]); split; paired_solver.
Qed.

Ltac well_formed_solver :=
  unfold well_formed in *; cbn [session stored snd fst] in *;
  repeat first
    [ rewrite lookup_insert_eq
    | rewrite lookup_delete_eq
    | rewrite lookup_insert_ne by done
    | rewrite lookup_delete_ne by done ];
  first [ left; split; (reflexivity || assumption)
        | right; eexists _, _; repeat split; (reflexivity || eassumption) ].

(** Each operation also keeps the fields well formed. *)
Lemma perform_well_formed op vals :
  well_formed vals → well_formed (stored (perform op vals)).
Proof.
  intros Hwf.
  assert (Hcases : ∀ vals', vals' = vals ∨ well_formed vals' → well_formed vals').
  { intros vals' [->|Hvals']; assumption. }
  apply Hcases.
  destruct Hwf as [[Himp Horig]|(impState & originalUserIDStr & Himp & Hen & Horig)];
    destruct op as [h r|h r|h r|h r|h r|h r|m r|m r]; unfold perform.
  all: unfold AdminModeEnableHandler, AdminModeDisableHandler, AdminModeStatusHandler,
         ImpersonationStartHandler, ImpersonationStopHandler,
         ImpersonationStatusHandler, stopExpiredImpersonation, Authenticate,
         RequireAdminMode, GetUserFromContext; msimpl;
       rewrite ?Himp, ?Horig; msimpl.
  all: repeat (first [emit_step | branch]).
  all: first [left; reflexivity | right; well_formed_solver].
Qed.

Lemma reachable_well_formed vals : reachable vals → well_formed vals.
Proof.
  induction 1 as [vals Himp Horig|vals op _ IH].
  - by left.
  - by apply perform_well_formed.
Qed.

(** In a reachable session a grant is enabled and comes with the string of
    the original user: the expiry repair of [Authenticate] finds what it
    needs there. *)
Lemma reachable_grant_has_original vals impState :
  reachable vals →
  as_ImpersonationState (vals !! "impersonation_state") = Some impState →
  ImpersonationState.Enabled impState = true
  ∧ ∃ originalUserIDStr, as_string (vals !! "original_user_id") = Some originalUserIDStr.
Proof.
  intros Hreach Himp.
  destruct (reachable_well_formed vals Hreach)
    as [[Hnone _]|(impState' & originalUserIDStr & Hsome & Hen & Horig)].
  - rewrite Hnone in Himp. discriminate.
  - rewrite Hsome in Himp. injection Himp as <-.
    split; [exact Hen|]. exists originalUserIDStr. by rewrite Horig.
Qed.

(** C9.  In every session reachable through the lifecycle operations
    (admin mode enable, disable and status, impersonation start, stop and
    status with its expiry cleanup, Authenticate with its expiry repair,
    RequireAdminMode), ["original_user_id"] is present if and only if
    ["impersonation_state"] is; and each operation, run on a session where
    the two are paired, leaves them paired in the session object and in the
    store. *)
Theorem original_identity_iff_impersonation :
  (∀ vals, reachable vals → paired vals)
  ∧ (∀ op vals,
       paired vals →
       paired (session (perform op vals)) ∧ paired (stored (perform op vals))).
Proof.
  split; [|exact perform_paired].
  induction 1 as [vals Himp Horig|vals op _ IH].
  - unfold paired. rewrite Himp, Horig. tauto.
  - by apply perform_paired.
Qed.

End PairedFacts.

(** ** A second Start, and the admin mode gate *)

Section GateClaims.

Context `{GoLib}.

(** A Stop that answers 200 has stored a session without the grant and
    with the original identity restored. *)
Lemma Stop_success_removes_grant h r vals :
  status_of (run (ImpersonationStopHandler h r) vals).2 = Some http.StatusOK →
  impersonation_active (stored (run (ImpersonationStopHandler h r) vals).2) = false
  ∧ as_string (stored (run (ImpersonationStopHandler h r) vals).2 !! "user_id")
    = as_string (vals !! "original_user_id").
Proof.
  intros Hok.
  destruct (ImpersonationStopHandler_effect h r vals)
    as [(_ & _ & _ & _ & Hnot)
       |(originalAdminIDStr & _ & Horig & Hsession & _ & Hstored & Hsave)]; [done|].
  rewrite Hstored, (Hsave Hok), Hsession, Horig.
  unfold impersonation_active. by simplify_map_eq.
Qed.

(** C6.  The session has one slot for the grant.  Once a Start has answered
    200, the stored session holds an active grant, and every further Start
    on it (any handler configuration, any body, any target), made by an
    authenticated caller on an obtained session, is answered 400 and leaves
    session, store and audit trail as they were; the same holds for any
    session as long as it holds an active grant.  A Stop that answers 200
    stores a session without the grant, and so does an expiry repair whose
    Save took effect: with no error of Save, the stored session is without
    the grant exactly when the store keeps the session it is given without
    a writer. *)
Theorem second_Start_is_rejected :
  (∀ h1 r1 vals h2 r2 adminUser,
     status_of (run (ImpersonationStartHandler h1 r1) vals).2 = Some http.StatusOK →
     Request.GetErr r2 = false →
     Ctx.ContextKeyUser (Request.Context r2) = Some adminUser →
     let held := stored (run (ImpersonationStartHandler h1 r1) vals).2 in
     impersonation_active held = true
     ∧ ∃ msg,
         run (ImpersonationStartHandler h2 r2) held
         = (Returned, rejected held http.StatusBadRequest msg))
  ∧ (∀ h r vals adminUser,
       Request.GetErr r = false →
       Ctx.ContextKeyUser (Request.Context r) = Some adminUser →
       impersonation_active vals = true →
       ∃ msg,
         run (ImpersonationStartHandler h r) vals
         = (Returned, rejected vals http.StatusBadRequest msg))
  ∧ (∀ h r vals,
       status_of (run (ImpersonationStopHandler h r) vals).2 = Some http.StatusOK →
       impersonation_active (stored (run (ImpersonationStopHandler h r) vals).2) = false)
  ∧ (∀ m r vals impState originalUserIDStr,
       Request.GetErr r = false →
       Request.SaveErr r = false →
       as_bool (vals !! "logged") = Some true →
       as_ImpersonationState (vals !! "impersonation_state") = Some impState →
       ImpersonationState.Enabled impState = true →
       SessionMiddleware.adminModeTimeout m
         < ImpersonationState.Duration (Request.Now r) impState →
       as_string (vals !! "original_user_id") = Some originalUserIDStr →
       impersonation_active (stored (run (Authenticate m r) vals).2)
       = negb (Store.keeps_without_writer (SessionMiddleware.sessionStore m))).
Proof.
  split; [|split; [|split]].
  - intros h1 r1 vals h2 r2 adminUser Hok Hget Huser held.
    pose proof (Start_success_stores_grant h1 r1 vals Hok) as Hactive.
    split; [exact Hactive|].
    by apply Start_while_impersonating with adminUser.
  - intros h r vals adminUser. apply Start_while_impersonating.
  - intros h r vals Hok. by apply Stop_success_removes_grant.
  - intros m r vals impState originalUserIDStr Hget Hsave Hlogged Himp Hen Hage Horig.
    destruct (Authenticate_repair_run m r vals impState originalUserIDStr
                Hget Hlogged Himp Hen Hage Horig) as (entries & -> & _).
    cbn [snd stored]. rewrite Hsave.
    unfold impersonation_active, restored.
    destruct (Store.keeps_without_writer (SessionMiddleware.sessionStore m)).
    + by simplify_map_eq.
    + by rewrite Himp.
Qed.

(** C7.  [RequireAdminMode], for a caller in the context and an obtained
    session: the wrapped handler runs, on the untouched state, when the
    caller is an admin and the session holds an enabled grant whose age is
    at most the timeout (an age equal to the timeout included); in every
    other case the answer is 403; and for an enabled grant whose age
    exceeds the timeout the grant is deleted from the session and Save is
    called once before the 403, so that, unless Save fails, the store holds
    no grant and every later call is refused for a missing grant. *)
Theorem RequireAdminMode_gate m next r vals user :
  Ctx.ContextKeyUser (Request.Context r) = Some user →
  Request.GetErr r = false →
  (∀ adminState,
     User.IsAdmin user = true →
     as_AdminModeState (vals !! "admin_mode") = Some adminState →
     AdminModeState.Enabled adminState = true →
     AdminModeState.Duration (Request.Now r) adminState
       ≤ SessionMiddleware.adminModeTimeout m →
     run (RequireAdminMode m next r) vals = next r (start vals))
  ∧ (¬ (User.IsAdmin user = true
        ∧ ∃ adminState,
            as_AdminModeState (vals !! "admin_mode") = Some adminState
            ∧ AdminModeState.Enabled adminState = true
            ∧ AdminModeState.Duration (Request.Now r) adminState
              ≤ SessionMiddleware.adminModeTimeout m) →
     ∃ s',
       run (RequireAdminMode m next r) vals = (Returned, s')
       ∧ status_of s' = Some http.StatusForbidden)
  ∧ (∀ adminState,
       User.IsAdmin user = true →
       as_AdminModeState (vals !! "admin_mode") = Some adminState →
       AdminModeState.Enabled adminState = true →
       SessionMiddleware.adminModeTimeout m
         < AdminModeState.Duration (Request.Now r) adminState →
       ∃ s',
         run (RequireAdminMode m next r) vals = (Returned, s')
         ∧ status_of s' = Some http.StatusForbidden
         ∧ session s' = delete "admin_mode" vals
         ∧ saves s' = 1%nat
         ∧ stored s' = (if Request.SaveErr r then vals else delete "admin_mode" vals)
         ∧ audit s' = []
         ∧ (Request.SaveErr r = false →
            stored s' !! "admin_mode" = None
            ∧ ∀ r' user',
                Ctx.ContextKeyUser (Request.Context r') = Some user' →
                User.IsAdmin user' = true →
                Request.GetErr r' = false →
                run (RequireAdminMode m next r') (stored s')
                = (Returned,
                   rejected (stored s') http.StatusForbidden
                     "Admin mode must be enabled to perform this action"))).
Proof.
  intros Huser Hget. split; [|split].
  - intros adminState Hadmin Hmode Hen Hage.
    apply Z.ltb_ge in Hage.
    rewrite <- (AdminModeState_IsExpired_enabled _ _ _ Hen) in Hage.
    unfold RequireAdminMode. mrun. reflexivity.
  - intros Hnot. unfold RequireAdminMode. mrun.
    destruct (User.IsAdmin user) eqn:Hadmin; msimpl; [|by eexists].
    destruct (as_AdminModeState (vals !! "admin_mode")) as [adminState|] eqn:Hmode;
      msimpl; [|by eexists].
    destruct (AdminModeState.Enabled adminState) eqn:Hen; msimpl; [|by eexists].
    rewrite (AdminModeState_IsExpired_enabled _ _ _ Hen).
    destruct (Z.ltb_spec (SessionMiddleware.adminModeTimeout m)
                (AdminModeState.Duration (Request.Now r) adminState)) as [Hlt|Hle];
      msimpl.
    + destruct (Request.SaveErr r); by eexists.
    + destruct Hnot. split; [done|]. by exists adminState.
  - intros adminState Hadmin Hmode Hen Hage.
    apply Z.ltb_lt in Hage.
    rewrite <- (AdminModeState_IsExpired_enabled _ _ _ Hen) in Hage.
    unfold RequireAdminMode.
    destruct (Request.SaveErr r) eqn:Hsave; mrun;
      eexists; (split; [reflexivity|]); repeat (split; [reflexivity|]);
      intros; try discriminate.
    split; [by simplify_map_eq|].
    intros r' user' Huser' Hadmin' Hget'. mrun.
    replace (as_AdminModeState (delete "admin_mode" vals !! "admin_mode"))
      with (@None AdminModeState.t) by (by simplify_map_eq).
    reflexivity.
Qed.

End GateClaims.

(** ** The properties on the sample deployment *)

Example TrimSpace_blank : Sample.trim_space "  " = "".
Proof. reflexivity. Qed.

Example TrimSpace_text : Sample.trim_space " debug ticket #42 " = "debug ticket #42".
Proof. reflexivity. Qed.

Example format_uuid_10 : Sample.format_uuid 10%N = "00000000-0000-0000-0000-00000000000a".
Proof. reflexivity. Qed.

Example parse_uuid_10 :
  Sample.parse_uuid "00000000-0000-0000-0000-00000000000a" = Some 10%N.
Proof. reflexivity. Qed.

Example parse_uuid_short : Sample.parse_uuid "0000" = None.
Proof. reflexivity. Qed.

(** Alice starts to act as Bob: the session of the scenario. *)
Example Start_scenario :
  run (ImpersonationStartHandler (H := Sample.lib) Sample.handlers
         (Sample.request
            (Some (Body.mk "00000000-0000-0000-0000-00000000000b" " debug ticket #42 "))
            Sample.today))
    (Sample.elevated Sample.today)
  = (Ret tt,
     mkSt (Sample.impersonating Sample.today) (Sample.impersonating Sample.today) 1
       (audit (perform (H := Sample.lib)
                 (OpStart Sample.handlers
                    (Sample.request
                       (Some (Body.mk "00000000-0000-0000-0000-00000000000b"
                                " debug ticket #42 "))
                       Sample.today))
                 (Sample.elevated Sample.today)))
       (Some (Response.mk http.StatusOK
                (ImpersonationStartResponse "Now impersonating bob@example.com"
                   (Sample.grant Sample.today))))).
Proof. vm_compute. reflexivity. Qed.

(** Five minutes later she stops: the identity is hers again. *)
Example Stop_scenario :
  stored (run (ImpersonationStopHandler (H := Sample.lib) Sample.handlers
                 (Sample.request_as_bob None Sample.today
                    (Sample.today + 5 * Sample.minute)))
            (Sample.impersonating Sample.today)).2
  = Sample.elevated Sample.today.
Proof. vm_compute. reflexivity. Qed.

(** Forty minutes into the impersonation a request meets the expiry repair
    of [Authenticate].  Over the store that keeps the session in the
    cookie the Save without a writer panics with nothing kept; over the
    store that keeps it in a file it panics after the repaired session was
    written. *)
Example Authenticate_repair_on_cookies :
  run (Authenticate (H := Sample.lib) Sample.middleware_on_cookies
         (Sample.incoming (Sample.today + 40 * Sample.minute)))
    (Sample.impersonating Sample.today)
  = (Panicked,
     mkSt (Sample.elevated Sample.today) (Sample.impersonating Sample.today) 1 [] None).
Proof. vm_compute. reflexivity. Qed.

Example Authenticate_repair_on_files :
  run (Authenticate (H := Sample.lib) Sample.middleware_on_files
         (Sample.incoming (Sample.today + 40 * Sample.minute)))
    (Sample.impersonating Sample.today)
  = (Panicked,
     mkSt (Sample.elevated Sample.today) (Sample.elevated Sample.today) 1 [] None).
Proof. vm_compute. reflexivity. Qed.

(** Over the store that keeps the session in a file, the request after the
    panic is Alice's again. *)
Example Authenticate_after_repair_on_files :
  run (Authenticate (H := Sample.lib) Sample.middleware_on_files
         (Sample.incoming (Sample.today + 41 * Sample.minute)))
    (stored
       (run (Authenticate (H := Sample.lib) Sample.middleware_on_files
               (Sample.incoming (Sample.today + 40 * Sample.minute)))
          (Sample.impersonating Sample.today)).2)
  = (Ret (inr Sample.alice), start (Sample.elevated Sample.today)).
Proof. vm_compute. reflexivity. Qed.

(** Alice names herself: 400, and the session is as it was. *)
Lemma Start_validates_before_writing_witness :
  ∃ msg,
    run (ImpersonationStartHandler (H := Sample.lib) Sample.handlers
           (Sample.request
              (Some (Body.mk "00000000-0000-0000-0000-00000000000a" "debug"))
              Sample.today))
      (Sample.elevated Sample.today)
    = (Returned, rejected (Sample.elevated Sample.today) http.StatusBadRequest msg).
Proof.
  exact (proj1 (Start_validates_before_writing (H := Sample.lib) Sample.handlers
                  (Sample.request
                     (Some (Body.mk "00000000-0000-0000-0000-00000000000a" "debug"))
                     Sample.today)
                  (Sample.elevated Sample.today))
           (Body.mk "00000000-0000-0000-0000-00000000000a" "debug") Sample.alice
           eq_refl eq_refl eq_refl).
Defined.

(** Alice names Carol, an admin: 403. *)
Lemma Start_rejects_admin_target_witness :
  run (ImpersonationStartHandler (H := Sample.lib) Sample.handlers
         (Sample.request
            (Some (Body.mk "00000000-0000-0000-0000-00000000000c" "debug"))
            Sample.today))
    (Sample.elevated Sample.today)
  = (Returned,
     rejected (Sample.elevated Sample.today) http.StatusForbidden
       "Cannot impersonate admin users").
Proof.
  apply (Start_rejects_admin_target (H := Sample.lib) Sample.handlers
           (Sample.request
              (Some (Body.mk "00000000-0000-0000-0000-00000000000c" "debug"))
              Sample.today)
           (Sample.elevated Sample.today)
           (Body.mk "00000000-0000-0000-0000-00000000000c" "debug")
           Sample.alice 12%N Sample.carol);
    vm_compute; first [reflexivity | discriminate].
Defined.

(** Acting as Bob, Alice asks to act as Carol's colleague 13: 400. *)
Lemma second_Start_is_rejected_witness :
  ∃ msg,
    run (ImpersonationStartHandler (H := Sample.lib) Sample.handlers
           (Sample.request_as_bob
              (Some (Body.mk "00000000-0000-0000-0000-00000000000d" "again"))
              Sample.today (Sample.today + Sample.minute)))
      (Sample.impersonating Sample.today)
    = (Returned, rejected (Sample.impersonating Sample.today) http.StatusBadRequest msg).
Proof.
  exact (proj1 (proj2 (second_Start_is_rejected (H := Sample.lib)))
           Sample.handlers
           (Sample.request_as_bob
              (Some (Body.mk "00000000-0000-0000-0000-00000000000d" "again"))
              Sample.today (Sample.today + Sample.minute))
           (Sample.impersonating Sample.today) Sample.bob
           eq_refl eq_refl eq_refl).
Defined.

(** Thirty minutes after the elevation, to the nanosecond, the gate lets
    the request through; one nanosecond later it deletes the grant. *)
Lemma RequireAdminMode_gate_witness :
  run (RequireAdminMode Sample.middleware (λ _, Encode (ErrorText "ok"))
         (Sample.request None (Sample.today + 30 * Sample.minute)))
    (Sample.elevated Sample.today)
  = (Ret tt,
     mkSt (Sample.elevated Sample.today) (Sample.elevated Sample.today) 0 []
       (Some (Response.mk http.StatusOK (ErrorText "ok"))))
  ∧ ∃ s',
      run (RequireAdminMode Sample.middleware
             (λ _, Encode (ErrorText "ok"))
             (Sample.request None (Sample.today + 30 * Sample.minute + 1)))
        (Sample.elevated Sample.today)
      = (Returned, s')
      ∧ status_of s' = Some http.StatusForbidden
      ∧ stored s' = Sample.logged_in Sample.alice.
Proof.
  split.
  - apply (proj1 (RequireAdminMode_gate Sample.middleware
                    (λ _, Encode (ErrorText "ok"))
                    (Sample.request None (Sample.today + 30 * Sample.minute))
                    (Sample.elevated Sample.today) Sample.alice eq_refl eq_refl)
             (Sample.elevation Sample.today));
      vm_compute; first [reflexivity | discriminate].
  - destruct (proj2 (proj2 (RequireAdminMode_gate Sample.middleware
                       (λ _, Encode (ErrorText "ok"))
                       (Sample.request None (Sample.today + 30 * Sample.minute + 1))
                       (Sample.elevated Sample.today) Sample.alice eq_refl eq_refl))
                (Sample.elevation Sample.today))
      as (s' & Hrun & Hstatus & _ & _ & Hstored & _);
      [vm_compute; reflexivity ..|].
    exists s'. split; [exact Hrun|]. split; [exact Hstatus|].
    rewrite Hstored. reflexivity.
Defined.

(** The session Alice's Start stores is reachable, and its fields are
    paired. *)
Lemma original_identity_iff_impersonation_witness :
  paired
    (stored
       (perform (H := Sample.lib)
          (OpStart Sample.handlers
             (Sample.request
                (Some (Body.mk "00000000-0000-0000-0000-00000000000b" "debug"))
                Sample.today))
          (Sample.elevated Sample.today))).
Proof.
  apply (proj1 (original_identity_iff_impersonation (H := Sample.lib))).
  apply reachable_step. apply reachable_fresh; reflexivity.
Defined.

(** * Further properties of the code *)

(** ** Expiry as a function of the clock *)

Section ExpiryFacts.

Lemma time_Sub_mono t t' u : t ≤ t' → time.Sub t u ≤ time.Sub t' u.
Proof.
  unfold time.Sub, time.minDuration, time.maxDuration. intros Hle.
  repeat case_match; lia.
Qed.

(** Comparing the saturated age with a timeout that is an int64 below the
    largest [Duration] is comparing the instants. *)
Lemma time_Since_gt now since timeout :
  time.minDuration ≤ timeout →
  (timeout <? time.Since now since) = true
  ↔ timeout < time.maxDuration ∧ since + timeout < now.
Proof.
  unfold time.Since, time.Sub, time.minDuration, time.maxDuration. intros Hmin.
  rewrite Z.ltb_lt. repeat case_match; lia.
Qed.

(** X1.  Expiry is permanent: a grant, of admin mode or of impersonation,
    that [IsExpired] reports expired at one reading of the clock is reported
    expired at every later reading, whatever the timeout. *)
Theorem IsExpired_permanent :
  (∀ now now' (a : AdminModeState.t) timeout,
     now ≤ now' →
     AdminModeState.IsExpired now a timeout = true →
     AdminModeState.IsExpired now' a timeout = true)
  ∧ (∀ now now' (i : ImpersonationState.t) timeout,
       now ≤ now' →
       ImpersonationState.IsExpired now i timeout = true →
       ImpersonationState.IsExpired now' i timeout = true).
Proof.
  split.
  - intros now now' a timeout Hle.
    unfold AdminModeState.IsExpired. destruct (negb (AdminModeState.Enabled a)); [done|].
    rewrite !Z.ltb_lt. pose proof (time_Sub_mono now now' (AdminModeState.Since a) Hle).
    unfold time.Since. lia.
  - intros now now' i timeout Hle.
    unfold ImpersonationState.IsExpired.
    destruct (negb (ImpersonationState.Enabled i)); [done|].
    rewrite !Z.ltb_lt. pose proof (time_Sub_mono now now' (ImpersonationState.Since i) Hle).
    unfold time.Since. lia.
Qed.

(** X2.  The window of a grant.  For a timeout in the range of int64, a
    grant is expired exactly when it is disabled, or the timeout is below
    the largest [Duration] and the clock is strictly past [Since] plus the
    timeout: the instant [Since + timeout] itself is inside the window,
    instants before [Since] are inside it for every non-negative timeout,
    and a timeout of the largest [Duration] never expires an enabled
    grant. *)
Theorem IsExpired_window :
  (∀ now (a : AdminModeState.t) timeout,
     time.minDuration ≤ timeout →
     AdminModeState.IsExpired now a timeout = true
     ↔ AdminModeState.Enabled a = false
       ∨ (timeout < time.maxDuration ∧ AdminModeState.Since a + timeout < now))
  ∧ (∀ now (i : ImpersonationState.t) timeout,
       time.minDuration ≤ timeout →
       ImpersonationState.IsExpired now i timeout = true
       ↔ ImpersonationState.Enabled i = false
         ∨ (timeout < time.maxDuration ∧ ImpersonationState.Since i + timeout < now)).
Proof.
  split.
  - intros now a timeout Hmin. unfold AdminModeState.IsExpired.
    destruct (AdminModeState.Enabled a); simpl.
    + rewrite (time_Since_gt _ _ _ Hmin). intuition congruence.
    + intuition congruence.
  - intros now i timeout Hmin. unfold ImpersonationState.IsExpired.
    destruct (ImpersonationState.Enabled i); simpl.
    + rewrite (time_Since_gt _ _ _ Hmin). intuition congruence.
    + intuition congruence.
Qed.

End ExpiryFacts.

(** A grant of 30 minutes, expired one nanosecond after the half hour, is
    still expired a day later. *)
Lemma IsExpired_permanent_witness :
  AdminModeState.IsExpired (Sample.today + 1440 * Sample.minute)
    (Sample.elevation Sample.today) (30 * Sample.minute) = true.
Proof.
  apply (proj1 IsExpired_permanent (Sample.today + 30 * Sample.minute + 1));
    vm_compute; first [reflexivity | discriminate].
Defined.

(** The same grant at the half hour exactly: inside the window. *)
Lemma IsExpired_window_witness :
  AdminModeState.IsExpired (Sample.today + 30 * Sample.minute)
    (Sample.elevation Sample.today) (30 * Sample.minute) ≠ true.
Proof.
  intros Hexpired.
  apply (proj1 IsExpired_window (Sample.today + 30 * Sample.minute)
           (Sample.elevation Sample.today) (30 * Sample.minute)) in Hexpired;
    [|vm_compute; discriminate].
  destruct Hexpired as [Hdis|[_ Hlt]]; [discriminate Hdis|].
  vm_compute in Hlt. discriminate Hlt.
Defined.

(** ** Admin mode: enable, disable, status *)

Section AdminModeFacts.

Context `{GoLib}.

(** The session and the store after an Enable that passed its checks. *)
Lemma AdminModeEnableHandler_state h r vals req :
  Request.Decode r = Some req →
  TrimSpace (Body.reason req) ≠ "" →
  Request.GetErr r = false →
  ∃ res entries resp,
    run (AdminModeEnableHandler h r) vals
    = (res, mkSt (<["admin_mode" := VAdminMode (enabled_by r req)]> vals)
              (if Request.SaveErr r then vals
               else <["admin_mode" := VAdminMode (enabled_by r req)]> vals)
              1 entries resp).
Proof.
  intros Hdecode Hblank Hget. unfold AdminModeEnableHandler, GetUserFromContext.
  rewrite Hdecode, (bool_decide_eq_false_2 _ Hblank). mrun.
  destruct (Request.SaveErr r); msimpl; [by eexists _, _, _|].
  destruct (Ctx.ContextKeyUser (Request.Context r)); msimpl; [|by eexists _, _, _].
  emit_step; by eexists _, _, _.
Qed.

(** X3.  Enable validates before it writes: an undecodable body or a reason
    that is blank after trimming is answered 400, a session that cannot be
    obtained 500, and in each case session, store and audit trail are
    untouched and nothing is saved. *)
Theorem Enable_rejects_without_effect h r vals :
  (Request.Decode r = None
   ∨ (∃ req, Request.Decode r = Some req ∧ TrimSpace (Body.reason req) = "") →
   ∃ msg,
     run (AdminModeEnableHandler h r) vals
     = (Returned, rejected vals http.StatusBadRequest msg))
  ∧ (∀ req,
       Request.Decode r = Some req →
       TrimSpace (Body.reason req) ≠ "" →
       Request.GetErr r = true →
       run (AdminModeEnableHandler h r) vals
       = (Returned, rejected vals http.StatusInternalServerError "Failed to get session")).
Proof.
  split.
  - intros [Hdecode|(req & Hdecode & Hblank)]; unfold AdminModeEnableHandler;
      rewrite Hdecode; msimpl; [by eexists|].
    rewrite (bool_decide_eq_true_2 _ Hblank). msimpl. by eexists.
  - intros req Hdecode Hblank Hget. unfold AdminModeEnableHandler.
    rewrite Hdecode, (bool_decide_eq_false_2 _ Hblank). mrun. reflexivity.
Qed.

(** X4.  An Enable that passes its checks stores, under ["admin_mode"], an
    enabled grant dated at the clock of the request with the trimmed reason
    and the client IP, replacing whatever was stored there and leaving
    every other key alone; it saves once.  If Save fails the answer is 500
    and no audit entry is made; otherwise, for a caller in the context, the
    answer is 200 with the grant, and the audit logger, when configured,
    gets one admin-mode-enabled entry with the reason and the timeout. *)
Theorem Enable_stores_fresh_grant h r vals req :
  Request.Decode r = Some req →
  TrimSpace (Body.reason req) ≠ "" →
  Request.GetErr r = false →
  ∃ res s',
    run (AdminModeEnableHandler h r) vals = (res, s')
    ∧ session s' !! "admin_mode" = Some (VAdminMode (enabled_by r req))
    ∧ (∀ k, k ≠ "admin_mode" → session s' !! k = vals !! k)
    ∧ saves s' = 1%nat
    ∧ stored s' = (if Request.SaveErr r then vals else session s')
    ∧ (Request.SaveErr r = true →
       res = Returned ∧ audit s' = []
       ∧ status_of s' = Some http.StatusInternalServerError)
    ∧ (∀ user,
         Request.SaveErr r = false →
         Ctx.ContextKeyUser (Request.Context r) = Some user →
         res = Ret tt
         ∧ response s'
           = Some (Response.mk http.StatusOK
                     (AdminModeEnableResponse "Admin mode enabled" (enabled_by r req)))
         ∧ (Handlers.auditLogger h = false → audit s' = [])
         ∧ (Handlers.auditLogger h = true →
            ∃ a, audit s' = [a]
                 ∧ AuditLog.Action a = ActionAdminModeEnabled
                 ∧ AuditLog.ResourceID a = uuid_String (User.ID user)
                 ∧ AuditLog.Changes a !! "reason"
                   = Some (DString (TrimSpace (Body.reason req)))
                 ∧ AuditLog.Changes a !! "timeout"
                   = Some (DDuration (Handlers.adminModeTimeout h)))).
Proof.
  intros Hdecode Hblank Hget. unfold AdminModeEnableHandler, GetUserFromContext.
  rewrite Hdecode, (bool_decide_eq_false_2 _ Hblank). mrun.
  destruct (Request.SaveErr r) eqn:Hsave; msimpl.
  - eexists _, _. split; [reflexivity|]. cbn [session stored saves audit].
    split; [by simplify_map_eq|]. split; [intros; by simplify_map_eq|].
    repeat split; done.
  - destruct (Ctx.ContextKeyUser (Request.Context r)) as [user|] eqn:Huser; msimpl.
    + destruct (Handlers.auditLogger h) eqn:Hlog.
      * match goal with
        | |- context [emit ?h ?r ?act ?rid ?c ?ip ?s] =>
            destruct (emit_on h r act rid c ip s user Hlog Huser)
              as (entry & -> & Hact & Hres & _ & Hchanges)
        end.
        msimpl. eexists _, _. split; [reflexivity|]. cbn [session stored saves audit response].
        split; [by simplify_map_eq|]. split; [intros; by simplify_map_eq|].
        split; [done|]. split; [done|]. split; [done|].
        intros user' _ [= <-]. split; [done|]. split; [done|]. split; [done|].
        intros _. exists entry. split; [done|]. split; [done|]. split; [done|].
        split; apply Hchanges; by simplify_map_eq.
      * rewrite emit_off by done. msimpl.
        eexists _, _. split; [reflexivity|]. cbn [session stored saves audit response].
        split; [by simplify_map_eq|]. split; [intros; by simplify_map_eq|].
        split; [done|]. split; [done|]. split; [done|].
        intros user' _ [= <-]. by repeat split.
    + eexists _, _. split; [reflexivity|]. cbn [session stored saves audit response].
      split; [by simplify_map_eq|]. split; [intros; by simplify_map_eq|].
      by repeat split.
Qed.

(** X5.  Enable composed with the gate: on the session a successful Enable
    stores, [RequireAdminMode] lets an admin through at every later request
    whose clock is at most the timeout past the Enable, and refuses with
    403 at every request past that. *)
Theorem Enable_opens_gate_for_timeout h r vals req m next r' user :
  Request.Decode r = Some req →
  TrimSpace (Body.reason req) ≠ "" →
  Request.GetErr r = false →
  Request.SaveErr r = false →
  Ctx.ContextKeyUser (Request.Context r') = Some user →
  User.IsAdmin user = true →
  Request.GetErr r' = false →
  let held := stored (run (AdminModeEnableHandler h r) vals).2 in
  (time.Since (Request.Now r') (Request.Now r) ≤ SessionMiddleware.adminModeTimeout m →
   run (RequireAdminMode m next r') held = next r' (start held))
  ∧ (SessionMiddleware.adminModeTimeout m < time.Since (Request.Now r') (Request.Now r) →
     ∃ s', run (RequireAdminMode m next r') held = (Returned, s')
           ∧ status_of s' = Some http.StatusForbidden).
Proof.
  intros Hdecode Hblank Hget Hsave Huser Hadmin Hget'.
  destruct (AdminModeEnableHandler_state h r vals req Hdecode Hblank Hget)
    as (res & entries & resp & ->).
  rewrite Hsave. cbn [snd stored]. unfold RequireAdminMode. mrun.
  rewrite lookup_insert_eq. cbn [as_AdminModeState]. msimpl.
  rewrite (AdminModeState_IsExpired_enabled _ (enabled_by r req)) by reflexivity.
  change (AdminModeState.Duration (Request.Now r') (enabled_by r req))
    with (time.Since (Request.Now r') (Request.Now r)).
  split; intros Hage.
  - apply Z.ltb_ge in Hage. rewrite Hage. msimpl. reflexivity.
  - apply Z.ltb_lt in Hage. rewrite Hage. msimpl.
    destruct (Request.SaveErr r'); by eexists.
Qed.

(** X6.  Enable and Disable undo each other: from a session without admin
    mode and without impersonation fields, a successful Enable followed by
    a Disable that saves stores the session as it was. *)
Theorem Enable_then_Disable_restores h r vals req h' r' :
  Request.Decode r = Some req →
  TrimSpace (Body.reason req) ≠ "" →
  Request.GetErr r = false →
  Request.SaveErr r = false →
  Request.GetErr r' = false →
  Request.SaveErr r' = false →
  vals !! "admin_mode" = None →
  vals !! "impersonation_state" = None →
  vals !! "original_user_id" = None →
  stored (run (AdminModeDisableHandler h' r')
            (stored (run (AdminModeEnableHandler h r) vals).2)).2
  = vals.
Proof.
  intros Hdecode Hblank Hget Hsave Hget' Hsave' Hmode Himp Horig.
  destruct (AdminModeEnableHandler_state h r vals req Hdecode Hblank Hget)
    as (res & entries & resp & ->).
  rewrite Hsave. cbn [snd stored].
  destruct (AdminModeDisableHandler_session h' r'
              (<["admin_mode" := VAdminMode (enabled_by r req)]> vals) Hget')
    as (res' & entries' & resp' & ->).
  rewrite Hsave'. cbn [snd stored].
  rewrite delete_insert_eq, (delete_id vals "admin_mode" Hmode),
    (delete_id vals "impersonation_state" Himp).
  exact (delete_id vals "original_user_id" Horig).
Qed.

(** X7.  Disable is idempotent and touches three keys only: a second
    Disable stores what the first stored, and every key other than
    ["admin_mode"], ["impersonation_state"] and ["original_user_id"] keeps
    its value, ["user_id"] and ["logged"] among them. *)
Theorem Disable_idempotent_and_framed h r vals :
  Request.GetErr r = false →
  Request.SaveErr r = false →
  let once := stored (run (AdminModeDisableHandler h r) vals).2 in
  (∀ h' r',
     Request.GetErr r' = false →
     Request.SaveErr r' = false →
     stored (run (AdminModeDisableHandler h' r') once).2 = once)
  ∧ (∀ k,
       k ≠ "admin_mode" → k ≠ "impersonation_state" → k ≠ "original_user_id" →
       once !! k = vals !! k).
Proof.
  intros Hget Hsave.
  destruct (AdminModeDisableHandler_session h r vals Hget) as (res & entries & resp & ->).
  rewrite Hsave. cbn [snd stored]. split.
  - intros h' r' Hget' Hsave'.
    destruct (AdminModeDisableHandler_session h' r'
                (delete "original_user_id"
                   (delete "impersonation_state" (delete "admin_mode" vals))) Hget')
      as (res' & entries' & resp' & ->).
    rewrite Hsave'. cbn [snd stored].
    apply map_eq. intros k.
    destruct (decide (k = "original_user_id")) as [->|];
      [by rewrite !lookup_delete_eq|].
    destruct (decide (k = "impersonation_state")) as [->|];
      [by rewrite !(lookup_delete_ne _ "original_user_id"), !lookup_delete_eq|].
    destruct (decide (k = "admin_mode")) as [->|]; by simplify_map_eq.
  - intros k Hmode Himp Horig. by simplify_map_eq.
Qed.


(** X9.  The status and the gate agree.  For an admin, an obtained session
    and one timeout, at one instant: the status shows a grant exactly when
    [RequireAdminMode] runs the wrapped handler, and shows none exactly
    when [RequireAdminMode] answers 403. *)
Theorem AdminModeStatus_agrees_with_gate h m r vals user :
  Ctx.ContextKeyUser (Request.Context r) = Some user →
  User.IsAdmin user = true →
  Request.GetErr r = false →
  Handlers.adminModeTimeout h = SessionMiddleware.adminModeTimeout m →
  (∃ adminState,
     response (run (AdminModeStatusHandler h r) vals).2
     = Some (Response.mk http.StatusOK (AdminModeStatusResponse true (Some adminState)))
     ∧ ∀ next, run (RequireAdminMode m next r) vals = next r (start vals))
  ∨ (response (run (AdminModeStatusHandler h r) vals).2
     = Some (Response.mk http.StatusOK (AdminModeStatusResponse true None))
     ∧ ∀ next, ∃ s', run (RequireAdminMode m next r) vals = (Returned, s')
                     ∧ status_of s' = Some http.StatusForbidden).
Proof.
  intros Huser Hadmin Hget Htimeout.
  unfold AdminModeStatusHandler, RequireAdminMode, GetUserFromContext.
  rewrite Huser, <- Htimeout. mrun.
  destruct (as_AdminModeState (vals !! "admin_mode")) as [adminState|]; msimpl;
    [|right; split; [reflexivity|]; intros next; by eexists].
  destruct (AdminModeState.Enabled adminState) eqn:Hen.
  - destruct (AdminModeState.IsExpired (Request.Now r) adminState
                (Handlers.adminModeTimeout h)) eqn:Hexp; msimpl.
    + right. destruct (Request.SaveErr r); split; try reflexivity;
        intros next; by eexists.
    + left. exists adminState. split; [reflexivity|]. intros next. reflexivity.
  - unfold AdminModeState.IsExpired. rewrite Hen. msimpl.
    right. destruct (Request.SaveErr r); split; try reflexivity;
      intros next; by eexists.
Qed.

End AdminModeFacts.

(** ** Impersonation: stop and status *)

Section ImpersonationFacts.

Context `{GoLib}.

(** X10.  Stop validates before it writes.  On an obtained session: without
    an enabled grant the answer is 400; with one but no string under
    ["original_user_id"], or a string that does not parse as a UUID, the
    answer is 500; a session that cannot be obtained gives 500 as well.  In
    each case session, store and audit trail are untouched and nothing is
    saved, so a grant whose original user is lost cannot be stopped. *)
Theorem Stop_rejects_without_effect h r vals :
  (Request.GetErr r = true →
   run (ImpersonationStopHandler h r) vals
   = (Returned, rejected vals http.StatusInternalServerError "Failed to get session"))
  ∧ (Request.GetErr r = false →
     impersonation_active vals = false →
     run (ImpersonationStopHandler h r) vals
     = (Returned, rejected vals http.StatusBadRequest "Not currently impersonating"))
  ∧ (Request.GetErr r = false →
     impersonation_active vals = true →
     as_string (vals !! "original_user_id") = None →
     run (ImpersonationStopHandler h r) vals
     = (Returned,
        rejected vals http.StatusInternalServerError
          "Original user ID not found in session"))
  ∧ (∀ originalAdminIDStr,
       Request.GetErr r = false →
       impersonation_active vals = true →
       as_string (vals !! "original_user_id") = Some originalAdminIDStr →
       uuid_Parse originalAdminIDStr = None →
       run (ImpersonationStopHandler h r) vals
       = (Returned,
          rejected vals http.StatusInternalServerError
            "Invalid original user ID in session")).
Proof.
  unfold impersonation_active, ImpersonationStopHandler.
  split; [|split; [|split]].
  - intros Hget. mrun. reflexivity.
  - intros Hget Hactive. mrun.
    destruct (as_ImpersonationState (vals !! "impersonation_state")); mrun; reflexivity.
  - intros Hget Hactive Horig. mrun.
    destruct (as_ImpersonationState (vals !! "impersonation_state")); [|done].
    mrun. reflexivity.
  - intros o Hget Hactive Horig Hparse. mrun.
    destruct (as_ImpersonationState (vals !! "impersonation_state")); [|done].
    mrun. reflexivity.
Qed.

(** X11.  A Stop that finds an enabled grant and an original user ID that
    parses sets ["user_id"] back to the stored string, deletes the two
    impersonation fields, leaves every other key alone and saves once.  If
    Save fails the answer is 500 without audit entry and the store keeps
    the impersonation.  Otherwise, for a caller in the context, the answer
    is 200 and the audit logger, when configured, gets one
    impersonation-stopped entry about the target, with the parsed admin ID
    and the age of the grant as duration. *)
Theorem Stop_restores_identity h r vals impersonationState originalAdminIDStr
    originalAdminID :
  Request.GetErr r = false →
  as_ImpersonationState (vals !! "impersonation_state") = Some impersonationState →
  ImpersonationState.Enabled impersonationState = true →
  as_string (vals !! "original_user_id") = Some originalAdminIDStr →
  uuid_Parse originalAdminIDStr = Some originalAdminID →
  ∃ res s',
    run (ImpersonationStopHandler h r) vals = (res, s')
    ∧ session s' = restored originalAdminIDStr vals
    ∧ session s' !! "user_id" = Some (VString originalAdminIDStr)
    ∧ (∀ k, k ≠ "user_id" → k ≠ "impersonation_state" → k ≠ "original_user_id" →
            session s' !! k = vals !! k)
    ∧ saves s' = 1%nat
    ∧ stored s' = (if Request.SaveErr r then vals else session s')
    ∧ (Request.SaveErr r = true →
       res = Returned ∧ audit s' = []
       ∧ status_of s' = Some http.StatusInternalServerError)
    ∧ (∀ user,
         Request.SaveErr r = false →
         Ctx.ContextKeyUser (Request.Context r) = Some user →
         res = Ret tt
         ∧ response s'
           = Some (Response.mk http.StatusOK
                     (ImpersonationStopResponse "Impersonation stopped successfully"))
         ∧ (Handlers.auditLogger h = false → audit s' = [])
         ∧ (Handlers.auditLogger h = true →
            ∃ a, audit s' = [a]
                 ∧ AuditLog.Action a = ActionImpersonationStopped
                 ∧ AuditLog.ResourceID a
                   = uuid_String (ImpersonationState.TargetUserID impersonationState)
                 ∧ AuditLog.Changes a !! "admin_id"
                   = Some (DString (uuid_String originalAdminID))
                 ∧ AuditLog.Changes a !! "duration"
                   = Some (DDuration
                             (ImpersonationState.Duration (Request.Now r)
                                impersonationState)))).
Proof.
  intros Hget Himp Hen Horig Hparse. unfold ImpersonationStopHandler, restored. mrun.
  destruct (Request.SaveErr r) eqn:Hsave; msimpl.
  - eexists _, _. split; [reflexivity|]. cbn [session stored saves audit].
    split; [done|]. split; [by simplify_map_eq|]. split; [intros; by simplify_map_eq|].
    by repeat split.
  - destruct (Ctx.ContextKeyUser (Request.Context r)) as [user|] eqn:Huser.
    + destruct (Handlers.auditLogger h) eqn:Hlog.
      * match goal with
        | |- context [emit ?h ?r ?act ?rid ?c ?ip ?s] =>
            destruct (emit_on h r act rid c ip s user Hlog Huser)
              as (entry & -> & Hact & Hres & _ & Hchanges)
        end.
        msimpl. eexists _, _. split; [reflexivity|]. cbn [session stored saves audit response].
        split; [done|]. split; [by simplify_map_eq|]. split; [intros; by simplify_map_eq|].
        split; [done|]. split; [done|]. split; [done|].
        intros user' _ [= <-]. split; [done|]. split; [done|]. split; [done|].
        intros _. exists entry. split; [done|]. split; [done|]. split; [done|].
        split; apply Hchanges; by simplify_map_eq.
      * rewrite emit_off by done. msimpl.
        eexists _, _. split; [reflexivity|]. cbn [session stored saves audit response].
        split; [done|]. split; [by simplify_map_eq|]. split; [intros; by simplify_map_eq|].
        split; [done|]. split; [done|]. split; [done|].
        intros user' _ [= <-]. by repeat split.
    + emit_step; eexists _, _; (split; [reflexivity|]);
        cbn [session stored saves audit response];
        (split; [done|]); (split; [by simplify_map_eq|]);
        (split; [intros; by simplify_map_eq|]); by repeat split.
Qed.

(** X12.  Start and Stop undo each other.  From a session that holds the
    caller's ID under ["user_id"] and no impersonation field, a Start that
    answers 200 followed by a Stop that saves stores the session as it was,
    provided the library parses the string it formats for the caller's
    ID. *)
Theorem Start_then_Stop_restores h r vals adminUser parsed h' r' :
  status_of (run (ImpersonationStartHandler h r) vals).2 = Some http.StatusOK →
  Ctx.ContextKeyUser (Request.Context r) = Some adminUser →
  vals !! "user_id" = Some (VString (uuid_String (User.ID adminUser))) →
  vals !! "impersonation_state" = None →
  vals !! "original_user_id" = None →
  uuid_Parse (uuid_String (User.ID adminUser)) = Some parsed →
  Request.GetErr r' = false →
  Request.SaveErr r' = false →
  stored (run (ImpersonationStopHandler h' r')
            (stored (run (ImpersonationStartHandler h r) vals).2)).2
  = vals.
Proof.
  intros Hok Huser Hid Himp Horig Hparse Hget' Hsave'.
  destruct (ImpersonationStartHandler_effect h r vals)
    as [(_ & _ & _ & _ & Hnot)
       |(req & adminUser' & targetUser & _ & Huser' & _ & _ & Hsession & _
         & [(_ & _ & Hstatus)|(_ & -> & _)])].
  - done.
  - rewrite Hstatus in Hok. discriminate.
  - rewrite Huser in Huser'. injection Huser' as <-. rewrite Hsession.
    unfold ImpersonationStopHandler, started. msimpl. rewrite Hget'. msimpl.
    rewrite lookup_insert_ne, lookup_insert_ne, lookup_insert_eq by done.
    cbn [as_ImpersonationState ImpersonationState.Enabled negb]. msimpl.
    rewrite lookup_insert_ne, lookup_insert_eq by done.
    cbn [as_string]. rewrite Hparse, Hsave'. msimpl.
    emit_step; cbn [session stored snd].
    all: apply map_eq; intros k;
      destruct (decide (k = "original_user_id")) as [->|];
        [by rewrite lookup_delete_eq|];
      destruct (decide (k = "impersonation_state")) as [->|];
        [by rewrite lookup_delete_ne, lookup_delete_eq|];
      destruct (decide (k = "user_id")) as [->|]; by simplify_map_eq.
Qed.

(** X13.  The status of the impersonation reads without writing: on an
    obtained session it answers 200 with the grant when an enabled grant is
    at most the timeout old, and 200 with "not active" when the session
    holds no enabled grant; session, store and audit trail are untouched
    in both cases.  A session that cannot be obtained gives 500. *)
Theorem ImpersonationStatus_reads_without_writing h r vals :
  (Request.GetErr r = true →
   run (ImpersonationStatusHandler h r) vals
   = (Returned, rejected vals http.StatusInternalServerError "Failed to get session"))
  ∧ (∀ impersonationState,
       Request.GetErr r = false →
       as_ImpersonationState (vals !! "impersonation_state") = Some impersonationState →
       ImpersonationState.Enabled impersonationState = true →
       ImpersonationState.Duration (Request.Now r) impersonationState
         ≤ Handlers.adminModeTimeout h →
       run (ImpersonationStatusHandler h r) vals
       = (Ret tt,
          answered vals http.StatusOK
            (ImpersonationStatusResponse true (Some impersonationState))))
  ∧ (Request.GetErr r = false →
     impersonation_active vals = false →
     run (ImpersonationStatusHandler h r) vals
     = (Ret tt, answered vals http.StatusOK (ImpersonationStatusResponse false None))).
Proof.
  unfold ImpersonationStatusHandler, impersonation_active. split; [|split].
  - intros Hget. mrun. reflexivity.
  - intros i Hget Himp Hen Hage. apply Z.ltb_ge in Hage.
    rewrite <- (ImpersonationState_IsExpired_enabled _ _ _ Hen) in Hage.
    mrun. reflexivity.
  - intros Hget Hactive. mrun.
    destruct (as_ImpersonationState (vals !! "impersonation_state")); mrun; reflexivity.
Qed.

(** X14.  The status of the impersonation on an expired grant.  For an
    enabled grant older than the timeout the answer is 200 with "not
    active" (for a caller in the context), never an error.  When
    ["original_user_id"] holds a string that parses, the handler repairs
    the session: identity restored, both fields deleted, one Save with the
    handler's writer.  The expiry repair of [Authenticate], which saves
    without a writer, leaves the store with that very session for the same
    request when its store keeps what it is given without a writer, and
    with the unrepaired session when the store panics before it saves.
    When the string is missing or does not parse, nothing is repaired or
    saved and the grant stays. *)
Theorem ImpersonationStatus_on_expired_grant h r vals impersonationState user :
  Request.GetErr r = false →
  as_ImpersonationState (vals !! "impersonation_state") = Some impersonationState →
  ImpersonationState.Enabled impersonationState = true →
  Handlers.adminModeTimeout h
    < ImpersonationState.Duration (Request.Now r) impersonationState →
  Ctx.ContextKeyUser (Request.Context r) = Some user →
  (∀ originalAdminIDStr originalAdminID,
     as_string (vals !! "original_user_id") = Some originalAdminIDStr →
     uuid_Parse originalAdminIDStr = Some originalAdminID →
     ∃ s',
       run (ImpersonationStatusHandler h r) vals = (Ret tt, s')
       ∧ response s'
         = Some (Response.mk http.StatusOK (ImpersonationStatusResponse false None))
       ∧ session s' = restored originalAdminIDStr vals
       ∧ saves s' = 1%nat
       ∧ stored s' = (if Request.SaveErr r then vals else session s')
       ∧ (∀ m,
            SessionMiddleware.adminModeTimeout m = Handlers.adminModeTimeout h →
            as_bool (vals !! "logged") = Some true →
            stored (run (Authenticate m r) vals).2
            = (if Store.keeps_without_writer (SessionMiddleware.sessionStore m)
               then stored s' else vals)))
  ∧ (as_string (vals !! "original_user_id") = None
     ∨ (∃ originalAdminIDStr,
          as_string (vals !! "original_user_id") = Some originalAdminIDStr
          ∧ uuid_Parse originalAdminIDStr = None) →
     run (ImpersonationStatusHandler h r) vals
     = (Ret tt, answered vals http.StatusOK (ImpersonationStatusResponse false None))).
Proof.
  intros Hget Himp Hen Hage Huser.
  assert (Hexp : ImpersonationState.IsExpired (Request.Now r) impersonationState
                   (Handlers.adminModeTimeout h) = true).
  { rewrite (ImpersonationState_IsExpired_enabled _ _ _ Hen). by apply Z.ltb_lt. }
  unfold ImpersonationStatusHandler, stopExpiredImpersonation. split.
  - intros o id Horig Hparse. mrun.
    assert (Hauth : ∀ m,
              SessionMiddleware.adminModeTimeout m = Handlers.adminModeTimeout h →
              as_bool (vals !! "logged") = Some true →
              stored (run (Authenticate m r) vals).2
              = (if Request.SaveErr r then vals
                 else if Store.keeps_without_writer (SessionMiddleware.sessionStore m)
                      then restored o vals else vals)).
    { intros m Htimeout Hlogged. rewrite <- Htimeout in Hage.
      by destruct (Authenticate_repair_run m r vals impersonationState o
                     Hget Hlogged Himp Hen Hage Horig) as (entries & -> & _). }
    destruct (Request.SaveErr r) eqn:Hsave; msimpl;
      (destruct (Handlers.auditLogger h) eqn:Hlog;
       [match goal with
        | |- context [emit ?h ?r ?act ?rid ?c ?ip ?s] =>
            destruct (emit_on h r act rid c ip s user Hlog Huser) as (entry & -> & _)
        end
       |rewrite emit_off by done]);
      msimpl; eexists; (split; [reflexivity|]); cbn [session stored saves response];
      repeat (split; [reflexivity|]); intros m Htimeout Hlogged;
      (etrans; [exact (Hauth m Htimeout Hlogged)|]); rewrite ?Hsave;
      by destruct (Store.keeps_without_writer (SessionMiddleware.sessionStore m)).
  - intros [Horig|(o & Horig & Hparse)]; mrun; reflexivity.
Qed.

End ImpersonationFacts.

(** ** Authenticate and the middleware *)

Section AuthenticateMore.

Context `{GoLib}.

(** [Authenticate] writes no response and executes no bare return, and
    leaves the state alone when it returns a user. *)
Lemma Authenticate_outcome m r vals :
  ∃ res s',
    run (Authenticate m r) vals = (res, s')
    ∧ response s' = None
    ∧ res ≠ Returned
    ∧ (∀ user, res = Ret (inr user) → s' = start vals).
Proof.
  unfold Authenticate. msimpl.
  repeat branch; eexists _, _; (split; [reflexivity|]); (split; [reflexivity|]);
    (split; [discriminate|]); intros user [=]; reflexivity.
Qed.

(** [Authenticate] panics only in the Save of its expiry repair, over a
    store that does not return from a Save without a writer. *)
Lemma Authenticate_panic_inv m r vals :
  (run (Authenticate m r) vals).1 = Panicked →
  Request.GetErr r = false
  ∧ Request.SaveErr r = false
  ∧ Store.returns_without_writer (SessionMiddleware.sessionStore m) = false
  ∧ impersonation_active vals = true.
Proof.
  unfold Authenticate, impersonation_active. msimpl.
  repeat branch; cbn [fst]; intros [=];
    match goal with
    | Hand : _ && _ = true |- _ => apply andb_prop in Hand as [? ?]
    end;
    by repeat split.
Qed.

(** What a success of [Authenticate] tells about the session. *)
Lemma Authenticate_success_inv m r vals user :
  (run (Authenticate m r) vals).1 = Ret (inr user) →
  Request.GetErr r = false
  ∧ as_bool (vals !! "logged") = Some true
  ∧ (∀ impState,
       as_ImpersonationState (vals !! "impersonation_state") = Some impState →
       ImpersonationState.Enabled impState = true →
       ImpersonationState.Duration (Request.Now r) impState
         ≤ SessionMiddleware.adminModeTimeout m)
  ∧ ∃ userIDStr userID,
      as_string (vals !! "user_id") = Some userIDStr
      ∧ uuid_Parse userIDStr = Some userID
      ∧ SessionMiddleware.userStore m userID = Some user.
Proof.
  unfold Authenticate. msimpl.
  repeat branch; cbn [fst]; intros [= <-]; (split; [done|]); (split; [done|]);
    (split; [|by eexists _, _]); intros impState [= <-] Hen;
    match goal with
    | Hand : _ && _ = false |- _ =>
        rewrite Hen, (ImpersonationState_IsExpired_enabled _ _ _ Hen) in Hand;
        by apply Z.ltb_ge in Hand
    end.
Qed.


(** X16.  What [Authenticate] returns.  It returns a user exactly when the
    session was obtained, ["logged"] is the boolean true, no enabled grant
    is older than the timeout, and ["user_id"] is a string that parses to
    an ID the user store knows, and then it is that user; every error is a
    401, except the 500 of a session that cannot be obtained. *)
Theorem Authenticate_result m r vals :
  (∀ user,
     (run (Authenticate m r) vals).1 = Ret (inr user)
     ↔ Request.GetErr r = false
       ∧ as_bool (vals !! "logged") = Some true
       ∧ (∀ impState,
            as_ImpersonationState (vals !! "impersonation_state") = Some impState →
            ImpersonationState.Enabled impState = true →
            ImpersonationState.Duration (Request.Now r) impState
              ≤ SessionMiddleware.adminModeTimeout m)
       ∧ ∃ userIDStr userID,
           as_string (vals !! "user_id") = Some userIDStr
           ∧ uuid_Parse userIDStr = Some userID
           ∧ SessionMiddleware.userStore m userID = Some user)
  ∧ (∀ e,
       (run (Authenticate m r) vals).1 = Ret (inl e) →
       HTTPError.Code e
       = (if Request.GetErr r then http.StatusInternalServerError
          else http.StatusUnauthorized)).
Proof.
  split.
  - intros user. split.
    + apply Authenticate_success_inv.
    + intros (Hget & Hlogged & Hfresh & userIDStr & userID & Hid & Hparse & Hstore).
      unfold run. rewrite (Authenticate_resolves m r vals userIDStr userID user); auto.
      destruct (as_ImpersonationState (vals !! "impersonation_state")) as [impState|];
        [|done].
      destruct (ImpersonationState.Enabled impState) eqn:Hen; [|done].
      rewrite (ImpersonationState_IsExpired_enabled _ _ _ Hen). simpl.
      apply Z.ltb_ge. by apply Hfresh.
  - intros e. unfold Authenticate. msimpl.
    repeat branch; cbn [fst]; intros [= <-]; reflexivity.
Qed.

(** X17.  Fail now, fixed on retry.  After an expiry repair whose Save took
    effect (no error, and a store that keeps the session it is given
    without a writer), the next [Authenticate] on the stored session no
    longer sees a grant: it returns the user the store has for the
    restored ID.  The repair does not check the string it restores: when
    it does not parse, every later [Authenticate] fails with the 401 of an
    invalid user ID and changes nothing.  Over a store that panics before
    it saves, the store still holds the unrepaired session. *)
Theorem Authenticate_retry_after_repair m r vals impState originalUserIDStr m' r' :
  Request.GetErr r = false →
  Request.SaveErr r = false →
  as_bool (vals !! "logged") = Some true →
  as_ImpersonationState (vals !! "impersonation_state") = Some impState →
  ImpersonationState.Enabled impState = true →
  SessionMiddleware.adminModeTimeout m
    < ImpersonationState.Duration (Request.Now r) impState →
  as_string (vals !! "original_user_id") = Some originalUserIDStr →
  Request.GetErr r' = false →
  let repaired := stored (run (Authenticate m r) vals).2 in
  (Store.keeps_without_writer (SessionMiddleware.sessionStore m) = true →
   (∀ originalUserID originalUser,
      uuid_Parse originalUserIDStr = Some originalUserID →
      SessionMiddleware.userStore m' originalUserID = Some originalUser →
      run (Authenticate m' r') repaired = (Ret (inr originalUser), start repaired))
   ∧ (uuid_Parse originalUserIDStr = None →
      run (Authenticate m' r') repaired
      = (Ret (inl (NewHTTPError http.StatusUnauthorized "Invalid user ID in session")),
         start repaired)))
  ∧ (Store.keeps_without_writer (SessionMiddleware.sessionStore m) = false →
     repaired = vals).
Proof.
  intros Hget Hsave Hlogged Himp Hen Hage Horig Hget'.
  destruct (Authenticate_repair_run m r vals impState originalUserIDStr
              Hget Hlogged Himp Hen Hage Horig) as (entries & -> & _).
  cbn [snd stored]. rewrite Hsave. cbn zeta.
  split; intros Hkeeps; rewrite Hkeeps; [|reflexivity].
  assert (Hlogged' : as_bool (restored originalUserIDStr vals !! "logged") = Some true).
  { unfold restored. by simplify_map_eq. }
  assert (Himp' : as_ImpersonationState
                    (restored originalUserIDStr vals !! "impersonation_state") = None).
  { unfold restored. by simplify_map_eq. }
  assert (Hid' : as_string (restored originalUserIDStr vals !! "user_id")
                 = Some originalUserIDStr).
  { unfold restored. by simplify_map_eq. }
  split.
  - intros id u Hparse Hstore. unfold Authenticate. mrun. reflexivity.
  - intros Hparse. unfold Authenticate. mrun. reflexivity.
Qed.

End AuthenticateMore.

Section MiddlewareFacts.

Context `{GoLib}.


(** With a user in the context, [emit] adds entries and does nothing else. *)
Lemma emit_user h r action resourceID changes ip s user :
  Ctx.ContextKeyUser (Request.Context r) = Some user →
  ∃ entries,
    emit h r action resourceID changes ip s
    = (Ret tt, mkSt (session s) (stored s) (saves s) (audit s ++ entries) (response s)).
Proof.
  intros Huser. destruct (Handlers.auditLogger h) eqn:Hlog.
  - destruct (emit_on h r action resourceID changes ip s user Hlog Huser) as (a & -> & _).
    by exists [a].
  - rewrite (emit_off _ _ _ _ _ _ _ Hlog). exists []. rewrite app_nil_r. by destruct s.
Qed.

Ltac emit_user_step Huser :=
  match goal with
  | |- context [emit ?h ?r ?act ?rid ?c ?ip ?s] =>
      let entries := fresh "entries" in
      destruct (emit_user h r act rid c ip s _ Huser) as (entries & ->); msimpl
  end.

Ltac never_panics Huser :=
  msimpl; repeat first [emit_user_step Huser | branch]; cbn [fst]; discriminate.

Lemma AdminModeStatusHandler_panic_free h : panic_free (AdminModeStatusHandler h).
Proof.
  intros r s user Huser. unfold AdminModeStatusHandler, GetUserFromContext.
  rewrite Huser. never_panics Huser.
Qed.

Lemma AdminModeEnableHandler_panic_free h : panic_free (AdminModeEnableHandler h).
Proof.
  intros r s user Huser. unfold AdminModeEnableHandler, GetUserFromContext.
  rewrite Huser. never_panics Huser.
Qed.

Lemma AdminModeDisableHandler_panic_free h : panic_free (AdminModeDisableHandler h).
Proof.
  intros r s user Huser. unfold AdminModeDisableHandler, GetUserFromContext.
  rewrite Huser. never_panics Huser.
Qed.

Lemma ImpersonationStartHandler_panic_free h : panic_free (ImpersonationStartHandler h).
Proof.
  intros r s user Huser. unfold ImpersonationStartHandler, GetUserFromContext.
  rewrite Huser. never_panics Huser.
Qed.

Lemma ImpersonationStopHandler_panic_free h : panic_free (ImpersonationStopHandler h).
Proof.
  intros r s user Huser. unfold ImpersonationStopHandler, GetUserFromContext.
  rewrite ?Huser. never_panics Huser.
Qed.

Lemma ImpersonationStatusHandler_panic_free h : panic_free (ImpersonationStatusHandler h).
Proof.
  intros r s user Huser.
  unfold ImpersonationStatusHandler, stopExpiredImpersonation, GetUserFromContext.
  rewrite ?Huser. never_panics Huser.
Qed.

Lemma RequireAdmin_panic_free m next :
  panic_free next → panic_free (RequireAdmin m next).
Proof.
  intros Hnext r s user Huser. unfold RequireAdmin. rewrite Huser. msimpl.
  destruct (User.IsAdmin user); msimpl; [by eapply Hnext|discriminate].
Qed.

Lemma RequireAdminMode_panic_free m next :
  panic_free next → panic_free (RequireAdminMode m next).
Proof.
  intros Hnext r s user Huser. unfold RequireAdminMode. rewrite Huser. msimpl.
  repeat branch; cbn [fst]; first [discriminate | by eapply Hnext].
Qed.

Lemma RequireAuth_panic_free m next r vals :
  panic_free next →
  (run (RequireAuth m next r) vals).1 = Panicked →
  (run (Authenticate m r) vals).1 = Panicked.
Proof.
  intros Hnext.
  destruct (Authenticate_outcome m r vals) as (res & s' & Hrun & _ & Hret & _).
  unfold run in *. unfold RequireAuth, bind at 1. rewrite Hrun.
  destruct res as [[e|user]| |]; msimpl; [discriminate| |done|done].
  repeat branch; intros Hpanic; exfalso; (eapply Hnext; [|exact Hpanic]);
    reflexivity.
Qed.


(** X19.  Behind [RequireAuth] the only panic is the one of
    [Authenticate].  None of the six handlers of package admin panics on
    its own, mounted directly or behind [RequireAdmin] or
    [RequireAdminMode]: every nil dereference in them and in the two gates
    is one of the user of the context, which [RequireAuth] sets before it
    calls them.  [Authenticate] panics only where the session holds an
    enabled grant, Save has no error to return and the store does not
    return from a Save without a writer; over a store that does, no request
    panics. *)
Theorem only_Authenticate_panics_behind_RequireAuth m h r vals :
  Forall (λ handler : Request.t → M unit,
            (run (RequireAuth m handler r) vals).1 = Panicked
            ∨ (run (RequireAuth m (RequireAdmin m handler) r) vals).1 = Panicked
            ∨ (run (RequireAuth m (RequireAdminMode m handler) r) vals).1 = Panicked →
            (run (Authenticate m r) vals).1 = Panicked)
    [AdminModeStatusHandler h; AdminModeEnableHandler h; AdminModeDisableHandler h;
     ImpersonationStartHandler h; ImpersonationStopHandler h;
     ImpersonationStatusHandler h]
  ∧ ((run (Authenticate m r) vals).1 = Panicked →
     Request.SaveErr r = false
     ∧ Store.returns_without_writer (SessionMiddleware.sessionStore m) = false
     ∧ impersonation_active vals = true).
Proof.
  assert (Hall : ∀ handler, panic_free handler →
            (run (RequireAuth m handler r) vals).1 = Panicked
            ∨ (run (RequireAuth m (RequireAdmin m handler) r) vals).1 = Panicked
            ∨ (run (RequireAuth m (RequireAdminMode m handler) r) vals).1 = Panicked →
            (run (Authenticate m r) vals).1 = Panicked).
  { intros handler Hfree [Hpanic|[Hpanic|Hpanic]];
      (eapply RequireAuth_panic_free; [|exact Hpanic]);
      auto using RequireAdmin_panic_free, RequireAdminMode_panic_free. }
  split.
  - repeat apply Forall_cons_2; [..|apply Forall_nil_2]; apply Hall.
    + apply AdminModeStatusHandler_panic_free.
    + apply AdminModeEnableHandler_panic_free.
    + apply AdminModeDisableHandler_panic_free.
    + apply ImpersonationStartHandler_panic_free.
    + apply ImpersonationStopHandler_panic_free.
    + apply ImpersonationStatusHandler_panic_free.
  - intros Hpanic. by destruct (Authenticate_panic_inv m r vals Hpanic) as (_ & ? & ? & ?).
Qed.

(** X20.  Both gates test the user [Authenticate] resolved from the
    session.  When that user is no admin (as the target of an impersonation
    is while the admin acts as them), [RequireAuth] followed by
    [RequireAdmin] or by [RequireAdminMode] answers 403, does not run the
    wrapped handler and leaves session, store and audit trail as they
    were, whatever grants the session holds. *)
Theorem gates_refuse_non_admin m next r vals user :
  (run (Authenticate m r) vals).1 = Ret (inr user) →
  User.IsAdmin user = false →
  run (RequireAuth m (RequireAdmin m next) r) vals
  = (Returned, rejected vals http.StatusForbidden "Admin privileges required")
  ∧ run (RequireAuth m (RequireAdminMode m next) r) vals
    = (Returned, rejected vals http.StatusForbidden "Admin privileges required").
Proof.
  intros Hauth Hadmin.
  destruct (Authenticate_outcome m r vals) as (res & s' & Hrun & _ & _ & Hok).
  rewrite Hrun in Hauth. simpl in Hauth. subst res.
  rewrite (Hok user eq_refl) in Hrun. clear Hok.
  unfold run in *.
  split.
  - unfold RequireAuth, bind at 1. rewrite Hrun. unfold RequireAdmin. msimpl.
    destruct (as_ImpersonationState (vals !! "impersonation_state")) as [impState|];
      [destruct (ImpersonationState.Enabled impState
                 && negb (ImpersonationState.IsExpired (Request.Now r) impState
                            (SessionMiddleware.adminModeTimeout m)))|];
      cbn [Request.WithContext Request.Context Ctx.ContextKeyUser]; msimpl;
      rewrite Hadmin; reflexivity.
  - unfold RequireAuth, bind at 1. rewrite Hrun. unfold RequireAdminMode. msimpl.
    destruct (as_ImpersonationState (vals !! "impersonation_state")) as [impState|];
      [destruct (ImpersonationState.Enabled impState
                 && negb (ImpersonationState.IsExpired (Request.Now r) impState
                            (SessionMiddleware.adminModeTimeout m)))|];
      cbn [Request.WithContext Request.Context Ctx.ContextKeyUser]; msimpl;
      rewrite Hadmin; reflexivity.
Qed.

(** X21.  The two admin-mode handlers read the user only after they saved.
    Mounted without [RequireAuth], so that the context has no user, Enable
    with a valid body still stores the grant and Disable still deletes the
    grants; both then panic, before any answer and any audit entry. *)
Theorem admin_mode_handlers_save_before_panicking h r vals :
  Ctx.ContextKeyUser (Request.Context r) = None →
  Request.GetErr r = false →
  Request.SaveErr r = false →
  (∀ req,
     Request.Decode r = Some req →
     TrimSpace (Body.reason req) ≠ "" →
     let granted := <["admin_mode" := VAdminMode (enabled_by r req)]> vals in
     run (AdminModeEnableHandler h r) vals
     = (Panicked, mkSt granted granted 1%nat [] None))
  ∧ (let cleared :=
       delete "original_user_id"
         (delete "impersonation_state" (delete "admin_mode" vals)) in
     run (AdminModeDisableHandler h r) vals
     = (Panicked, mkSt cleared cleared 1%nat [] None)).
Proof.
  intros Huser Hget Hsave. split.
  - intros req Hdecode Hreason.
    unfold AdminModeEnableHandler, GetUserFromContext, enabled_by.
    rewrite Huser, Hdecode. msimpl.
    rewrite (bool_decide_eq_false_2 _ Hreason), Hget. msimpl.
    rewrite Hsave. reflexivity.
  - unfold AdminModeDisableHandler, GetUserFromContext.
    rewrite Huser. msimpl. rewrite Hget. msimpl. rewrite Hsave.
    repeat branch; reflexivity.
Qed.

End MiddlewareFacts.

(** ** Audit entries of the handlers *)

Section AuditMore.

Context `{GoLib}.

(** X22.  What the handlers' audit entries carry.  With a logger and a user
    in the context, the block that ends every handler adds exactly one
    entry and touches nothing else.  The entry has the handler's changes;
    under ["_impersonation"] it names the impersonated user and the acting
    admin exactly when the context holds an impersonation state; and it
    records the IP address and the user agent unless they are empty. *)
Theorem emit_records_impersonation h r action resourceID changes ip s user :
  Handlers.auditLogger h = true →
  Ctx.ContextKeyUser (Request.Context r) = Some user →
  changes !! "_impersonation" = None →
  ∃ a,
    emit h r action resourceID changes ip s
    = (Ret tt, mkSt (session s) (stored s) (saves s) (audit s ++ [a]) (response s))
    ∧ (∀ k, k ≠ "_impersonation" → AuditLog.Changes a !! k = changes !! k)
    ∧ AuditLog.Changes a !! "_impersonation"
      = (impState ← Ctx.ContextKeyImpersonationState (Request.Context r);
         Some (DObject
                 (<["impersonated_user_id" :=
                      uuid_String (ImpersonationState.TargetUserID impState)]>
                  (<["impersonated_user_email" :=
                       ImpersonationState.TargetUserEmail impState]>
                   (<["impersonated_user_name" := User.DisplayName user]>
                    (<["performed_by_admin_id" :=
                         uuid_String (GetActorIDForAudit (Request.Context r))]> ∅))))))
    ∧ AuditLog.IPAddress a = (if decide (ip = "") then None else Some ip)
    ∧ AuditLog.UserAgent a
      = (if decide (Request.UserAgent r = "") then None else Some (Request.UserAgent r)).
Proof.
  intros Hon Huser Hfree.
  unfold emit, NewAuditLogWithContext, GetImpersonationContext. rewrite Hon, Huser.
  destruct (Ctx.ContextKeyImpersonationState (Request.Context r)) as [impState|];
    msimpl; (eexists; split; [reflexivity|]);
    unfold AuditLog.WithUserAgent, AuditLog.WithIPAddress, AuditLog.WithChanges,
      NewAuditLog;
    repeat case_decide; simpl; repeat split; try done.
  all: try (intros k Hk; rewrite lookup_union; rewrite lookup_union;
            rewrite lookup_singleton_ne by done; rewrite lookup_empty;
            by destruct (changes !! k)).
  all: try (rewrite lookup_union, Hfree, lookup_union, lookup_singleton_eq; done).
  all: try (intros k Hk; rewrite lookup_union, lookup_empty;
            by destruct (changes !! k)).
  all: try (rewrite lookup_union, Hfree, lookup_empty; done).
Qed.

End AuditMore.

(** ** Logout and session check *)

Section OidcFacts.

Context `{GoLib} `{GoLibErr}.

(** The keys [LogoutHandler] deletes. *)
Lemma LogoutHandler_run h r vals :
  Request.GetErr r = false →
  ∃ entries,
    run (LogoutHandler h r) vals
    = (Ret (if Request.SaveErr r
            then Reply.mk http.StatusInternalServerError (ReplyText "internal server error")
            else Reply.mk http.StatusOK (ReplyMessage "Logged out successfully")),
       mkSt (logged_out vals)
         (if Request.SaveErr r then vals else logged_out vals) 1%nat entries None)
    ∧ entries
      = (let userID :=
           match as_string (vals !! "user_id") with
           | Some idStr => uuid_Parse_value idStr
           | None => uuid.Nil
           end in
         if OIDCHandlers.auditLogger h && negb (N.eqb userID uuid.Nil)
         then [AuditLog.WithUserAgent
                 (AuditLog.WithIPAddress
                    (NewAuditLog (Request.Now r) (Some (NullUUID.mk userID true))
                       ActionUserLoggedOut ResourceTypeUser (uuid_String userID))
                    (Request.ClientIP r))
                 (Request.UserAgent r)]
         else []).
Proof.
  intros Hget. unfold LogoutHandler, logged_out. msimpl. rewrite Hget. msimpl.
  destruct (OIDCHandlers.auditLogger h && _); msimpl;
    destruct (Request.SaveErr r); eexists; split; reflexivity.
Qed.

(** X23.  Logout ends the session.  When the session can be obtained and
    saved, the answer is 200, the five keys of login, admin mode and
    impersonation are gone from the session and from the store, every other
    key is as it was, and the next [Authenticate] on the stored session
    fails with 401 "Authentication required". *)
Theorem Logout_clears_session h r vals :
  Request.GetErr r = false →
  Request.SaveErr r = false →
  let out := run (LogoutHandler h r) vals in
  out.1 = Ret (Reply.mk http.StatusOK (ReplyMessage "Logged out successfully"))
  ∧ stored out.2 = session out.2
  ∧ saves out.2 = 1%nat
  ∧ (∀ k, stored out.2 !! k
          = (if bool_decide
                  (k ∈ ["logged"; "user_id"; "admin_mode"; "impersonation_state";
                        "original_user_id"])
             then None else vals !! k))
  ∧ well_formed (stored out.2)
  ∧ (∀ m r',
       Request.GetErr r' = false →
       run (Authenticate m r') (stored out.2)
       = (Ret (inl (NewHTTPError http.StatusUnauthorized "Authentication required")),
          start (stored out.2))).
Proof.
  intros Hget Hsave.
  destruct (LogoutHandler_run h r vals Hget) as (entries & Hrun & _).
  rewrite Hsave in Hrun. cbn zeta. rewrite Hrun. cbn [fst snd stored session saves].
  assert (Hkeys : ∀ k, logged_out vals !! k
          = (if bool_decide
                  (k ∈ ["logged"; "user_id"; "admin_mode"; "impersonation_state";
                        "original_user_id"])
             then None else vals !! k)).
  { intros k. unfold logged_out. case_bool_decide as Hk.
    - repeat (apply elem_of_cons in Hk as [->|Hk]); [by simplify_map_eq..|].
      by apply elem_of_nil in Hk.
    - rewrite !lookup_delete_ne; [done|..]; intros <-; apply Hk; set_solver. }
  repeat split; try done.
  - left. by rewrite !Hkeys.
  - intros m r' Hget'. unfold Authenticate. msimpl. rewrite Hget'. msimpl.
    rewrite Hkeys. reflexivity.
Qed.

(** X24.  Whom a logout is attributed to.  With a logger, the entry of a
    logout names the user whose ID the session holds under ["user_id"],
    as actor and as resource; it has no changes, so nothing in it tells
    that the session was an impersonation, in which ["user_id"] is the
    target and not the admin.  The entry is written before the session is
    saved, so it is there also when Save fails and the user stays logged
    in. *)
Theorem Logout_is_attributed_to_session_user h r vals userIDStr userID :
  OIDCHandlers.auditLogger h = true →
  Request.GetErr r = false →
  as_string (vals !! "user_id") = Some userIDStr →
  uuid_Parse userIDStr = Some userID →
  userID ≠ uuid.Nil →
  ∃ a,
    audit (run (LogoutHandler h r) vals).2 = [a]
    ∧ AuditLog.ActorUserID a = NullUUID.mk userID true
    ∧ AuditLog.Action a = ActionUserLoggedOut
    ∧ AuditLog.ResourceID a = uuid_String userID
    ∧ AuditLog.Changes a = ∅
    ∧ (Request.SaveErr r = true → stored (run (LogoutHandler h r) vals).2 = vals).
Proof.
  intros Hlog Hget Hid Hparse Hnil.
  destruct (LogoutHandler_run h r vals Hget) as (entries & Hrun & Hentries).
  rewrite Hrun. cbn [snd audit stored].
  unfold uuid_Parse_value in Hentries. rewrite Hid, Hparse, Hlog in Hentries.
  cbn zeta in Hentries.
  apply N.eqb_neq in Hnil. rewrite Hnil in Hentries. simpl in Hentries. subst entries.
  eexists. split; [reflexivity|].
  unfold AuditLog.WithUserAgent, AuditLog.WithIPAddress, NewAuditLog.
  repeat case_decide; simpl; repeat split; try done; by intros ->.
Qed.

(** X25.  The session check agrees with [Authenticate] on every session
    [Authenticate] accepts: over the same user store it answers 200 with
    the same user, reports the grant of the session when it is enabled, and
    changes nothing. *)
Theorem SessionCheck_agrees_with_Authenticate h m isNew r vals user :
  (∀ id, OIDCHandlers.userStore h id = SessionMiddleware.userStore m id) →
  (run (Authenticate m r) vals).1 = Ret (inr user) →
  run (SessionCheckHandler h isNew r) vals
  = (Ret (Reply.mk http.StatusOK
            (ReplySession
               (SessionResponse.mk true (Some user) ""
                  (impState ← as_ImpersonationState (vals !! "impersonation_state");
                   if ImpersonationState.Enabled impState then Some impState else None)))),
     start vals).
Proof.
  intros Hstore Hauth.
  apply Authenticate_success_inv in Hauth
    as (Hget & Hlogged & _ & userIDStr & userID & Hid & Hparse & Huser).
  rewrite <- Hstore in Huser.
  unfold SessionCheckHandler. mrun.
  by destruct (as_ImpersonationState (vals !! "impersonation_state")).
Qed.

(** X26.  The session check does not look at the age of a grant.  On a
    session whose enabled grant is older than the timeout it still answers
    200, authenticated as the target and with the grant as the running
    impersonation, and repairs nothing, while [Authenticate] refuses the
    same request: it answers the 401 of an expired impersonation, or
    panics in the Save of its repair, and never returns the target; over a
    store that returns from a Save without a writer it is the 401. *)
Theorem SessionCheck_ignores_expiry h m isNew r vals impState userIDStr userID user :
  Request.GetErr r = false →
  as_bool (vals !! "logged") = Some true →
  as_ImpersonationState (vals !! "impersonation_state") = Some impState →
  ImpersonationState.Enabled impState = true →
  SessionMiddleware.adminModeTimeout m
    < ImpersonationState.Duration (Request.Now r) impState →
  as_string (vals !! "user_id") = Some userIDStr →
  uuid_Parse userIDStr = Some userID →
  OIDCHandlers.userStore h userID = Some user →
  run (SessionCheckHandler h isNew r) vals
  = (Ret (Reply.mk http.StatusOK
            (ReplySession (SessionResponse.mk true (Some user) "" (Some impState)))),
     start vals)
  ∧ ((run (Authenticate m r) vals).1
     = Ret (inl (NewHTTPError http.StatusUnauthorized "Impersonation session expired"))
     ∨ (run (Authenticate m r) vals).1 = Panicked)
  ∧ (Store.returns_without_writer (SessionMiddleware.sessionStore m) = true →
     (run (Authenticate m r) vals).1
     = Ret (inl (NewHTTPError http.StatusUnauthorized "Impersonation session expired"))).
Proof.
  intros Hget Hlogged Himp Hen Hage Hid Hparse Huser. split; [|split].
  - unfold SessionCheckHandler. mrun. reflexivity.
  - by apply Authenticate_expired_fails with impState.
  - intros Hreturns.
    destruct (Authenticate_expired_fails m r vals impState Hget Hlogged Himp Hen Hage)
      as [H401|Hpanic]; [exact H401|].
    apply Authenticate_panic_inv in Hpanic as (_ & _ & Hstore & _). congruence.
Qed.

(** X27.  A login the session check cannot resolve is dropped, and only the
    login.  When ["logged"] is true but ["user_id"] is no string, does not
    parse, or names a user the store does not have, the answer is 401 with
    the reason, ["logged"] and ["user_id"] are deleted and the session is
    saved once; the grants of admin mode and impersonation and every other
    key stay in the session. *)
Theorem SessionCheck_drops_unresolved_login h isNew r vals :
  Request.GetErr r = false →
  as_bool (vals !! "logged") = Some true →
  (∀ userIDStr userID,
     as_string (vals !! "user_id") = Some userIDStr →
     uuid_Parse userIDStr = Some userID →
     OIDCHandlers.userStore h userID = None) →
  let out := run (SessionCheckHandler h isNew r) vals in
  (∃ reason,
     out.1 = Ret (Reply.mk http.StatusUnauthorized
                    (ReplySession (SessionResponse.mk false None reason None)))
     ∧ reason = (match as_string (vals !! "user_id") ≫= uuid_Parse with
                 | Some _ => "user_not_found"
                 | None => "session_corrupted"
                 end))
  ∧ session out.2 = delete "user_id" (delete "logged" vals)
  ∧ stored out.2 = (if Request.SaveErr r then vals else session out.2)
  ∧ saves out.2 = 1%nat
  ∧ audit out.2 = [].
Proof.
  intros Hget Hlogged Hunresolved. cbn zeta.
  unfold SessionCheckHandler, drop_login. mrun.
  destruct (as_string (vals !! "user_id")) as [userIDStr|] eqn:Hid; msimpl.
  - destruct (uuid_Parse userIDStr) as [userID|] eqn:Hparse; msimpl.
    + rewrite (Hunresolved userIDStr userID eq_refl Hparse). msimpl.
      destruct (Request.SaveErr r); cbn [fst snd session stored saves audit];
        (split; [eexists; split; [reflexivity|]|done]);
        simpl; by rewrite Hparse.
    + destruct (Request.SaveErr r); cbn [fst snd session stored saves audit];
        (split; [eexists; split; [reflexivity|]|done]);
        simpl; by rewrite Hparse.
  - destruct (Request.SaveErr r); cbn [fst snd session stored saves audit];
      (split; [eexists; split; [reflexivity|]|done]); done.
Qed.

End OidcFacts.

(** ** NullUUID as a database value *)

Section NullUUIDFacts.

Context `{GoLib} `{GoLibErr}.

(** X28.  Writing a [NullUUID] to the database and reading it back.  When
    the text of its UUID parses back to it, [Scan] of [Value] returns no
    error and yields the value itself when it is valid, and the zero
    [NullUUID] when it is not, whatever the receiver held before. *)
Theorem NullUUID_Value_Scan_round_trip n0 n :
  uuid_Parse (uuid_String (NullUUID.UUID_ n)) = Some (NullUUID.UUID_ n) →
  NullUUID_Scan n0 (NullUUID_Value n)
  = (if NullUUID.Valid n then n else NullUUID.zero, false).
Proof.
  intros Hparse. unfold NullUUID_Scan, NullUUID_Value, uuid_Parse_value.
  destruct n as [u [|]]; simpl in *; [by rewrite Hparse|done].
Qed.

(** X29.  [Scan] marks the receiver valid for every value but nil: also
    for a text that does not parse, where it returns the error and keeps
    the UUID [uuid.Parse] returned beside it, and for a value of an
    unsupported type, where it returns no error and keeps the UUID the
    receiver had. *)
Theorem NullUUID_Scan_valid_unless_nil n value :
  (NullUUID.Valid (NullUUID_Scan n value).1 = false ↔ value = DriverNil)
  ∧ ((NullUUID_Scan n value).2 = true
     ↔ ∃ v, (value = DriverString v ∨ value = DriverBytes v) ∧ uuid_Parse v = None)
  ∧ (value = DriverOther → (NullUUID_Scan n value) = (NullUUID.mk (NullUUID.UUID_ n) true, false)).
Proof.
  unfold NullUUID_Scan. destruct value as [|v|v|]; simpl.
  - split; [done|]. split; [|done]. split; [done|]. by intros (v & [?|?] & _).
  - split; [done|]. split; [|done].
    destruct (uuid_Parse v) eqn:Hp; split; try done.
    + intros (v' & [[= <-]|?] & Hp'); congruence.
    + intros _. exists v. auto.
  - split; [done|]. split; [|done].
    destruct (uuid_Parse v) eqn:Hp; split; try done.
    + intros (v' & [?|[= <-]] & Hp'); congruence.
    + intros _. exists v. auto.
  - split; [done|]. split; [|done]. split; [done|]. by intros (v & [?|?] & _).
Qed.

End NullUUIDFacts.

(** ** The further properties on the sample deployment *)

(** Alice asks for admin mode: the grant is in the session. *)
Lemma Enable_stores_fresh_grant_witness :
  ∃ res s',
    run (AdminModeEnableHandler (H := Sample.lib) Sample.handlers
           (Sample.request (Some (Body.mk "" " maintenance ")) Sample.today))
      (Sample.logged_in Sample.alice)
    = (res, s')
    ∧ session s' !! "admin_mode" = Some (VAdminMode (Sample.elevation Sample.today)).
Proof.
  destruct (Enable_stores_fresh_grant (H := Sample.lib) Sample.handlers
              (Sample.request (Some (Body.mk "" " maintenance ")) Sample.today)
              (Sample.logged_in Sample.alice) (Body.mk "" " maintenance "))
    as (res & s' & Hrun & Hgrant & _);
    [vm_compute; first [reflexivity | discriminate] ..|].
  exists res, s'. split; [exact Hrun|exact Hgrant].
Defined.

(** Half an hour after Alice's Enable the gate still lets her through. *)
Lemma Enable_opens_gate_for_timeout_witness :
  run (RequireAdminMode Sample.middleware (λ _, ret tt)
         (Sample.request None (Sample.today + 30 * Sample.minute)))
    (stored
       (run (AdminModeEnableHandler (H := Sample.lib) Sample.handlers
               (Sample.request (Some (Body.mk "" " maintenance ")) Sample.today))
          (Sample.logged_in Sample.alice)).2)
  = (Ret tt, start (Sample.elevated Sample.today)).
Proof.
  etrans.
  - apply (Enable_opens_gate_for_timeout (H := Sample.lib) Sample.handlers
             (Sample.request (Some (Body.mk "" " maintenance ")) Sample.today)
             (Sample.logged_in Sample.alice) (Body.mk "" " maintenance ")
             Sample.middleware (λ _, ret tt)
             (Sample.request None (Sample.today + 30 * Sample.minute)) Sample.alice);
      vm_compute; first [reflexivity | discriminate].
  - vm_compute. reflexivity.
Defined.

(** Alice enables admin mode and disables it a minute later: her session
    is the one of her login again. *)
Lemma Enable_then_Disable_restores_witness :
  stored (run (AdminModeDisableHandler (H := Sample.lib) Sample.handlers
                 (Sample.request None (Sample.today + Sample.minute)))
            (stored
               (run (AdminModeEnableHandler (H := Sample.lib) Sample.handlers
                       (Sample.request (Some (Body.mk "" " maintenance ")) Sample.today))
                  (Sample.logged_in Sample.alice)).2)).2
  = Sample.logged_in Sample.alice.
Proof.
  apply (Enable_then_Disable_restores (H := Sample.lib) Sample.handlers
           (Sample.request (Some (Body.mk "" " maintenance ")) Sample.today)
           (Sample.logged_in Sample.alice) (Body.mk "" " maintenance "));
    vm_compute; first [reflexivity | discriminate].
Defined.

(** Alice disables admin mode while she acts as Bob: ["user_id"] is still
    Bob's, and a second Disable changes nothing. *)
Lemma Disable_idempotent_and_framed_witness :
  stored (run (AdminModeDisableHandler (H := Sample.lib) Sample.handlers
                 (Sample.request_as_bob None Sample.today (Sample.today + Sample.minute)))
            (Sample.impersonating Sample.today)).2 !! "user_id"
  = Some (VString "00000000-0000-0000-0000-00000000000b").
Proof.
  etrans.
  - apply (proj2 (Disable_idempotent_and_framed (H := Sample.lib) Sample.handlers
                    (Sample.request_as_bob None Sample.today
                       (Sample.today + Sample.minute))
                    (Sample.impersonating Sample.today) eq_refl eq_refl) "user_id");
      discriminate.
  - vm_compute. reflexivity.
Defined.


(** The status Alice sees and the gate agree: either the grant is shown and
    the gate is open, or none is shown and the gate answers 403. *)
Lemma AdminModeStatus_agrees_with_gate_witness :
  (∃ adminState,
     response (run (AdminModeStatusHandler Sample.handlers
                      (Sample.request None (Sample.today + Sample.minute)))
                 (Sample.elevated Sample.today)).2
     = Some (Response.mk http.StatusOK (AdminModeStatusResponse true (Some adminState)))
     ∧ ∀ next,
         run (RequireAdminMode Sample.middleware next
                (Sample.request None (Sample.today + Sample.minute)))
           (Sample.elevated Sample.today)
         = next (Sample.request None (Sample.today + Sample.minute))
             (start (Sample.elevated Sample.today)))
  ∨ (response (run (AdminModeStatusHandler Sample.handlers
                      (Sample.request None (Sample.today + Sample.minute)))
                 (Sample.elevated Sample.today)).2
     = Some (Response.mk http.StatusOK (AdminModeStatusResponse true None))
     ∧ ∀ next,
         ∃ s',
           run (RequireAdminMode Sample.middleware next
                  (Sample.request None (Sample.today + Sample.minute)))
             (Sample.elevated Sample.today)
           = (Returned, s')
           ∧ status_of s' = Some http.StatusForbidden).
Proof.
  exact (AdminModeStatus_agrees_with_gate Sample.handlers Sample.middleware
           (Sample.request None (Sample.today + Sample.minute))
           (Sample.elevated Sample.today) Sample.alice eq_refl eq_refl eq_refl eq_refl).
Defined.

(** Alice stops acting as Bob: ["user_id"] is hers again. *)
Lemma Stop_restores_identity_witness :
  ∃ res s',
    run (ImpersonationStopHandler (H := Sample.lib) Sample.handlers
           (Sample.request_as_bob None Sample.today (Sample.today + 5 * Sample.minute)))
      (Sample.impersonating Sample.today)
    = (res, s')
    ∧ session s' !! "user_id" = Some (VString "00000000-0000-0000-0000-00000000000a").
Proof.
  destruct (Stop_restores_identity (H := Sample.lib) Sample.handlers
              (Sample.request_as_bob None Sample.today (Sample.today + 5 * Sample.minute))
              (Sample.impersonating Sample.today) (Sample.grant Sample.today)
              "00000000-0000-0000-0000-00000000000a" 10%N)
    as (res & s' & Hrun & _ & Hid & _);
    [vm_compute; reflexivity ..|].
  exists res, s'. split; [exact Hrun|exact Hid].
Defined.

(** Alice starts to act as Bob and stops: her session is the elevated one
    she started from. *)
Lemma Start_then_Stop_restores_witness :
  stored (run (ImpersonationStopHandler (H := Sample.lib) Sample.handlers
                 (Sample.request_as_bob None Sample.today
                    (Sample.today + 5 * Sample.minute)))
            (stored
               (run (ImpersonationStartHandler (H := Sample.lib) Sample.handlers
                       (Sample.request
                          (Some (Body.mk "00000000-0000-0000-0000-00000000000b" "debug"))
                          Sample.today))
                  (Sample.elevated Sample.today)).2)).2
  = Sample.elevated Sample.today.
Proof.
  apply (Start_then_Stop_restores (H := Sample.lib) Sample.handlers
           (Sample.request
              (Some (Body.mk "00000000-0000-0000-0000-00000000000b" "debug"))
              Sample.today)
           (Sample.elevated Sample.today) Sample.alice 10%N);
    vm_compute; reflexivity.
Defined.

(** Forty minutes into the impersonation Alice asks for its status: the
    answer is that none runs, and the identity is hers again. *)
Lemma ImpersonationStatus_on_expired_grant_witness :
  ∃ s',
    run (ImpersonationStatusHandler (H := Sample.lib) Sample.handlers
           (Sample.request_as_bob None Sample.today (Sample.today + 40 * Sample.minute)))
      (Sample.impersonating Sample.today)
    = (Ret tt, s')
    ∧ session s'
      = restored "00000000-0000-0000-0000-00000000000a" (Sample.impersonating Sample.today).
Proof.
  destruct (proj1 (ImpersonationStatus_on_expired_grant (H := Sample.lib) Sample.handlers
                     (Sample.request_as_bob None Sample.today
                        (Sample.today + 40 * Sample.minute))
                     (Sample.impersonating Sample.today) (Sample.grant Sample.today)
                     Sample.bob eq_refl eq_refl eq_refl eq_refl eq_refl)
              "00000000-0000-0000-0000-00000000000a" 10%N eq_refl eq_refl)
    as (s' & Hrun & _ & Hsession & _).
  exists s'. split; [exact Hrun|exact Hsession].
Defined.

(** Forty minutes into the impersonation a request meets the repair; the
    next request is Alice's. *)
Lemma Authenticate_retry_after_repair_witness :
  run (Authenticate (H := Sample.lib) Sample.middleware
         (Sample.incoming (Sample.today + 41 * Sample.minute)))
    (stored
       (run (Authenticate (H := Sample.lib) Sample.middleware
               (Sample.incoming (Sample.today + 40 * Sample.minute)))
          (Sample.impersonating Sample.today)).2)
  = (Ret (inr Sample.alice), start (Sample.elevated Sample.today)).
Proof.
  etrans.
  - apply (proj1 (proj1 (Authenticate_retry_after_repair (H := Sample.lib)
                           Sample.middleware
                           (Sample.incoming (Sample.today + 40 * Sample.minute))
                           (Sample.impersonating Sample.today)
                           (Sample.grant Sample.today)
                           "00000000-0000-0000-0000-00000000000a" Sample.middleware
                           (Sample.incoming (Sample.today + 41 * Sample.minute))
                           eq_refl eq_refl eq_refl eq_refl eq_refl eq_refl eq_refl
                           eq_refl)
                    eq_refl)
             10%N Sample.alice);
      vm_compute; reflexivity.
  - vm_compute. reflexivity.
Defined.

(** While Alice acts as Bob, the admin-only routes answer 403. *)
Lemma gates_refuse_non_admin_witness :
  run (RequireAuth (H := Sample.lib) Sample.middleware
         (RequireAdminMode Sample.middleware
            (ImpersonationStartHandler (H := Sample.lib) Sample.handlers))
         (Sample.incoming (Sample.today + Sample.minute)))
    (Sample.impersonating Sample.today)
  = (Returned,
     rejected (Sample.impersonating Sample.today) http.StatusForbidden
       "Admin privileges required").
Proof.
  apply (proj2 (gates_refuse_non_admin (H := Sample.lib) Sample.middleware
                  (ImpersonationStartHandler (H := Sample.lib) Sample.handlers)
                  (Sample.incoming (Sample.today + Sample.minute))
                  (Sample.impersonating Sample.today) Sample.bob eq_refl eq_refl)).
Defined.

(** Enable reached without [RequireAuth]: the grant is stored, then the
    handler panics. *)
Lemma admin_mode_handlers_save_before_panicking_witness :
  run (AdminModeEnableHandler (H := Sample.lib) Sample.handlers
         (Request.mk Ctx.Background (Some (Body.mk "" "maintenance")) "192.0.2.1"
            "curl/8" Sample.today false false))
    (Sample.logged_in Sample.bob)
  = (Panicked,
     mkSt
       (<["admin_mode" := VAdminMode (Sample.elevation Sample.today)]>
          (Sample.logged_in Sample.bob))
       (<["admin_mode" := VAdminMode (Sample.elevation Sample.today)]>
          (Sample.logged_in Sample.bob))
       1%nat [] None).
Proof.
  apply (proj1 (admin_mode_handlers_save_before_panicking (H := Sample.lib)
                  Sample.handlers
                  (Request.mk Ctx.Background (Some (Body.mk "" "maintenance"))
                     "192.0.2.1" "curl/8" Sample.today false false)
                  (Sample.logged_in Sample.bob) eq_refl eq_refl eq_refl)
           (Body.mk "" "maintenance") eq_refl);
    vm_compute; discriminate.
Defined.

(** An entry written while Alice acts as Bob names both. *)
Lemma emit_records_impersonation_witness :
  ∃ a,
    emit (H := Sample.lib) Sample.handlers
      (Sample.request_as_bob None Sample.today (Sample.today + Sample.minute))
      ActionImpersonationStopped "00000000-0000-0000-0000-00000000000b" ∅ "192.0.2.1"
      (start (Sample.impersonating Sample.today))
    = (Ret tt,
       mkSt (Sample.impersonating Sample.today) (Sample.impersonating Sample.today)
         0%nat [a] None)
    ∧ AuditLog.Changes a !! "_impersonation"
      = Some (DObject
                (<["impersonated_user_id" := "00000000-0000-0000-0000-00000000000b"]>
                 (<["impersonated_user_email" := "bob@example.com"]>
                  (<["impersonated_user_name" := "Bob"]>
                   (<["performed_by_admin_id" :=
                        "00000000-0000-0000-0000-00000000000a"]> ∅))))).
Proof.
  destruct (emit_records_impersonation (H := Sample.lib) Sample.handlers
              (Sample.request_as_bob None Sample.today (Sample.today + Sample.minute))
              ActionImpersonationStopped "00000000-0000-0000-0000-00000000000b" ∅
              "192.0.2.1" (start (Sample.impersonating Sample.today)) Sample.bob
              eq_refl eq_refl (lookup_empty _))
    as (a & Hrun & _ & Hmeta & _).
  exists a. split; [exact Hrun|exact Hmeta].
Defined.

(** Alice logs out while she acts as Bob: nothing of login, elevation and
    impersonation is left. *)
Lemma Logout_clears_session_witness :
  stored (run (LogoutHandler (H := Sample.lib) (H0 := sample_err)
                 (OIDCHandlers.mk Sample.users true)
                 (Sample.incoming (Sample.today + Sample.minute)))
            (Sample.impersonating Sample.today)).2
  = ∅.
Proof.
  apply map_eq. intros k.
  etrans.
  - apply (Logout_clears_session (H := Sample.lib) (H0 := sample_err)
             (OIDCHandlers.mk Sample.users true)
             (Sample.incoming (Sample.today + Sample.minute))
             (Sample.impersonating Sample.today) eq_refl eq_refl).
  - case_bool_decide as Hk; [by rewrite lookup_empty|].
    rewrite lookup_empty. unfold Sample.impersonating, Sample.elevated, Sample.logged_in.
    rewrite !lookup_insert_ne; [apply lookup_empty|..]; intros <-; apply Hk; set_solver.
Defined.

(** That logout is attributed to Bob. *)
Lemma Logout_is_attributed_to_session_user_witness :
  ∃ a,
    audit (run (LogoutHandler (H := Sample.lib) (H0 := sample_err)
                  (OIDCHandlers.mk Sample.users true)
                  (Sample.incoming (Sample.today + Sample.minute)))
             (Sample.impersonating Sample.today)).2
    = [a]
    ∧ AuditLog.ActorUserID a = NullUUID.mk (User.ID Sample.bob) true.
Proof.
  destruct (Logout_is_attributed_to_session_user (H := Sample.lib) (H0 := sample_err)
              (OIDCHandlers.mk Sample.users true)
              (Sample.incoming (Sample.today + Sample.minute))
              (Sample.impersonating Sample.today)
              "00000000-0000-0000-0000-00000000000b" 11%N
              eq_refl eq_refl eq_refl eq_refl)
    as (a & Haudit & Hactor & _); [discriminate|].
  exists a. split; [exact Haudit|exact Hactor].
Defined.

(** Ten minutes into the impersonation the session check reports Bob and
    the grant, as [Authenticate] resolves Bob. *)
Lemma SessionCheck_agrees_with_Authenticate_witness :
  run (SessionCheckHandler (H := Sample.lib) (OIDCHandlers.mk Sample.users true) false
         (Sample.incoming (Sample.today + 10 * Sample.minute)))
    (Sample.impersonating Sample.today)
  = (Ret (Reply.mk http.StatusOK
            (ReplySession
               (SessionResponse.mk true (Some Sample.bob) ""
                  (Some (Sample.grant Sample.today))))),
     start (Sample.impersonating Sample.today)).
Proof.
  apply (SessionCheck_agrees_with_Authenticate (H := Sample.lib)
           (OIDCHandlers.mk Sample.users true) Sample.middleware false
           (Sample.incoming (Sample.today + 10 * Sample.minute))
           (Sample.impersonating Sample.today) Sample.bob (λ _, eq_refl) eq_refl).
Defined.

(** Forty minutes into it the session check still reports Bob and the
    grant, while [Authenticate], over the store that keeps the session in
    the cookie, refuses the request. *)
Lemma SessionCheck_ignores_expiry_witness :
  run (SessionCheckHandler (H := Sample.lib) (OIDCHandlers.mk Sample.users true) false
         (Sample.incoming (Sample.today + 40 * Sample.minute)))
    (Sample.impersonating Sample.today)
  = (Ret (Reply.mk http.StatusOK
            (ReplySession
               (SessionResponse.mk true (Some Sample.bob) ""
                  (Some (Sample.grant Sample.today))))),
     start (Sample.impersonating Sample.today))
  ∧ ((run (Authenticate (H := Sample.lib) Sample.middleware_on_cookies
             (Sample.incoming (Sample.today + 40 * Sample.minute)))
        (Sample.impersonating Sample.today)).1
     = Ret (inl (NewHTTPError http.StatusUnauthorized "Impersonation session expired"))
     ∨ (run (Authenticate (H := Sample.lib) Sample.middleware_on_cookies
               (Sample.incoming (Sample.today + 40 * Sample.minute)))
          (Sample.impersonating Sample.today)).1
       = Panicked).
Proof.
  destruct (SessionCheck_ignores_expiry (H := Sample.lib)
              (OIDCHandlers.mk Sample.users true) Sample.middleware_on_cookies false
              (Sample.incoming (Sample.today + 40 * Sample.minute))
              (Sample.impersonating Sample.today) (Sample.grant Sample.today)
              "00000000-0000-0000-0000-00000000000b" 11%N Sample.bob)
    as (Hcheck & Hauth & _); [vm_compute; reflexivity ..|].
  split; [exact Hcheck|exact Hauth].
Defined.

(** Bob was deleted from a store that only knows Alice while Alice acted as
    him: the session check drops the login and leaves the grant. *)
Lemma SessionCheck_drops_unresolved_login_witness :
  session (run (SessionCheckHandler (H := Sample.lib)
                  (OIDCHandlers.mk (λ id, if (id =? 10)%N then Some Sample.alice else None)
                     true)
                  false (Sample.incoming (Sample.today + Sample.minute)))
             (Sample.impersonating Sample.today)).2
  = delete "user_id" (delete "logged" (Sample.impersonating Sample.today)).
Proof.
  apply (SessionCheck_drops_unresolved_login (H := Sample.lib)
           (OIDCHandlers.mk (λ id, if (id =? 10)%N then Some Sample.alice else None) true)
           false (Sample.incoming (Sample.today + Sample.minute))
           (Sample.impersonating Sample.today) eq_refl eq_refl).
  intros userIDStr userID [= <-] [= <-]. reflexivity.
Defined.

(** Alice's ID as an actor goes to the database and comes back. *)
Lemma NullUUID_Value_Scan_round_trip_witness :
  NullUUID_Scan (H := Sample.lib) (H0 := sample_err) NullUUID.zero
    (NullUUID_Value (H := Sample.lib) (NullUUID.mk 10%N true))
  = (NullUUID.mk 10%N true, false).
Proof.
  apply (NullUUID_Value_Scan_round_trip (H := Sample.lib) (H0 := sample_err)
           NullUUID.zero (NullUUID.mk 10%N true) eq_refl).
Defined.
